(** * translate_movie: the pipeline controller of [core.py], embedded in Rocq

    The controller glues three external tools (a downloader, a transcriber, a
    translator) and a small file-staging state machine.  The embedding keeps
    the shape of the Python source:

    - paths and file names are [string]s, compared as the program compares
      them (character by character; two spellings of one file are two keys);
    - the file system is a finite map from path to regular file (there are no
      directories: a directory is the set of the keys that lie in it),
      together with the answer the operating system gives to every system
      call that can be refused ([fault]);
    - [os.environ] is a finite map from names to values;
    - every function of [core.py] that touches the outside world is a
      computation in a state-and-exception monad over [world];
    - external processes, the module constant [DEBUG] and the text Python
      prints for library objects are collected in the class [Platform]. *)

From Stdlib Require Import ZArith Ascii.
From stdpp Require Import gmap strings list fin_maps pretty.

Local Open Scope Z_scope.

(** ** Python [str] methods used by [core.py] *)

(** [s.startswith(p)] *)
Fixpoint startswith (s p : string) {struct p} : bool :=
  match p with
  | EmptyString => true
  | String c p' =>
      match s with
      | EmptyString => false
      | String d s' => bool_decide (c = d) && startswith s' p'
      end
  end.

(** [s.endswith(p)]: some tail of [s] is [p]. *)
Fixpoint endswith (s p : string) : bool :=
  bool_decide (s = p) ||
  match s with
  | EmptyString => false
  | String _ s' => endswith s' p
  end.

(** [c in s] for a single character [c] *)
Fixpoint contains (c : ascii) (s : string) : bool :=
  match s with
  | EmptyString => false
  | String d s' => bool_decide (c = d) || contains c s'
  end.

(** [s[len(p):]] when [s.startswith(p)] *)
Fixpoint strip_prefix (p s : string) : option string :=
  match p with
  | EmptyString => Some s
  | String c p' =>
      match s with
      | EmptyString => None
      | String d s' => if bool_decide (c = d) then strip_prefix p' s' else None
      end
  end.

(** The last character of a string, if it has one. *)
Fixpoint last_char (s : string) : option ascii :=
  match s with
  | EmptyString => None
  | String c EmptyString => Some c
  | String _ s' => last_char s'
  end.

(** [s.rstrip('/')] *)
Fixpoint rstrip_sep (s : string) : string :=
  match s with
  | EmptyString => EmptyString
  | String c s' =>
      match rstrip_sep s' with
      | EmptyString => if bool_decide (c = "/"%char) then EmptyString else String c EmptyString
      | r => String c r
      end
  end.

(** [(s[:i], s[i:])] with [i = s.rfind(c) + 1]: the cut after the last [c]. *)
Fixpoint rsplit_after (c : ascii) (s : string) : string * string :=
  match s with
  | EmptyString => (EmptyString, EmptyString)
  | String d s' =>
      match rsplit_after c s' with
      | (EmptyString, t) =>
          if bool_decide (d = c) then (String d EmptyString, t)
          else (EmptyString, String d t)
      | (h, t) => (String d h, t)
      end
  end.

(** [(s[:i], s[i:])] with [i = s.find(c)], or [(s, "")] when [c] is absent. *)
Fixpoint split_before (c : ascii) (s : string) : string * string :=
  match s with
  | EmptyString => (EmptyString, EmptyString)
  | String d s' =>
      if bool_decide (d = c) then (EmptyString, s)
      else let '(h, t) := split_before c s' in (String d h, t)
  end.

(** Drop the last character. *)
Fixpoint drop_last (s : string) : string :=
  match s with
  | EmptyString => EmptyString
  | String _ EmptyString => EmptyString
  | String c s' => String c (drop_last s')
  end.

(** ** [os.path] (POSIX flavour) *)

(** [os.path.join(a, b)] *)
Definition path_join (a b : string) : string :=
  if startswith b "/" then b
  else if bool_decide (a = "") || endswith a "/" then a +:+ b
  else a +:+ "/" +:+ b.

(** [os.path.dirname(p)] *)
Definition dirname (p : string) : string :=
  let head := fst (rsplit_after "/" p) in
  match rstrip_sep head with
  | EmptyString => head
  | stripped => stripped
  end.

(** [os.path.basename(p)] *)
Definition basename (p : string) : string := snd (rsplit_after "/" p).

(** Only dots (or nothing at all). *)
Fixpoint all_dots (s : string) : bool :=
  match s with
  | EmptyString => true
  | String c s' => bool_decide (c = "."%char) && all_dots s'
  end.

(** [os.path.splitext(p)[0]]: the cut is before the last dot of the last
    path component, unless only dots precede it there. *)
Definition splitext_root (p : string) : string :=
  let '(head, base) := rsplit_after "/" p in
  match rsplit_after "." base with
  | (EmptyString, _) => p
  | (h, _) =>
      let root := drop_last h in
      if all_dots root then p else head +:+ root
  end.

(** ** The world the controller runs in *)

(** A regular file: its bytes, its modification time (only the order of
    modification times is observed) and whether it may be executed. *)
Record file := File {
  content : string;
  mtime : Z;
  executable : bool;
}.

(** The system calls [core.py] makes that the operating system may refuse. *)
Inductive sysop :=
  | OpStat (p : string)
  | OpListdir (d : string)
  | OpRemove (p : string)
  | OpReplace (src dst : string)
  | OpCopy (src dst : string)
  | OpMakedirs (d : string).

(** The file system: which files exist, and for every system call whether
    it fails ([Some] text of the [OSError]) or is carried out ([None]).  The
    operating system answers the same call in the same way each time it is
    asked.  External processes may change both. *)
Record disk := Disk {
  files : gmap string file;
  fault : sysop -> option string;
}.

(** The password database, as [os.path.expanduser] consults it. *)
Record passwd := Passwd {
  pw_self : option string;
  pw_users : gmap string string;
}.

Record world := World {
  fs : disk;
  environ : gmap string string;
  pwd : passwd;
  stdout : list string;
  stderr : list string;
  spawned : list (list string * gmap string string);
}.

(** The exceptions that travel through [core.py]. *)
Inductive exn :=
  | FileNotFoundError (msg : string)
  | OSError (msg : string)
  | CalledProcessError (returncode : Z) (cmd : list string)
  | RuntimeError (msg : string)
  | IndexError (msg : string).

Inductive result (A : Type) :=
  | Ok (a : A)
  | Raise (e : exn).
Arguments Ok {A} a.
Arguments Raise {A} e.

(** How a child process ends: with an exit status, or not started at all. *)
Inductive spawn_result :=
  | Exited (code : Z)
  | SpawnFailed (msg : string).

(** What the embedding takes from outside [core.py]. *)
Class Platform := {
  (** the module constant [DEBUG], fixed when the module is imported *)
  DEBUG : bool;
  (** an external process: its argument vector, its environment, what it
      does to the file system and how it ends *)
  spawn : list string -> gmap string string -> disk -> spawn_result * disk;
  (** [repr] of a list of [str] *)
  py_repr : list string -> string;
  (** [shlex.quote] *)
  shlex_quote : string -> string;
  (** [str] of a [subprocess.CalledProcessError] *)
  cpe_str : Z -> list string -> string;
  (** a copy of [src] to [dst] that fails: what it leaves at [dst], from
      [src], [dst] and the file being copied.  [None]: the copy failed before
      the destination was opened, which is untouched; [Some g]: the
      destination was opened (created, or emptied) and holds [g], that is
      the bytes that had arrived under the times and mode it has by then *)
  torn_copy : string -> string -> file -> option file;
}.

(** ** State and exceptions *)

Definition M (A : Type) : Type := world -> result A * world.

Definition ret {A} (a : A) : M A := fun w => (Ok a, w).
Definition raise {A} (e : exn) : M A := fun w => (Raise e, w).
Definition bind {A B} (m : M A) (k : A -> M B) : M B :=
  fun w =>
    match m w with
    | (Ok a, w') => k a w'
    | (Raise e, w') => (Raise e, w')
    end.
(** [try: m  except Exception as e: h e] *)
Definition try_except {A} (m : M A) (h : exn -> M A) : M A :=
  fun w =>
    match m w with
    | (Ok a, w') => (Ok a, w')
    | (Raise e, w') => h e w'
    end.

Notation "x <- m ;; k" := (bind m (fun x => k))
  (at level 62, m at next level, right associativity).
Notation "m ;;; k" := (bind m (fun _ => k))
  (at level 62, right associativity).

(** [if c: m] *)
Definition when (c : bool) (m : M unit) : M unit := if c then m else ret tt.

(** [for x in l: body x] *)
Fixpoint for_each {A} (l : list A) (body : A -> M unit) : M unit :=
  match l with
  | [] => ret tt
  | x :: l' => body x ;;; for_each l' body
  end.

(** [[f x for x in l]] for an [f] that may raise *)
Fixpoint map_m {A B} (f : A -> M B) (l : list A) : M (list B) :=
  match l with
  | [] => ret []
  | x :: l' => y <- f x ;; ys <- map_m f l' ;; ret (y :: ys)
  end.

Definition str_exn `{Platform} (e : exn) : string :=
  match e with
  | FileNotFoundError msg => msg
  | OSError msg => msg
  | CalledProcessError rc cmd => cpe_str rc cmd
  | RuntimeError msg => msg
  | IndexError msg => msg
  end.

(** ** Output *)

Definition with_stdout (l : list string) (w : world) : world :=
  World (fs w) (environ w) (pwd w) l (stderr w) (spawned w).

Definition with_stderr (l : list string) (w : world) : world :=
  World (fs w) (environ w) (pwd w) (stdout w) l (spawned w).

(** [print(s)] *)
Definition print (s : string) : M unit :=
  fun w => (Ok tt, with_stdout (stdout w ++ [s]) w).

(** [print(s, file=sys.stderr)] *)
Definition eprint (s : string) : M unit :=
  fun w => (Ok tt, with_stderr (stderr w ++ [s]) w).

(** [debug] *)
Definition debug `{Platform} (msg : string) : M unit :=
  when DEBUG (eprint ("[DEBUG] " +:+ msg)).

(** ** System calls *)

Definition with_files (fm : gmap string file) (w : world) : world :=
  World (Disk fm (fault (fs w))) (environ w) (pwd w) (stdout w) (stderr w) (spawned w).

Definition set_files (fm : gmap string file) : M unit :=
  fun w => (Ok tt, with_files fm w).

Definition enoent (p : string) : exn :=
  FileNotFoundError ("[Errno 2] No such file or directory: '" +:+ p +:+ "'").

(** A system call: refused when the file system says so, else [body]. *)
Definition syscall {A} (op : sysop) (body : M A) : M A :=
  fun w =>
    match fault (fs w) op with
    | Some msg => (Raise (OSError msg), w)
    | None => body w
    end.

(** [os.stat(p)], the call under [isfile], [exists], [access] and [getmtime] *)
Definition os_stat (p : string) : M file :=
  syscall (OpStat p) (fun w =>
    match files (fs w) !! p with
    | Some f => (Ok f, w)
    | None => (Raise (enoent p), w)
    end).

(** [os.path.isfile(p)]: false on any error. *)
Definition os_path_isfile (p : string) : M bool :=
  try_except (os_stat p ;;; ret true) (fun _ => ret false).

(** [os.path.exists(p)]: false on any error. *)
Definition os_path_exists (p : string) : M bool :=
  try_except (os_stat p ;;; ret true) (fun _ => ret false).

(** [os.access(p, os.X_OK)]: false on any error. *)
Definition os_access_x (p : string) : M bool :=
  try_except (f <- os_stat p ;; ret (executable f)) (fun _ => ret false).

(** [os.path.getmtime(p)] *)
Definition os_path_getmtime (p : string) : M Z :=
  f <- os_stat p ;; ret (mtime f).

(** The name under which the key [k] is listed in directory [d], if it
    lies directly in [d]. *)
Definition entry_name (d k : string) : option string :=
  match strip_prefix (if endswith d "/" then d else d +:+ "/") k with
  | Some n => if bool_decide (n = "") || contains "/" n then None else Some n
  | None => None
  end.

Definition dir_entries (d : string) (fm : gmap string file) : list string :=
  omap (entry_name d) ((map_to_list fm).*1).

(** [os.listdir(d)]; the empty path names no directory. *)
Definition os_listdir (d : string) : M (list string) :=
  if bool_decide (d = "") then raise (enoent "")
  else syscall (OpListdir d) (fun w => (Ok (dir_entries d (files (fs w))), w)).

(** [os.remove(p)] *)
Definition os_remove (p : string) : M unit :=
  syscall (OpRemove p) (fun w =>
    match files (fs w) !! p with
    | Some _ => set_files (delete p (files (fs w))) w
    | None => (Raise (enoent p), w)
    end).

(** [os.replace(src, dst)]: an existing [dst] is replaced. *)
Definition os_replace (src dst : string) : M unit :=
  syscall (OpReplace src dst) (fun w =>
    match files (fs w) !! src with
    | Some f => set_files (<[dst := f]> (delete src (files (fs w)))) w
    | None => (Raise (enoent src), w)
    end).

(** What a copy of [src] to [dst] that fails leaves behind. *)
Definition torn_files `{Platform} (src dst : string) (fm : gmap string file)
    : gmap string file :=
  match fm !! src with
  | Some f =>
      match torn_copy src dst f with
      | Some g => <[dst := g]> fm
      | None => fm
      end
  | None => fm
  end.

(** [shutil.copy2(src, dst)]: bytes and metadata.  The library function is
    [copyfile] (open [src], open [dst] for writing, transfer the bytes)
    followed by [copystat] (times and mode), and it is not atomic: when it
    raises, the destination is untouched, or it holds what had been written
    by then ([torn_files]).  When it returns, [dst] is an exact copy.  The
    destination is never a directory here, the file system holding regular
    files only. *)
Definition shutil_copy2 `{Platform} (src dst : string) : M unit :=
  fun w =>
    match fault (fs w) (OpCopy src dst) with
    | Some msg =>
        (Raise (OSError msg), with_files (torn_files src dst (files (fs w))) w)
    | None =>
        match files (fs w) !! src with
        | Some f => set_files (<[dst := f]> (files (fs w))) w
        | None => (Raise (enoent src), w)
        end
    end.

(** [os.makedirs(d, exist_ok=True)]; directories are implicit in the keys. *)
Definition os_makedirs (d : string) : M unit :=
  syscall (OpMakedirs d) (ret tt).

(** [subprocess.run(cmd, env=env)] without [check]: the return code.
    [env = None] hands the child the parent's environment. *)
Definition subprocess_run `{Platform} (cmd : list string)
    (env : option (gmap string string)) : M Z :=
  fun w =>
    let e := default (environ w) env in
    let '(r, d) := spawn cmd e (fs w) in
    let w' := World d (environ w) (pwd w) (stdout w) (stderr w)
                    (spawned w ++ [(cmd, e)]) in
    match r with
    | Exited code => (Ok code, w')
    | SpawnFailed msg => (Raise (OSError msg), w')
    end.

(** Read the state without changing it. *)
Definition gets {A} (f : world -> A) : M A := fun w => (Ok (f w), w).

(** ** [os.path.expandvars] and [os.path.expanduser] *)

(** [\w] under [re.ASCII] *)
Definition is_word (c : ascii) : bool :=
  let n := nat_of_ascii c in
  ((48 <=? n) && (n <=? 57) || (65 <=? n) && (n <=? 90) ||
   (97 <=? n) && (n <=? 122) || (n =? 95))%nat.

(** The longest run of word characters at the head of [s], and the rest. *)
Fixpoint span_word (s : string) : string * string :=
  match s with
  | EmptyString => (EmptyString, EmptyString)
  | String c s' =>
      if is_word c then let '(a, b) := span_word s' in (String c a, b)
      else (EmptyString, s)
  end.

(** The pattern [(\w+|\{[^}]*\})] anchored at the head of [r]: the variable
    name, the text matched and what follows it. *)
Definition var_match (r : string) : option (string * string * string) :=
  match span_word r with
  | (String c n, rest) => Some (String c n, String c n, rest)
  | (EmptyString, _) =>
      match r with
      | String "{"%char r' =>
          match split_before "}" r' with
          | (n, String _ rest) => Some (n, "{" +:+ n +:+ "}", rest)
          | (_, EmptyString) => None
          end
      | _ => None
      end
  end.

(** The scan of [expandvars]: every [$name] and [${name}] whose name is set
    is replaced by its value, which is not scanned again; one unit of fuel
    per character is enough. *)
Fixpoint expandvars_go (fuel : nat) (env : gmap string string) (s : string) : string :=
  match fuel, s with
  | O, _ => s
  | _, EmptyString => EmptyString
  | S fuel', String c r =>
      if bool_decide (c = "$"%char) then
        match var_match r with
        | Some (name, text, rest) =>
            match env !! name with
            | Some v => v +:+ expandvars_go fuel' env rest
            | None => String c text +:+ expandvars_go fuel' env rest
            end
        | None => String c (expandvars_go fuel' env r)
        end
      else String c (expandvars_go fuel' env r)
  end.

Definition expandvars (w : world) (path : string) : string :=
  expandvars_go (String.length path) (environ w) path.

Definition expanduser (w : world) (path : string) : string :=
  match path with
  | String "~"%char r =>
      let '(name, tail) := split_before "/" r in
      let userhome :=
        if bool_decide (name = "") then
          match environ w !! "HOME" with
          | Some h => Some h
          | None => pw_self (pwd w)
          end
        else pw_users (pwd w) !! name in
      match userhome with
      | None => path
      | Some h =>
          match rstrip_sep h +:+ tail with
          | EmptyString => "/"
          | p => p
          end
      end
  | _ => path
  end.

(** ** [core.py] *)

(** [os.environ.get(k, d)] *)
Definition environ_get (w : world) (k d : string) : string :=
  default d (environ w !! k).

(** The keys of the configuration that are read from the environment as
    they are, with their defaults. *)
Definition plain_defaults : list (string * string) :=
  [ ("WHISPER_MODEL", "large");
    ("WHISPER_LANGUAGE", "en");
    ("OPENAI_ENDPOINT", "http://localhost:20000/v1");
    ("OPENAI_API_KEY", "lm-studio");
    ("OPENAI_MODEL", "qwen3-30b-a3b-instruct-2507");
    ("SOURCE_LANG", "en");
    ("TARGET_LANG", "pl");
    ("YT_DLP_PATH", "/usr/local/bin/yt-dlp");
    ("YT_DLP_OUTPUT_NAME", "ytDownloadedFile");
    ("TRANSLATION_BATCH_SIZES", "[5,10]") ].

Definition TRANSLATOR_PATH_default : string :=
  "$HOME/tools/translateMovie/chatgpt-subtitle-translator".

Definition get_config (w : world) : gmap string string :=
  <["WHISPER_MODEL" := environ_get w "WHISPER_MODEL" "large"]> (
  <["WHISPER_LANGUAGE" := environ_get w "WHISPER_LANGUAGE" "en"]> (
  <["OPENAI_ENDPOINT" := environ_get w "OPENAI_ENDPOINT" "http://localhost:20000/v1"]> (
  <["OPENAI_API_KEY" := environ_get w "OPENAI_API_KEY" "lm-studio"]> (
  <["OPENAI_MODEL" := environ_get w "OPENAI_MODEL" "qwen3-30b-a3b-instruct-2507"]> (
  <["TRANSLATOR_PATH" :=
      expanduser w (expandvars w
        (environ_get w "TRANSLATOR_PATH"
           "$HOME/tools/translateMovie/chatgpt-subtitle-translator"))]> (
  <["SOURCE_LANG" := environ_get w "SOURCE_LANG" "en"]> (
  <["TARGET_LANG" := environ_get w "TARGET_LANG" "pl"]> (
  <["YT_DLP_PATH" := environ_get w "YT_DLP_PATH" "/usr/local/bin/yt-dlp"]> (
  <["YT_DLP_OUTPUT_NAME" := environ_get w "YT_DLP_OUTPUT_NAME" "ytDownloadedFile"]> (
  <["TRANSLATION_BATCH_SIZES" := environ_get w "TRANSLATION_BATCH_SIZES" "[5,10]"]>
  ∅)))))))))).

(** [run_cmd(cmd, check, env=env)]; the output of the child is never
    captured. *)
Definition run_cmd `{Platform} (cmd : list string) (check : bool)
    (env : option (gmap string string)) : M Z :=
  debug ("Running command: " +:+ String.concat " " (shlex_quote <$> cmd)) ;;;
  rc <- subprocess_run cmd env ;;
  if check && negb (bool_decide (rc = 0)) then raise (CalledProcessError rc cmd)
  else ret rc.

Definition update_ytdlp `{Platform} (yt_dlp_path : string) : M unit :=
  eprint "=== Updating yt-dlp ===" ;;;
  run_cmd [ "sudo"; "wget";
            "https://github.com/yt-dlp/yt-dlp/releases/latest/download/yt-dlp";
            "-O"; yt_dlp_path ] true None ;;;
  run_cmd [ "sudo"; "chmod"; "a+rx"; yt_dlp_path ] true None ;;;
  eprint "yt-dlp updated successfully" ;;;
  run_cmd [ yt_dlp_path; "--version" ] true None ;;;
  ret tt.

(** [l.sort(key=..., reverse=True)] on a list that carries its keys: a
    stable sort, larger keys first. *)
Fixpoint insert_desc (x : Z * string) (l : list (Z * string)) : list (Z * string) :=
  match l with
  | [] => [x]
  | y :: l' => if fst x <? fst y then y :: insert_desc x l' else x :: l
  end.

Definition sort_desc (l : list (Z * string)) : list (Z * string) :=
  foldr insert_desc [] l.

(** Lines 64-78 of [download_video]: pick the newest matching file. *)
Definition pick_downloaded `{Platform} (output_dir output_name : string) : M string :=
  dir_list <- try_except (os_listdir output_dir) (fun _ => ret []) ;;
  let candidates :=
    path_join output_dir <$>
      filter (fun f => startswith f (output_name +:+ ".") = true) dir_list in
  match candidates with
  | [] =>
      debug ("Looking in output_dir: " +:+ output_dir) ;;;
      debug ("Directory listing: " +:+ py_repr dir_list) ;;;
      raise (FileNotFoundError "Could not find downloaded video file")
  | _ =>
      keys <- map_m os_path_getmtime candidates ;;
      match snd <$> sort_desc (zip keys candidates) with
      | [] => raise (IndexError "list index out of range")
      | downloaded :: _ =>
          debug ("Downloaded file: " +:+ downloaded) ;;;
          ret downloaded
      end
  end.

(** Lines 46-62 of [download_video]: check the downloader, clear what an
    earlier download left, run the downloader. *)
Definition run_downloader `{Platform}
    (url output_dir yt_dlp_path output_name : string) : M unit :=
  eprint "=== Downloading video from URL ===" ;;;
  debug ("URL: " +:+ url) ;;;
  debug ("Output directory: " +:+ output_dir) ;;;
  missing <- (present <- os_path_exists yt_dlp_path ;;
              if negb present then ret true
              else runnable <- os_access_x yt_dlp_path ;; ret (negb runnable)) ;;
  if missing then
    raise (FileNotFoundError
             ("yt-dlp not found at " +:+ yt_dlp_path +:+ ". Run --update-ytdlp to install."))
  else
    old <- os_listdir output_dir ;;
    for_each old (fun fname =>
      when (startswith fname (output_name +:+ "."))
        (try_except (os_remove (path_join output_dir fname)) (fun _ => ret tt))) ;;;
    let out_template := path_join output_dir (output_name +:+ ".%(ext)s") in
    run_cmd [ yt_dlp_path; "-o"; out_template; url ] true None ;;;
    ret tt.

Definition download_video `{Platform}
    (url output_dir yt_dlp_path output_name : string) : M string :=
  run_downloader url output_dir yt_dlp_path output_name ;;;
  pick_downloaded output_dir output_name.

Definition ensure_whisper `{Platform}
    (video_file video_dir whisper_model whisper_lang : string) : M unit :=
  print ("=== Step 1: Generating " +:+ whisper_lang +:+ " subtitles with Whisper ===") ;;;
  debug ("Running Whisper with model: " +:+ whisper_model +:+ ", language: " +:+ whisper_lang) ;;;
  run_cmd [ "whisper"; video_file; "--model"; whisper_model; "--language"; whisper_lang;
            "--output_dir"; video_dir; "--output_format"; "srt" ] true None ;;;
  ret tt.

(** The argument vector [translate_subtitles] hands to the translator. *)
Definition node_cmd (translator_path openai_model srt_en srt_out
    source_lang target_lang batch_sizes : string) : list string :=
  [ "node";
    path_join (path_join translator_path "cli") "translator.mjs";
    "--from"; source_lang;
    "--to"; target_lang;
    "--model"; openai_model;
    "--input"; srt_en;
    "--output"; srt_out;
    "--no-use-moderator";
    "--batch-sizes"; batch_sizes ].

Definition translate_subtitles `{Platform}
    (translator_path openai_model srt_en srt_out source_lang target_lang
     batch_sizes openai_api_key openai_endpoint : string) : M unit :=
  print ("=== Step 2: Translating subtitles to " +:+ target_lang +:+ " ===") ;;;
  env0 <- gets environ ;;
  let env := <["OPENAI_BASE_URL" := openai_endpoint]>
               (<["OPENAI_API_KEY" := openai_api_key]> env0) in
  debug ("OpenAI endpoint: " +:+ openai_endpoint) ;;;
  debug ("OpenAI model: " +:+ openai_model) ;;;
  debug ("Translation: " +:+ source_lang +:+ " -> " +:+ target_lang) ;;;
  debug ("Batch sizes: " +:+ batch_sizes) ;;;
  debug ("Translator path: " +:+ translator_path +:+ "/cli/translator.mjs") ;;;
  debug ("Input file: " +:+ srt_en) ;;;
  debug ("Output file: " +:+ srt_out) ;;;
  returncode <- subprocess_run
    (node_cmd translator_path openai_model srt_en srt_out source_lang target_lang batch_sizes)
    (Some env) ;;
  debug ("Translation exit code: " +:+ pretty returncode) ;;;
  if negb (bool_decide (returncode = 0)) then
    raise (RuntimeError ("Translation failed with exit code " +:+ pretty returncode))
  else ret tt.

Definition postprocess_subtitles `{Platform}
    (video_dir video_name target_lang : string) : M (string * string) :=
  let srt_en := path_join video_dir (video_name +:+ ".srt") in
  let srt_translated := path_join video_dir (video_name +:+ "_" +:+ target_lang +:+ ".srt") in
  let srt_en_final := path_join video_dir (video_name +:+ "_en.srt") in
  try_except
    (present <- os_path_isfile srt_en ;;
     when present
       (try_except (os_replace srt_en srt_en_final)
          (fun _ => shutil_copy2 srt_en srt_en_final ;;; os_remove srt_en)))
    (fun e => debug ("Failed to rename original English srt: " +:+ str_exn e)) ;;;
  let srt_canonical := path_join video_dir (video_name +:+ ".srt") in
  try_except
    (present <- os_path_isfile srt_translated ;;
     when present
       (try_except (os_replace srt_translated srt_canonical)
          (fun _ => shutil_copy2 srt_translated srt_canonical ;;; os_remove srt_translated)))
    (fun e => debug ("Failed to move translated srt to canonical name: " +:+ str_exn e)) ;;;
  try_except
    (names <- os_listdir video_dir ;;
     for_each names (fun fname =>
       when (endswith fname (".progress_" +:+ target_lang +:+ ".csv"))
         (try_except
            (os_remove (path_join video_dir fname) ;;;
             debug ("Removed progress CSV: " +:+ fname))
            (fun e => debug ("Failed to remove " +:+ fname +:+ ": " +:+ str_exn e)))))
    (fun e => debug ("Error while cleaning progress files: " +:+ str_exn e)) ;;;
  ret (srt_en_final, srt_canonical).

(** The [argparse.Namespace] that [parse_args] returns. *)
Record Namespace := {
  ns_file : option string;
  ns_net : option string;
  ns_postprocess_only : option string;
  ns_skip_whisper : bool;
  ns_update_ytdlp : bool;
}.

(** Python truth of an optional string: [None] and [''] are false. *)
Definition truthy (o : option string) : bool :=
  match o with
  | Some (String _ _) => true
  | _ => false
  end.

(** Lines 345-389 of [main]: the post-processing written out in place, with
    [srt_en] and [srt_translated] as lines 294-295 computed them. *)
Definition main_postprocess_block `{Platform}
    (video_dir video_name srt_en srt_translated TARGET_LANG : string) : M unit :=
  let srt_en_final := path_join video_dir (video_name +:+ "_en.srt") in
  try_except
    (present <- os_path_isfile srt_en ;;
     when present
       (try_except (os_replace srt_en srt_en_final)
          (fun _ => shutil_copy2 srt_en srt_en_final ;;; os_remove srt_en)))
    (fun e => debug ("Failed to rename original English srt: " +:+ str_exn e)) ;;;
  let srt_canonical := path_join video_dir (video_name +:+ ".srt") in
  try_except
    (present <- os_path_isfile srt_translated ;;
     when present
       (try_except (os_replace srt_translated srt_canonical)
          (fun _ => shutil_copy2 srt_translated srt_canonical ;;; os_remove srt_translated)))
    (fun e => debug ("Failed to move translated srt to canonical name: " +:+ str_exn e)) ;;;
  try_except
    (names <- os_listdir video_dir ;;
     for_each names (fun fname =>
       when (endswith fname (".progress_" +:+ TARGET_LANG +:+ ".csv"))
         (try_except
            (os_remove (path_join video_dir fname) ;;;
             debug ("Removed progress CSV: " +:+ fname))
            (fun e => debug ("Failed to remove " +:+ fname +:+ ": " +:+ str_exn e)))))
    (fun e => debug ("Error while cleaning progress files: " +:+ str_exn e)) ;;;
  print ("English subtitles: " +:+ srt_en_final) ;;;
  print ("Translated subtitles: " +:+ srt_canonical).

(** [main], given the parsed arguments.  [bare] says that the program was
    started without any argument ([argv is None and len(sys.argv) == 1]);
    the help text [argparse] then prints is not recorded.  The result is the
    exit status, or the exception that leaves [main]. *)
Definition main `{Platform} (bare : bool) (args : Namespace) : M Z :=
  cfg <- gets get_config ;;
  let WHISPER_MODEL := cfg !!! "WHISPER_MODEL" in
  let WHISPER_LANGUAGE := cfg !!! "WHISPER_LANGUAGE" in
  let OPENAI_ENDPOINT := cfg !!! "OPENAI_ENDPOINT" in
  let OPENAI_API_KEY := cfg !!! "OPENAI_API_KEY" in
  let OPENAI_MODEL := cfg !!! "OPENAI_MODEL" in
  let TRANSLATOR_PATH := cfg !!! "TRANSLATOR_PATH" in
  let SOURCE_LANG := cfg !!! "SOURCE_LANG" in
  let TARGET_LANG := cfg !!! "TARGET_LANG" in
  let YT_DLP_PATH := cfg !!! "YT_DLP_PATH" in
  let YT_DLP_OUTPUT_NAME := cfg !!! "YT_DLP_OUTPUT_NAME" in
  let TRANSLATION_BATCH_SIZES := cfg !!! "TRANSLATION_BATCH_SIZES" in
  if bare then ret 0
  else if truthy (ns_postprocess_only args) then
    let video_file := default "" (ns_postprocess_only args) in
    present <- os_path_isfile video_file ;;
    if negb present then
      eprint ("Error: File not found: " +:+ video_file) ;;; ret 4
    else
      let video_dir := dirname video_file in
      let video_name := splitext_root (basename video_file) in
      paths <- postprocess_subtitles video_dir video_name TARGET_LANG ;;
      print ("English subtitles: " +:+ fst paths) ;;;
      print ("Translated subtitles: " +:+ snd paths) ;;;
      ret 0
  else if negb (truthy (ns_file args)) && negb (truthy (ns_net args)) then
    eprint "Error: one of --file or --net is required" ;;; ret 2
  else if ns_update_ytdlp args then
    try_except (update_ytdlp YT_DLP_PATH ;;; ret 0)
      (fun e => eprint ("Error updating yt-dlp: " +:+ str_exn e) ;;; ret 2)
  else
    acquired <-
      (if truthy (ns_net args) then
         DOWNLOAD_DIR <- gets (fun w => expanduser w (expandvars w "$HOME/Downloads")) ;;
         os_makedirs DOWNLOAD_DIR ;;;
         got <- try_except
           (video_file <- download_video (default "" (ns_net args)) DOWNLOAD_DIR
                            YT_DLP_PATH YT_DLP_OUTPUT_NAME ;;
            ret (inl video_file))
           (fun e =>
              eprint ("Error: Failed to download video: " +:+ str_exn e) ;;;
              ret (inr 3)) ;;
         match got with
         | inl video_file => print ("Downloaded: " +:+ video_file) ;;; ret got
         | inr _ => ret got
         end
       else
         let video_file := default "" (ns_file args) in
         present <- os_path_isfile video_file ;;
         if negb present then
           eprint ("Error: File not found: " +:+ video_file) ;;; ret (inr 4)
         else ret (inl video_file)) ;;
    match acquired with
    | inr code => ret code
    | inl video_file =>
        let video_dir := dirname video_file in
        let video_name := splitext_root (basename video_file) in
        let srt_en := path_join video_dir (video_name +:+ ".srt") in
        let srt_translated :=
          path_join video_dir (video_name +:+ "_" +:+ TARGET_LANG +:+ ".srt") in
        debug ("Video directory: " +:+ video_dir) ;;;
        debug ("Video name (no ext): " +:+ video_name) ;;;
        debug ("English SRT path: " +:+ srt_en) ;;;
        debug ("Translated SRT path: " +:+ srt_translated) ;;;
        transcribed <-
          (if negb (ns_skip_whisper args) then
             ran <- try_except
               (ensure_whisper video_file video_dir WHISPER_MODEL WHISPER_LANGUAGE ;;;
                ret None)
               (fun e =>
                  match e with
                  | CalledProcessError rc _ =>
                      eprint "Error: Whisper failed to generate subtitles" ;;;
                      debug ("Whisper error: returncode=" +:+ pretty rc) ;;;
                      ret (Some 5)
                  | _ =>
                      eprint ("Error running Whisper: " +:+ str_exn e) ;;;
                      ret (Some 6)
                  end) ;;
             match ran with
             | Some code => ret (Some code)
             | None =>
                 present <- os_path_isfile srt_en ;;
                 if negb present then
                   eprint ("Error: Whisper failed to generate subtitles (missing "
                           +:+ srt_en +:+ ")") ;;;
                   ret (Some 7)
                 else ret None
             end
           else
             print "=== Step 1: Skipping Whisper (using existing subtitles) ===" ;;;
             present <- os_path_isfile srt_en ;;
             if negb present then
               eprint ("Error: Subtitle file not found: " +:+ srt_en) ;;;
               ret (Some 8)
             else ret None) ;;
        match transcribed with
        | Some code => ret code
        | None =>
            translated <- try_except
              (translate_subtitles TRANSLATOR_PATH OPENAI_MODEL srt_en srt_translated
                 SOURCE_LANG TARGET_LANG TRANSLATION_BATCH_SIZES
                 OPENAI_API_KEY OPENAI_ENDPOINT ;;;
               ret None)
              (fun e =>
                 eprint ("Error: Translation failed - " +:+ str_exn e) ;;;
                 listing <- os_listdir video_dir ;;
                 debug ("Listing files in output directory: " +:+ py_repr listing) ;;;
                 ret (Some 9)) ;;
            match translated with
            | Some code => ret code
            | None =>
                present <- os_path_isfile srt_translated ;;
                if negb present then
                  eprint "Error: Translation failed - output file not found" ;;;
                  ret 10
                else
                  print (String "010"%char "=== Done! ===") ;;;
                  print ("Video file: " +:+ video_file) ;;;
                  main_postprocess_block video_dir video_name srt_en srt_translated
                    TARGET_LANG ;;;
                  debug "Script finished" ;;;
                  ret 0
            end
        end
    end.

(** ** The blocks of post-processing, named

    [postprocess_subtitles] and the end of [main] are each a sequence of
    three guarded blocks.  The two promotion blocks have one shape and the
    purge has another; naming the shapes lets the statements below speak of
    one block at a time. *)

Definition rename_block `{Platform} (label src dst : string) : M unit :=
  try_except
    (present <- os_path_isfile src ;;
     when present
       (try_except (os_replace src dst)
          (fun _ => shutil_copy2 src dst ;;; os_remove src)))
    (fun e => debug (label +:+ str_exn e)).

Definition purge_body `{Platform} (video_dir suffix fname : string) : M unit :=
  when (endswith fname suffix)
    (try_except
       (os_remove (path_join video_dir fname) ;;;
        debug ("Removed progress CSV: " +:+ fname))
       (fun e => debug ("Failed to remove " +:+ fname +:+ ": " +:+ str_exn e))).

Definition purge_block `{Platform} (video_dir suffix : string) : M unit :=
  try_except
    (names <- os_listdir video_dir ;;
     for_each names (purge_body video_dir suffix))
    (fun e => debug ("Error while cleaning progress files: " +:+ str_exn e)).

(** What [debug] adds to the error stream. *)
Definition debug_line `{Platform} (msg : string) : list string :=
  if DEBUG then ["[DEBUG] " +:+ msg] else [].

(** What the program itself never changes between two states: the refusals
    of the operating system, the environment, the password database, the
    standard output and the processes started; the error stream only
    grows. *)
Definition quiet (w w' : world) : Prop :=
  fault (fs w') = fault (fs w) /\ environ w' = environ w /\ pwd w' = pwd w /\
  stdout w' = stdout w /\ spawned w' = spawned w /\ stderr w `prefix_of` stderr w'.

(** Whether [p] is seen as a regular file. *)
Definition is_file (d : disk) (p : string) : bool :=
  match fault d (OpStat p), files d !! p with
  | None, Some _ => true
  | _, _ => false
  end.

(** ** The outcome of the post-processing steps *)

(** Promote [src] to [dst]: if [src] is a file it is renamed to [dst],
    replacing whatever was there; when the rename is refused, [src] is copied
    to [dst] and then deleted.  A copy that fails leaves the source in place
    and the destination untouched or overwritten by what had been written
    ([torn_files]); a refused deletion leaves the copy and the source. *)
Definition promote_spec `{Platform} (flt : sysop -> option string) (src dst : string)
    (fm : gmap string file) : gmap string file :=
  match flt (OpStat src), fm !! src with
  | None, Some f =>
      match flt (OpReplace src dst) with
      | None => <[dst := f]> (delete src fm)
      | Some _ =>
          match flt (OpCopy src dst), flt (OpRemove src) with
          | None, None => delete src (<[dst := f]> fm)
          | None, Some _ => <[dst := f]> fm
          | Some _, _ => torn_files src dst fm
          end
      end
  | _, _ => fm
  end.

(** The error the promotion of [src] ends with, when both the rename and
    its fallback are refused. *)
Definition promote_error (flt : sysop -> option string) (src dst : string)
    (fm : gmap string file) : option string :=
  match flt (OpStat src), fm !! src with
  | None, Some f =>
      match flt (OpReplace src dst) with
      | None => None
      | Some _ =>
          match flt (OpCopy src dst) with
          | None => flt (OpRemove src)
          | Some msg => Some msg
          end
      end
  | _, _ => None
  end.

(** The keys the purge deletes: the files listed in [dir] under a name that
    ends with [suffix], unless their removal is refused. *)
Definition purgeable (flt : sysop -> option string) (dir suffix k : string) : bool :=
  match entry_name dir k with
  | Some n => endswith n suffix && bool_decide (flt (OpRemove k) = None)
  | None => false
  end.

Definition purge_spec (flt : sysop -> option string) (dir suffix : string)
    (fm : gmap string file) : gmap string file :=
  if bool_decide (dir = "") then fm
  else match flt (OpListdir dir) with
       | Some _ => fm
       | None => filter (fun kv => purgeable flt dir suffix (fst kv) = false) fm
       end.

(** ** Sample platforms and worlds *)

Definition no_fault : sysop -> option string := fun _ => None.

(** External tools that succeed and touch nothing; debugging off. *)
Definition idle_tools : Platform := {|
  DEBUG := false;
  spawn := fun _ _ d => (Exited 0, d);
  py_repr := String.concat ", ";
  shlex_quote := id;
  cpe_str := fun rc _ => "exit status " +:+ pretty rc;
  torn_copy := fun _ _ _ => None;
|}.

(** The same tools with debugging on. *)
Definition chatty_tools : Platform := {|
  DEBUG := true;
  spawn := fun _ _ d => (Exited 0, d);
  py_repr := String.concat ", ";
  shlex_quote := id;
  cpe_str := fun rc _ => "exit status " +:+ pretty rc;
  torn_copy := fun _ _ _ => None;
|}.

Definition world_of (fm : gmap string file) (flt : sysop -> option string)
    (env : gmap string string) : world :=
  World (Disk fm flt) env (Passwd None ∅) [] [] [].

Definition subtitle (text : string) : file := File text 0 false.

(** A finished run: the transcript archived, the translation canonical. *)
Definition finished_dir : gmap string file :=
  <["/v/movie.mp4" := File "video" 0 false]> (
  <["/v/movie_en.srt" := subtitle "hello"]> (
  <["/v/movie.srt" := subtitle "czesc"]> ∅)).

(** A run stopped before post-processing, with three progress files. *)
Definition staged_dir : gmap string file :=
  <["/v/movie.mp4" := File "video" 0 false]> (
  <["/v/movie.srt" := subtitle "hello"]> (
  <["/v/movie_pl.srt" := subtitle "czesc"]> (
  <["/v/movie.progress_pl.csv" := File "1" 0 false]> (
  <["/v/other.progress_pl.csv" := File "2" 0 false]> (
  <["/v/last.progress_pl.csv" := File "3" 0 false]> (
  <["/v/notes.csv" := File "4" 0 false]> ∅)))))).

(** ** Notions used in the statements about the download *)

(** The modification time recorded for [p] (0 when there is no such file). *)
Definition mtime_at (w : world) (p : string) : Z :=
  match files (fs w) !! p with
  | Some f => mtime f
  | None => 0
  end.

(** The first element of a list is one of its largest. *)
Definition head_max (l : list (Z * string)) : Prop :=
  match l with
  | [] => True
  | h :: _ => forall y, y ∈ l -> fst y <= fst h
  end.

(** A downloader that leaves an older [.mp4] and a newer [.webm]. *)
Definition downloading_tools : Platform := {|
  DEBUG := false;
  spawn := fun _ _ d =>
    (Exited 0,
     Disk (<["/dl/clip.webm" := File "webm" 20 false]>
             (<["/dl/clip.mp4" := File "mp4" 10 false]> (files d)))
          (fault d));
  py_repr := String.concat ", ";
  shlex_quote := id;
  cpe_str := fun rc _ => "exit status " +:+ pretty rc;
  torn_copy := fun _ _ _ => None;
|}.

(** A download directory with a leftover of an earlier download, and the
    downloader installed. *)
Definition download_dir : gmap string file :=
  <["/bin/yt-dlp" := File "#!" 0 true]> (
  <["/dl/clip.mkv" := File "old" 5 false]> (
  <["/dl/holiday.mp4" := File "other" 30 false]> ∅)).

(** A state in which the operating system refuses to rename or copy
    [/v/movie.srt] and to remove one of the progress files. *)
Definition stubborn (op : sysop) : option string :=
  match op with
  | OpReplace "/v/movie.srt" _ => Some "[Errno 18] Invalid cross-device link"
  | OpCopy "/v/movie.srt" _ => Some "[Errno 13] Permission denied"
  | OpRemove "/v/other.progress_pl.csv" => Some "[Errno 13] Permission denied"
  | _ => None
  end.

(** Environments for the configuration. *)
Definition env_tilde : gmap string string :=
  <["TRANSLATOR_PATH" := "~/tr"]> (<["HOME" := "/home/u"]> ∅).

Definition env_ref (lang : string) : gmap string string :=
  <["TRANSLATOR_PATH" := "/opt/$TARGET_LANG/tr"]> (<["TARGET_LANG" := lang]> ∅).

(** ** Notions used in the statements about the stages *)

(** Whether [p] is seen as a file that may be executed. *)
Definition runnable (d : disk) (p : string) : bool :=
  match fault d (OpStat p), files d !! p with
  | None, Some f => executable f
  | _, _ => false
  end.

(** The state once the child process [cmd] has run in environment [e]. *)
Definition after_spawn `{Platform} (cmd : list string) (e : gmap string string)
    (w : world) : world :=
  World (snd (spawn cmd e (fs w))) (environ w) (pwd w) (stdout w) (stderr w)
        (spawned w ++ [(cmd, e)]).

(** The keys the download clears first: the files listed in [dir] under a
    name that starts with [name.], unless their removal is refused. *)
Definition stale (flt : sysop -> option string) (dir name k : string) : bool :=
  match entry_name dir k with
  | Some n => startswith n (name +:+ ".") && bool_decide (flt (OpRemove k) = None)
  | None => false
  end.

(** The argument vector of the downloader. *)
Definition ytdlp_cmd (url output_dir yt_dlp_path output_name : string) : list string :=
  [ yt_dlp_path; "-o"; path_join output_dir (output_name +:+ ".%(ext)s"); url ].

(** The three commands of the updater. *)
Definition update_cmds (yt_dlp_path : string) : list (list string) :=
  [ [ "sudo"; "wget";
      "https://github.com/yt-dlp/yt-dlp/releases/latest/download/yt-dlp";
      "-O"; yt_dlp_path ];
    [ "sudo"; "chmod"; "a+rx"; yt_dlp_path ];
    [ yt_dlp_path; "--version" ] ].

(** The file system once the commands [cmds] have run one after the other
    in environment [e]. *)
Definition after_cmds `{Platform} (e : gmap string string)
    (cmds : list (list string)) (d : disk) : disk :=
  foldl (fun d c => snd (spawn c e d)) d cmds.

(** How the [k]-th of the commands [cmds] ends when they run one after the
    other. *)
Definition outcome `{Platform} (e : gmap string string)
    (cmds : list (list string)) (d : disk) (k : nat) : option spawn_result :=
  match cmds !! k with
  | Some c => Some (fst (spawn c e (after_cmds e (take k cmds) d)))
  | None => None
  end.

(** The exception [run_cmd] raises for a command that did not exit with 0. *)
Definition run_error (c : list string) (r : spawn_result) : exn :=
  match r with
  | Exited rc => CalledProcessError rc c
  | SpawnFailed m => OSError m
  end.

(** A file can be moved from [src] to [dst]: the rename is allowed, or else
    the copy and the removal of the source are. *)
Definition can_move (flt : sysop -> option string) (src dst : string) : Prop :=
  flt (OpReplace src dst) = None \/
  (flt (OpCopy src dst) = None /\ flt (OpRemove src) = None).

(** ** The stages of [main], named

    [main] is one function; for the statements below its stretches are named
    after the lines of [core.py] they embed. *)

(** The argument vector of the transcriber. *)
Definition whisper_cmd (video_file video_dir whisper_model whisper_lang : string)
    : list string :=
  [ "whisper"; video_file; "--model"; whisper_model; "--language"; whisper_lang;
    "--output_dir"; video_dir; "--output_format"; "srt" ].

(** Lines 276-289: the source video, or the exit status that ends the run. *)
Definition acquire_step `{Platform} (args : Namespace)
    (YT_DLP_PATH YT_DLP_OUTPUT_NAME : string) : M (string + Z) :=
  if truthy (ns_net args) then
    DOWNLOAD_DIR <- gets (fun w => expanduser w (expandvars w "$HOME/Downloads")) ;;
    os_makedirs DOWNLOAD_DIR ;;;
    got <- try_except
      (video_file <- download_video (default "" (ns_net args)) DOWNLOAD_DIR
                       YT_DLP_PATH YT_DLP_OUTPUT_NAME ;;
       ret (inl video_file))
      (fun e =>
         eprint ("Error: Failed to download video: " +:+ str_exn e) ;;;
         ret (inr 3)) ;;
    match got with
    | inl video_file => print ("Downloaded: " +:+ video_file) ;;; ret got
    | inr _ => ret got
    end
  else
    let video_file := default "" (ns_file args) in
    present <- os_path_isfile video_file ;;
    if negb present then
      eprint ("Error: File not found: " +:+ video_file) ;;; ret (inr 4)
    else ret (inl video_file).

(** Lines 302-319: the transcription, or the exit status that ends the run. *)
Definition transcribe_step `{Platform} (skip_whisper : bool)
    (video_file video_dir srt_en WHISPER_MODEL WHISPER_LANGUAGE : string)
    : M (option Z) :=
  if negb skip_whisper then
    ran <- try_except
      (ensure_whisper video_file video_dir WHISPER_MODEL WHISPER_LANGUAGE ;;;
       ret None)
      (fun e =>
         match e with
         | CalledProcessError rc _ =>
             eprint "Error: Whisper failed to generate subtitles" ;;;
             debug ("Whisper error: returncode=" +:+ pretty rc) ;;;
             ret (Some 5)
         | _ =>
             eprint ("Error running Whisper: " +:+ str_exn e) ;;;
             ret (Some 6)
         end) ;;
    match ran with
    | Some code => ret (Some code)
    | None =>
        present <- os_path_isfile srt_en ;;
        if negb present then
          eprint ("Error: Whisper failed to generate subtitles (missing "
                  +:+ srt_en +:+ ")") ;;;
          ret (Some 7)
        else ret None
    end
  else
    print "=== Step 1: Skipping Whisper (using existing subtitles) ===" ;;;
    present <- os_path_isfile srt_en ;;
    if negb present then
      eprint ("Error: Subtitle file not found: " +:+ srt_en) ;;;
      ret (Some 8)
    else ret None.

(** Lines 322-337: the translation, or the exit status that ends the run. *)
Definition translate_step `{Platform}
    (TRANSLATOR_PATH OPENAI_MODEL srt_en srt_translated SOURCE_LANG TARGET_LANG
     TRANSLATION_BATCH_SIZES OPENAI_API_KEY OPENAI_ENDPOINT video_dir : string)
    : M (option Z) :=
  try_except
    (translate_subtitles TRANSLATOR_PATH OPENAI_MODEL srt_en srt_translated
       SOURCE_LANG TARGET_LANG TRANSLATION_BATCH_SIZES
       OPENAI_API_KEY OPENAI_ENDPOINT ;;;
     ret None)
    (fun e =>
       eprint ("Error: Translation failed - " +:+ str_exn e) ;;;
       listing <- os_listdir video_dir ;;
       debug ("Listing files in output directory: " +:+ py_repr listing) ;;;
       ret (Some 9)).

(** Lines 339-392: the check of the translation and the post-processing. *)
Definition finish_step `{Platform}
    (video_file video_dir video_name srt_en srt_translated TARGET_LANG : string)
    : M Z :=
  present <- os_path_isfile srt_translated ;;
  if negb present then
    eprint "Error: Translation failed - output file not found" ;;;
    ret 10
  else
    print (String "010"%char "=== Done! ===") ;;;
    print ("Video file: " +:+ video_file) ;;;
    main_postprocess_block video_dir video_name srt_en srt_translated TARGET_LANG ;;;
    debug "Script finished" ;;;
    ret 0.

(** Lines 291-392: the pipeline on an acquired video. *)
Definition pipeline `{Platform} (skip_whisper : bool) (cfg : gmap string string)
    (video_file : string) : M Z :=
  let video_dir := dirname video_file in
  let video_name := splitext_root (basename video_file) in
  let srt_en := path_join video_dir (video_name +:+ ".srt") in
  let srt_translated :=
    path_join video_dir (video_name +:+ "_" +:+ (cfg !!! "TARGET_LANG") +:+ ".srt") in
  debug ("Video directory: " +:+ video_dir) ;;;
  debug ("Video name (no ext): " +:+ video_name) ;;;
  debug ("English SRT path: " +:+ srt_en) ;;;
  debug ("Translated SRT path: " +:+ srt_translated) ;;;
  transcribed <- transcribe_step skip_whisper video_file video_dir srt_en
                   (cfg !!! "WHISPER_MODEL") (cfg !!! "WHISPER_LANGUAGE") ;;
  match transcribed with
  | Some code => ret code
  | None =>
      translated <- translate_step (cfg !!! "TRANSLATOR_PATH") (cfg !!! "OPENAI_MODEL")
                      srt_en srt_translated (cfg !!! "SOURCE_LANG")
                      (cfg !!! "TARGET_LANG") (cfg !!! "TRANSLATION_BATCH_SIZES")
                      (cfg !!! "OPENAI_API_KEY") (cfg !!! "OPENAI_ENDPOINT")
                      video_dir ;;
      match translated with
      | Some code => ret code
      | None =>
          finish_step video_file video_dir video_name srt_en srt_translated
            (cfg !!! "TARGET_LANG")
      end
  end.

(** Between two states only the two output streams differ. *)
Definition logs_only (w w' : world) : Prop :=
  fs w' = fs w /\ environ w' = environ w /\ pwd w' = pwd w /\
  spawned w' = spawned w.

(** What [os.listdir(dir)] answers on the disk [d]. *)
Definition listdir_of (d : disk) (dir : string) : result (list string) :=
  if bool_decide (dir = "") then Raise (enoent "")
  else match fault d (OpListdir dir) with
       | Some m => Raise (OSError m)
       | None => Ok (dir_entries dir (files d))
       end.

(** The exit statuses [main] can return. *)
Definition exit_codes : list Z := [0; 2; 3; 4; 5; 6; 7; 8; 9; 10].

(** The disk the translation starts on: the one [main] was started on when
    the transcription is skipped, else the one the transcriber leaves. *)
Definition transcribed_disk `{Platform} (skip_whisper : bool) (cmd : list string)
    (w : world) : disk :=
  if skip_whisper then fs w else snd (spawn cmd (environ w) (fs w)).

(** ** More sample platforms and worlds *)

(** External tools that all exit with status 1 and touch nothing. *)
Definition failing_tools : Platform := {|
  DEBUG := false;
  spawn := fun _ _ d => (Exited 1, d);
  py_repr := String.concat ", ";
  shlex_quote := id;
  cpe_str := fun rc _ => "exit status " +:+ pretty rc;
  torn_copy := fun _ _ _ => None;
|}.

(** A downloader that leaves two files of the same age. *)
Definition twin_tools : Platform := {|
  DEBUG := false;
  spawn := fun _ _ d =>
    (Exited 0,
     Disk (<["/dl/clip.webm" := File "webm" 20 false]>
             (<["/dl/clip.mp4" := File "mp4" 20 false]> (files d)))
          (fault d));
  py_repr := String.concat ", ";
  shlex_quote := id;
  cpe_str := fun rc _ => "exit status " +:+ pretty rc;
  torn_copy := fun _ _ _ => None;
|}.

(** A transcriber that writes [/v/movie.srt] and a translator that writes
    [/v/movie_pl.srt] and leaves a progress file behind. *)
Definition pipeline_tools : Platform := {|
  DEBUG := false;
  spawn := fun cmd _ d =>
    match cmd with
    | "whisper" :: _ =>
        (Exited 0, Disk (<["/v/movie.srt" := subtitle "hello"]> (files d)) (fault d))
    | "node" :: _ =>
        (Exited 0,
         Disk (<["/v/movie_pl.srt" := subtitle "czesc"]>
                 (<["/v/movie.progress_pl.csv" := File "1" 0 false]> (files d)))
              (fault d))
    | _ => (Exited 0, d)
    end;
  py_repr := String.concat ", ";
  shlex_quote := id;
  cpe_str := fun rc _ => "exit status " +:+ pretty rc;
  torn_copy := fun _ _ _ => None;
|}.

(** A state in which nothing can be renamed and no copy completes. *)
Definition cross_device (op : sysop) : option string :=
  match op with
  | OpReplace _ _ => Some "[Errno 18] Invalid cross-device link"
  | OpCopy "/v/movie.srt" _ => Some "[Errno 13] Permission denied"
  | OpCopy _ _ => Some "[Errno 1] Operation not permitted"
  | _ => None
  end.

(** Debugging on; the copy of [/v/movie.srt] fails before anything is
    written, every other failing copy after the bytes have arrived (the
    metadata could not be set). *)
Definition tearing_tools : Platform := {|
  DEBUG := true;
  spawn := fun _ _ d => (Exited 0, d);
  py_repr := String.concat ", ";
  shlex_quote := id;
  cpe_str := fun rc _ => "exit status " +:+ pretty rc;
  torn_copy := fun src _ f =>
    if bool_decide (src = "/v/movie.srt") then None
    else Some (File (content f) 1 false);
|}.

(** Tools of which only [chmod] fails, with exit status 7. *)
Definition chmod_fails_tools : Platform := {|
  DEBUG := false;
  spawn := fun cmd _ d =>
    match cmd with
    | "sudo" :: "chmod" :: _ => (Exited 7, d)
    | _ => (Exited 0, d)
    end;
  py_repr := String.concat ", ";
  shlex_quote := id;
  cpe_str := fun rc _ => "exit status " +:+ pretty rc;
  torn_copy := fun _ _ _ => None;
|}.

(** A directory that holds the video only. *)
Definition video_dir_only : gmap string file :=
  <["/v/movie.mp4" := File "video" 0 false]> ∅.

(** A video and its transcript, named without a directory. *)
Definition bare_dir : gmap string file :=
  <["movie.mp4" := File "video" 0 false]> (
  <["movie.srt" := subtitle "hello"]> (
  <["movie.progress_pl.csv" := File "1" 0 false]> ∅)).

(** A target language [en]: the translation sits where the transcript is
    to be archived. *)
Definition english_dir : gmap string file :=
  <["/v/movie.srt" := subtitle "hello"]> (
  <["/v/movie_en.srt" := subtitle "translated"]> ∅).

(** The arguments [--file f], with or without [--skip-whisper]. *)
Definition file_args (f : string) (skip : bool) : Namespace :=
  {| ns_file := Some f; ns_net := None; ns_postprocess_only := None;
     ns_skip_whisper := skip; ns_update_ytdlp := false |}.

(** The arguments [--postprocess-only f]. *)
Definition postprocess_args (f : string) : Namespace :=
  {| ns_file := None; ns_net := None; ns_postprocess_only := Some f;
     ns_skip_whisper := false; ns_update_ytdlp := false |}.

(** * Properties *)

(** ** Paths *)

Example dirname_ex :
  dirname "/tmp/v/movie.mp4" = "/tmp/v" /\ dirname "movie.mp4" = "" /\
  dirname "/movie.mp4" = "/" /\ dirname "a//b" = "a".
Proof. repeat split; reflexivity. Qed.

Example basename_ex :
  basename "/tmp/v/movie.mp4" = "movie.mp4" /\ basename "movie.mp4" = "movie.mp4".
Proof. repeat split; reflexivity. Qed.

Example splitext_ex :
  splitext_root "movie.mp4" = "movie" /\ splitext_root ".bashrc" = ".bashrc" /\
  splitext_root "a.b.c" = "a.b" /\ splitext_root "..." = "..." /\
  splitext_root "a.b/c" = "a.b/c" /\ splitext_root "d/..x.y" = "d/..x".
Proof. repeat split; reflexivity. Qed.

Example join_ex :
  path_join "/d" "x" = "/d/x" /\ path_join "" "x" = "x" /\
  path_join "/d/" "x" = "/d/x" /\ path_join "/d" "/x" = "/x".
Proof. repeat split; reflexivity. Qed.

Lemma app_cons_string (c : ascii) (a b : string) :
  String c a +:+ b = String c (a +:+ b).
Proof. reflexivity. Qed.

Lemma app_nil_r_string (s : string) : s +:+ "" = s.
Proof. induction s as [|c s IH]; [done|]. by rewrite app_cons_string, IH. Qed.

Lemma app_assoc_string (a b c : string) : (a +:+ b) +:+ c = a +:+ b +:+ c.
Proof. induction a as [|x a IH]; [done|]. by rewrite !app_cons_string, IH. Qed.

Lemma app_nonempty_r (s t : string) : t <> "" -> s +:+ t <> "".
Proof. by destruct s. Qed.

Lemma last_char_cons (c : ascii) (u : string) :
  u <> "" -> last_char (String c u) = last_char u.
Proof. by destruct u. Qed.

Lemma last_char_app (s t : string) :
  t <> "" -> last_char (s +:+ t) = last_char t.
Proof.
  intros Ht. induction s as [|c s IH]; [done|].
  rewrite app_cons_string, last_char_cons; [done|by apply app_nonempty_r].
Qed.

Lemma endswith_spec (s p : string) :
  endswith s p = true <-> exists a, s = a +:+ p.
Proof.
  induction s as [|c s IH]; cbn [endswith].
  - rewrite orb_false_r, bool_decide_eq_true. split.
    + intros <-. by exists "".
    + intros [[|??] E]; [done|discriminate].
  - rewrite orb_true_iff, bool_decide_eq_true, IH. split.
    + intros [<-|[a ->]]; [by exists ""|by exists (String c a)].
    + intros [[|d a] E]; [by left|]. right. exists a.
      rewrite app_cons_string in E. congruence.
Qed.

Lemma endswith_last_char (s p : string) :
  p <> "" -> endswith s p = true -> last_char s = last_char p.
Proof. intros Hp [a ->]%endswith_spec. by apply last_char_app. Qed.

Lemma strip_prefix_spec (p k n : string) :
  strip_prefix p k = Some n <-> k = p +:+ n.
Proof.
  revert k. induction p as [|c p IH]; intros k; cbn [strip_prefix].
  - split; [by intros [= ->]|by intros ->].
  - destruct k as [|d k]; [split; [done|discriminate]|].
    rewrite app_cons_string. case_bool_decide as E.
    + subst d. rewrite IH. split; [by intros ->|congruence].
    + split; [done|congruence].
Qed.

Lemma contains_startswith (n : string) :
  contains "/" n = false -> startswith n "/" = false.
Proof.
  destruct n as [|c n]; [done|]. cbn.
  intros [E _]%orb_false_iff. by rewrite E.
Qed.

Lemma startswith_app_nonempty (name x y : string) (c d : ascii) (x' y' : string) :
  x = String c x' -> y = String d y' ->
  c <> "/"%char -> d <> "/"%char ->
  startswith (name +:+ x) "/" = startswith (name +:+ y) "/".
Proof.
  intros -> -> Hc Hd. destruct name as [|e name].
  - change (startswith (String c x') "/" = startswith (String d y') "/").
    cbn. rewrite !bool_decide_eq_false_2; [done|congruence..].
  - rewrite !app_cons_string. reflexivity.
Qed.

Lemma path_join_last (d n : string) :
  n <> "" -> last_char (path_join d n) = last_char n.
Proof.
  intros Hn. unfold path_join. destruct (startswith n "/"); [done|].
  destruct (_ || _); [by apply last_char_app|].
  rewrite last_char_app; [by apply last_char_app|by destruct n].
Qed.

Lemma path_join_inj (d a b : string) :
  startswith a "/" = startswith b "/" ->
  path_join d a = path_join d b -> a = b.
Proof.
  unfold path_join. intros <-. destruct (startswith a "/"); [done|].
  destruct (_ || _); intros E.
  - by apply (inj (String.app d)) in E.
  - apply (inj (String.app d)) in E. by apply (inj (String.app "/")) in E.
Qed.

(** ** What the blocks compute *)

Section runs.
Context `{Platform}.

Lemma with_files_id w : with_files (files (fs w)) w = w.
Proof. by destruct w as [[??] ?????]. Qed.

Lemma with_stderr_id w : with_stderr (stderr w) w = w.
Proof. by destruct w. Qed.

Lemma with_stderr_nil w : with_stderr (stderr w ++ []) w = w.
Proof. rewrite app_nil_r. apply with_stderr_id. Qed.

Lemma debug_run msg w :
  debug msg w = (Ok tt, with_stderr (stderr w ++ debug_line msg) w).
Proof.
  unfold debug, debug_line, when. destruct DEBUG; [done|].
  by rewrite with_stderr_nil.
Qed.

Lemma isfile_run p w : os_path_isfile p w = (Ok (is_file (fs w) p), w).
Proof.
  unfold os_path_isfile, try_except, bind, os_stat, syscall, is_file, ret.
  destruct (fault (fs w) (OpStat p)); [done|].
  by destruct (files (fs w) !! p).
Qed.

Lemma rename_block_run label src dst w :
  rename_block label src dst w =
    (Ok tt,
     with_stderr
       (stderr w ++
        match promote_error (fault (fs w)) src dst (files (fs w)) with
        | Some m => debug_line (label +:+ m)
        | None => []
        end)
       (with_files (promote_spec (fault (fs w)) src dst (files (fs w))) w)).
Proof.
  unfold rename_block, try_except at 1, bind at 1. rewrite isfile_run.
  unfold is_file, promote_error, promote_spec.
  destruct w as [[fm flt] env pw out err sp]. cbn [fs fault files stderr].
  destruct (flt (OpStat src)) as [m0|] eqn:E0.
  { cbn. by rewrite app_nil_r. }
  destruct (fm !! src) as [f|] eqn:Ef.
  2:{ cbn. by rewrite app_nil_r. }
  unfold when, try_except, os_replace, syscall. cbn [fs fault files].
  destruct (flt (OpReplace src dst)) as [m1|] eqn:E1.
  2:{ rewrite Ef. cbn. by rewrite app_nil_r. }
  unfold bind, shutil_copy2, syscall. cbn [fs fault files].
  destruct (flt (OpCopy src dst)) as [m2|] eqn:E2.
  { rewrite debug_run. reflexivity. }
  rewrite Ef. unfold set_files, with_files, os_remove, syscall. cbn [fs fault files].
  destruct (flt (OpRemove src)) as [m3|] eqn:E3.
  { rewrite debug_run. reflexivity. }
  assert (<[dst:=f]> fm !! src = Some f) as ->.
  { destruct (decide (dst = src)) as [->|]; [apply lookup_insert_eq|].
    by rewrite lookup_insert_ne. }
  cbn. by rewrite app_nil_r.
Qed.
Lemma quiet_refl w : quiet w w.
Proof. by repeat split. Qed.

Lemma quiet_trans w1 w2 w3 : quiet w1 w2 -> quiet w2 w3 -> quiet w1 w3.
Proof.
  intros (?&?&?&?&?&?) (?&?&?&?&?&?).
  repeat split; try congruence. by etrans.
Qed.

Lemma quiet_with_stderr l w : quiet w (with_stderr (stderr w ++ l) w).
Proof. repeat split. by apply prefix_app_r. Qed.

Lemma quiet_with_files fm w : quiet w (with_files fm w).
Proof. by repeat split. Qed.

Lemma quiet_stderr w w' x : quiet w w' -> x ∈ stderr w -> x ∈ stderr w'.
Proof. intros (_&_&_&_&_&[l ->]) ?. apply elem_of_app. by left. Qed.

Lemma entry_name_join (d k n : string) :
  d <> "" -> entry_name d k = Some n -> k = path_join d n.
Proof.
  intros Hd. unfold entry_name.
  destruct (strip_prefix _ k) as [n'|] eqn:E; [|done].
  apply strip_prefix_spec in E.
  destruct (bool_decide (n' = "") || contains "/" n') eqn:E'; [done|].
  intros [= <-]. apply orb_false_iff in E' as [_ Hs].
  unfold path_join. rewrite (contains_startswith _ Hs).
  rewrite bool_decide_eq_false_2 by done. cbn [orb].
  destruct (endswith d "/"); [done|]. by rewrite <- app_assoc_string.
Qed.

Lemma elem_of_dir_entries (d n : string) (fm : gmap string file) :
  n ∈ dir_entries d fm <-> exists k, is_Some (fm !! k) /\ entry_name d k = Some n.
Proof.
  unfold dir_entries. rewrite list_elem_of_omap. split.
  - intros (k & Hk & E). exists k. split; [|done].
    apply list_elem_of_fmap in Hk as ([k' f] & -> & Hk).
    apply elem_of_map_to_list in Hk. by exists f.
  - intros (k & [f Hf] & E). exists k. split; [|done].
    apply list_elem_of_fmap. exists (k, f). split; [done|].
    by apply elem_of_map_to_list.
Qed.

Lemma purge_body_run dir suffix fname w :
  exists w',
    purge_body dir suffix fname w = (Ok tt, w') /\ quiet w w' /\
    files (fs w') =
      (if endswith fname suffix &&
          bool_decide (fault (fs w) (OpRemove (path_join dir fname)) = None)
       then delete (path_join dir fname) (files (fs w)) else files (fs w)) /\
    (forall m, endswith fname suffix = true ->
       fault (fs w) (OpRemove (path_join dir fname)) = Some m ->
       stderr w' = stderr w ++ debug_line ("Failed to remove " +:+ fname +:+ ": " +:+ m)).
Proof.
  unfold purge_body, when. destruct (endswith fname suffix).
  2:{ exists w. split; [done|]. split; [apply quiet_refl|]. by split. }
  unfold try_except, bind, os_remove, syscall.
  destruct (fault (fs w) (OpRemove (path_join dir fname))) as [m|] eqn:E.
  { rewrite debug_run. eexists. split; [done|].
    split; [apply quiet_with_stderr|]. split; [done|].
    by intros m' _ [= <-]. }
  cbn [andb bool_decide]. rewrite bool_decide_eq_true_2 by done.
  destruct (files (fs w) !! path_join dir fname) as [f|] eqn:Ef.
  - unfold set_files. rewrite debug_run. eexists. split; [done|].
    split; [|done].
    eapply quiet_trans; [apply (quiet_with_files (delete (path_join dir fname) (files (fs w))))|].
    apply quiet_with_stderr.
  - rewrite debug_run. eexists. split; [done|]. split; [apply quiet_with_stderr|].
    split; [|done]. cbn. by rewrite delete_id.
Qed.

Lemma purge_loop_run dir suffix names w :
  exists w',
    for_each names (purge_body dir suffix) w = (Ok tt, w') /\ quiet w w' /\
    (forall k, files (fs w') !! k =
       if existsb (fun n => endswith n suffix && bool_decide (path_join dir n = k)) names
          && bool_decide (fault (fs w) (OpRemove k) = None)
       then None else files (fs w) !! k) /\
    (forall n m line, n ∈ names -> endswith n suffix = true ->
       fault (fs w) (OpRemove (path_join dir n)) = Some m ->
       line ∈ debug_line ("Failed to remove " +:+ n +:+ ": " +:+ m) ->
       line ∈ stderr w').
Proof.
  revert w. induction names as [|x names IH]; intros w.
  { exists w. split; [done|]. split; [apply quiet_refl|]. split; [done|].
    intros ??? Hn. by apply elem_of_nil in Hn. }
  cbn [for_each]. unfold bind.
  destruct (purge_body_run dir suffix x w) as (w1 & -> & Hq1 & Hf1 & Hl1).
  destruct (IH w1) as (w2 & -> & Hq2 & Hf2 & Hl2).
  assert (fault (fs w1) = fault (fs w)) as Hflt by apply Hq1.
  exists w2. split; [done|]. split; [by eapply quiet_trans|]. split.
  - intros k. rewrite Hf2, Hflt, Hf1. cbn [existsb].
    destruct (decide (path_join dir x = k)) as [<-|Hne].
    + rewrite (bool_decide_eq_true_2 (path_join dir x = path_join dir x)) by done.
      rewrite andb_true_r.
      destruct (endswith x suffix), (existsb _ names),
        (bool_decide (fault (fs w) (OpRemove (path_join dir x)) = None));
        cbn [andb orb]; try done; apply lookup_delete_eq.
    + rewrite (bool_decide_eq_false_2 _ Hne), andb_false_r, orb_false_l.
      assert ((if endswith x suffix &&
                  bool_decide (fault (fs w) (OpRemove (path_join dir x)) = None)
               then delete (path_join dir x) (files (fs w)) else files (fs w)) !! k
              = files (fs w) !! k) as ->; [|done].
      destruct (_ && _); [by rewrite lookup_delete_ne|done].
  - intros n m line Hn Hs Hm Hline. apply elem_of_cons in Hn as [->|Hn].
    + apply (quiet_stderr w1 w2); [done|]. rewrite (Hl1 m Hs Hm).
      apply elem_of_app. by right.
    + apply (Hl2 n m line); [done..| |done]. by rewrite Hflt.
Qed.
Lemma listdir_run d w :
  os_listdir d w =
    (if bool_decide (d = "") then Raise (enoent "")
     else match fault (fs w) (OpListdir d) with
          | Some m => Raise (OSError m)
          | None => Ok (dir_entries d (files (fs w)))
          end, w).
Proof.
  unfold os_listdir, raise, syscall. case_bool_decide; [done|].
  by destruct (fault (fs w) (OpListdir d)).
Qed.

Lemma existsb_entries dir suffix (fm : gmap string file) k :
  dir <> "" ->
  existsb (fun n => endswith n suffix && bool_decide (path_join dir n = k))
    (dir_entries dir fm) = true <->
  is_Some (fm !! k) /\ exists n, entry_name dir k = Some n /\ endswith n suffix = true.
Proof.
  intros Hd. rewrite existsb_exists. split.
  - intros (n & Hn & E). apply list_elem_of_In, elem_of_dir_entries in Hn.
    destruct Hn as (k' & Hk' & Hn). apply andb_true_iff in E as [Hs E].
    apply bool_decide_eq_true in E. pose proof (entry_name_join _ _ _ Hd Hn).
    assert (k' = k) as -> by congruence. eauto.
  - intros (Hk & n & Hn & Hs). exists n. split.
    + apply list_elem_of_In, elem_of_dir_entries. eauto.
    + rewrite Hs. cbn [andb]. apply bool_decide_eq_true.
      symmetry. by apply entry_name_join.
Qed.

Lemma purge_block_run dir suffix w :
  exists w',
    purge_block dir suffix w = (Ok tt, w') /\ quiet w w' /\
    files (fs w') = purge_spec (fault (fs w)) dir suffix (files (fs w)) /\
    (forall names n m line,
       fst (os_listdir dir w) = Ok names -> n ∈ names -> endswith n suffix = true ->
       fault (fs w) (OpRemove (path_join dir n)) = Some m ->
       line ∈ debug_line ("Failed to remove " +:+ n +:+ ": " +:+ m) ->
       line ∈ stderr w').
Proof.
  unfold purge_block, try_except, bind, purge_spec. rewrite listdir_run.
  case_bool_decide as Hd.
  { rewrite debug_run. eexists. split; [done|]. split; [apply quiet_with_stderr|].
    split; [done|]. by intros * [=]. }
  destruct (fault (fs w) (OpListdir dir)) as [m|] eqn:El.
  { rewrite debug_run. eexists. split; [done|]. split; [apply quiet_with_stderr|].
    split; [done|]. by intros * [=]. }
  destruct (purge_loop_run dir suffix (dir_entries dir (files (fs w))) w)
    as (w' & -> & Hq & Hf & Hl).
  exists w'. split; [done|]. split; [done|]. split.
  - apply map_eq. intros k. rewrite Hf.
    destruct (files (fs w) !! k) as [f|] eqn:Ek.
    2:{ rewrite (map_lookup_filter_None_2 _ (files (fs w)) k) by auto.
        by destruct (_ && _). }
    destruct (purgeable (fault (fs w)) dir suffix k) eqn:Ep.
    + rewrite (map_lookup_filter_None_2 _ (files (fs w)) k).
      2:{ right. intros ? _. cbn. by rewrite Ep. }
      unfold purgeable in Ep.
      destruct (entry_name dir k) as [n|] eqn:En; [|done].
      apply andb_true_iff in Ep as [Hs ->]. rewrite andb_true_r.
      rewrite (proj2 (existsb_entries dir suffix (files (fs w)) k Hd)); [done|].
      split; [by rewrite Ek|eauto].
    + rewrite (map_lookup_filter_Some_2 _ (files (fs w)) k f Ek Ep).
      destruct (existsb _ _ && _) eqn:Ex; [|done].
      apply andb_true_iff in Ex as [Ex Eb].
      apply existsb_entries in Ex as (_ & n & En & Hs); [|done].
      unfold purgeable in Ep. rewrite En, Hs, Eb in Ep. done.
  - intros names n m line Hnames. cbn in Hnames. injection Hnames as <-. apply Hl.
Qed.

Lemma torn_files_other src dst (fm : gmap string file) k :
  k <> dst -> torn_files src dst fm !! k = fm !! k.
Proof.
  intros Hd. unfold torn_files. destruct (fm !! src) as [f|]; [|done].
  destruct (torn_copy src dst f); [|done]. by rewrite lookup_insert_ne.
Qed.

Lemma promote_spec_other flt src dst (fm : gmap string file) k :
  k <> src -> k <> dst -> promote_spec flt src dst fm !! k = fm !! k.
Proof.
  intros Hs Hd. unfold promote_spec.
  destruct (flt (OpStat src)); [done|]. destruct (fm !! src); [|done].
  destruct (flt (OpReplace src dst)).
  - destruct (flt (OpCopy src dst)); [by apply torn_files_other|].
    destruct (flt (OpRemove src)).
    + by rewrite lookup_insert_ne.
    + by rewrite lookup_delete_ne, lookup_insert_ne.
  - by rewrite lookup_insert_ne, lookup_delete_ne.
Qed.

Lemma postprocess_unfold video_dir video_name target_lang :
  postprocess_subtitles video_dir video_name target_lang =
    (rename_block "Failed to rename original English srt: "
       (path_join video_dir (video_name +:+ ".srt"))
       (path_join video_dir (video_name +:+ "_en.srt")) ;;;
     rename_block "Failed to move translated srt to canonical name: "
       (path_join video_dir (video_name +:+ "_" +:+ target_lang +:+ ".srt"))
       (path_join video_dir (video_name +:+ ".srt")) ;;;
     purge_block video_dir (".progress_" +:+ target_lang +:+ ".csv") ;;;
     ret (path_join video_dir (video_name +:+ "_en.srt"),
          path_join video_dir (video_name +:+ ".srt"))).
Proof. reflexivity. Qed.

Lemma postprocess_run video_dir video_name target_lang w :
  let srt := path_join video_dir (video_name +:+ ".srt") in
  let srt_en := path_join video_dir (video_name +:+ "_en.srt") in
  let srt_lang := path_join video_dir (video_name +:+ "_" +:+ target_lang +:+ ".srt") in
  let suffix := ".progress_" +:+ target_lang +:+ ".csv" in
  let flt := fault (fs w) in
  let fm1 := promote_spec flt srt srt_en (files (fs w)) in
  let fm2 := promote_spec flt srt_lang srt fm1 in
  exists w',
    postprocess_subtitles video_dir video_name target_lang w = (Ok (srt_en, srt), w') /\
    quiet w w' /\
    files (fs w') = purge_spec flt video_dir suffix fm2 /\
    (forall m line,
       promote_error flt srt srt_en (files (fs w)) = Some m ->
       line ∈ debug_line ("Failed to rename original English srt: " +:+ m) ->
       line ∈ stderr w') /\
    (forall m line,
       promote_error flt srt_lang srt fm1 = Some m ->
       line ∈ debug_line ("Failed to move translated srt to canonical name: " +:+ m) ->
       line ∈ stderr w') /\
    (forall n m line,
       video_dir <> "" -> flt (OpListdir video_dir) = None ->
       n ∈ dir_entries video_dir fm2 -> endswith n suffix = true ->
       flt (OpRemove (path_join video_dir n)) = Some m ->
       line ∈ debug_line ("Failed to remove " +:+ n +:+ ": " +:+ m) ->
       line ∈ stderr w').
Proof.
  intros srt srt_en srt_lang suffix flt fm1 fm2.
  rewrite postprocess_unfold. unfold bind.
  rewrite rename_block_run. fold srt srt_en srt_lang suffix flt fm1.
  set (w1 := with_stderr _ (with_files fm1 w)).
  assert (quiet w w1) as Hq1.
  { apply (quiet_trans _ (with_files fm1 w)); [apply quiet_with_files|].
    apply (quiet_with_stderr _ (with_files fm1 w)). }
  rewrite rename_block_run.
  assert (fault (fs w1) = flt) as Hflt1 by done.
  assert (files (fs w1) = fm1) as Hfm1 by done.
  rewrite Hflt1, Hfm1. fold fm2.
  set (w2 := with_stderr _ (with_files fm2 w1)).
  assert (quiet w1 w2) as Hq2.
  { apply (quiet_trans _ (with_files fm2 w1)); [apply quiet_with_files|].
    apply (quiet_with_stderr _ (with_files fm2 w1)). }
  destruct (purge_block_run video_dir suffix w2) as (w3 & -> & Hq3 & Hf3 & Hl3).
  exists w3. split; [done|].
  split; [eapply quiet_trans; [|done]; by eapply quiet_trans|].
  split; [done|]. split; [|split].
  - intros m line Hm Hline. apply (quiet_stderr w1 w3); [by eapply quiet_trans|].
    subst w1. cbn [stderr with_stderr]. rewrite Hm. apply elem_of_app. by right.
  - intros m line Hm Hline. apply (quiet_stderr w2 w3); [done|].
    subst w2. cbn [stderr with_stderr]. rewrite Hm. apply elem_of_app. by right.
  - intros n m line Hd Hl Hn Hs Hm Hline.
    apply (Hl3 (dir_entries video_dir fm2) n m line); try done.
    rewrite listdir_run. cbn [fst]. rewrite bool_decide_eq_false_2 by done.
    change (fault (fs w2)) with flt. by rewrite Hl.
Qed.
End runs.

(** ** The subtitle names and the progress names never meet *)

Lemma length_app_string (a b : string) :
  String.length (a +:+ b) = (String.length a + String.length b)%nat.
Proof. induction a as [|c a IH]; [done|]. rewrite app_cons_string. cbn. by rewrite IH. Qed.

Lemma app_inv_tail_string (a b t : string) : a +:+ t = b +:+ t -> a = b.
Proof.
  revert b. induction a as [|c a IH]; intros [|d b] E.
  - done.
  - apply (f_equal String.length) in E.
    rewrite !length_app_string in E. cbn in E. lia.
  - apply (f_equal String.length) in E.
    rewrite !length_app_string in E. cbn in E. lia.
  - rewrite !app_cons_string in E. injection E as -> E. f_equal. by apply IH.
Qed.

Ltac nonempty := repeat apply app_nonempty_r; done.

Lemma srt_last (d name ext : string) :
  last_char ext = Some "t"%char -> last_char (path_join d (name +:+ ext)) = Some "t"%char.
Proof.
  intros E. assert (ext <> "") by (by intros ->).
  rewrite path_join_last by (by apply app_nonempty_r). by rewrite last_char_app.
Qed.

Lemma srt_lang_last (d name lang : string) :
  last_char (path_join d (name +:+ "_" +:+ lang +:+ ".srt")) = Some "t"%char.
Proof.
  rewrite path_join_last by nonempty. by rewrite !last_char_app by nonempty.
Qed.

Lemma suffix_last (lang : string) :
  last_char (".progress_" +:+ lang +:+ ".csv") = Some "v"%char.
Proof. by rewrite !last_char_app by nonempty. Qed.

Lemma srt_ne_srt_en (d name : string) :
  path_join d (name +:+ ".srt") <> path_join d (name +:+ "_en.srt").
Proof.
  intros E. apply path_join_inj in E.
  - by apply (inj (String.app name)) in E.
  - by eapply startswith_app_nonempty.
Qed.

Lemma srt_lang_ne_srt (d name lang : string) :
  path_join d (name +:+ "_" +:+ lang +:+ ".srt") <> path_join d (name +:+ ".srt").
Proof.
  intros E. apply path_join_inj in E.
  - by apply (inj (String.app name)) in E.
  - by eapply (startswith_app_nonempty name _ _ "_" "." (lang +:+ ".srt") "srt").
Qed.

Lemma srt_lang_ne_srt_en (d name lang : string) :
  lang <> "en" ->
  path_join d (name +:+ "_" +:+ lang +:+ ".srt") <> path_join d (name +:+ "_en.srt").
Proof.
  intros Hl E. apply path_join_inj in E.
  - apply (inj (String.app name)) in E. apply (inj (String.app "_")) in E.
    by apply (app_inv_tail_string lang "en" ".srt") in E.
  - by eapply (startswith_app_nonempty name _ _ "_" "_" (lang +:+ ".srt") "en.srt").
Qed.

(** The purge leaves alone every path that does not end in [v]. *)
Lemma purge_spec_lookup flt dir suffix (fm : gmap string file) k :
  purge_spec flt dir suffix fm !! k =
    if negb (bool_decide (dir = "")) && bool_decide (flt (OpListdir dir) = None)
       && purgeable flt dir suffix k
    then None else fm !! k.
Proof.
  unfold purge_spec. case_bool_decide; [done|]. cbn [negb andb].
  destruct (flt (OpListdir dir)); [done|]. rewrite bool_decide_eq_true_2 by done.
  cbn [andb]. destruct (purgeable flt dir suffix k) eqn:Ep.
  - apply map_lookup_filter_None_2. right. intros ? _. cbn. by rewrite Ep.
  - destruct (fm !! k) as [f|] eqn:Ek.
    + by apply map_lookup_filter_Some_2.
    + apply map_lookup_filter_None_2. by left.
Qed.

Lemma purgeable_last flt dir lang k :
  dir <> "" -> purgeable flt dir (".progress_" +:+ lang +:+ ".csv") k = true ->
  last_char k = Some "v"%char.
Proof.
  intros Hd. unfold purgeable. destruct (entry_name dir k) as [n|] eqn:En; [|done].
  intros [Hs _]%andb_true_iff. rewrite (entry_name_join _ _ _ Hd En).
  assert (".progress_" +:+ lang +:+ ".csv" <> "") as Hne by nonempty.
  pose proof (endswith_last_char _ _ Hne Hs) as Hlast.
  rewrite suffix_last in Hlast.
  rewrite path_join_last; [done|]. by intros ->.
Qed.

Lemma purge_spec_keeps flt dir lang (fm : gmap string file) k :
  last_char k <> Some "v"%char ->
  purge_spec flt dir (".progress_" +:+ lang +:+ ".csv") fm !! k = fm !! k.
Proof.
  intros Hk. rewrite purge_spec_lookup. case_bool_decide as Hd; [done|]. cbn [negb andb].
  destruct (bool_decide _); [|done]. cbn [andb].
  destruct (purgeable _ _ _ k) eqn:Ep; [|done].
  by apply purgeable_last in Ep.
Qed.

Lemma purge_spec_idem flt dir suffix (fm : gmap string file) :
  purge_spec flt dir suffix (purge_spec flt dir suffix fm) = purge_spec flt dir suffix fm.
Proof. apply map_eq. intros k. rewrite !purge_spec_lookup. by destruct (_ && _). Qed.

Lemma promote_spec_absent `{Platform} flt src dst (fm : gmap string file) :
  fm !! src = None -> promote_spec flt src dst fm = fm.
Proof. intros E. unfold promote_spec. rewrite E. by destruct (flt (OpStat src)). Qed.

(** A promotion already done is not done again: on any state that agrees
    with the outcome of a promotion at its two paths, promoting changes
    nothing. *)
Lemma promote_spec_settled `{Platform} flt src dst (fm fm' : gmap string file) :
  src <> dst ->
  fm' !! src = promote_spec flt src dst fm !! src ->
  fm' !! dst = promote_spec flt src dst fm !! dst ->
  promote_spec flt src dst fm' = fm'.
Proof.
  intros Hne. unfold promote_spec.
  destruct (flt (OpStat src)); [done|].
  destruct (fm !! src) as [f|] eqn:Ef.
  2:{ intros -> _. by rewrite Ef. }
  destruct (flt (OpReplace src dst)).
  - destruct (flt (OpCopy src dst)).
    { unfold torn_files. rewrite Ef.
      destruct (torn_copy src dst f) as [g|] eqn:Eg.
      - rewrite lookup_insert_ne, lookup_insert_eq by done.
        intros -> Hd. rewrite Ef, Eg. by apply insert_id.
      - intros -> _. by rewrite Ef, Eg. }
    destruct (flt (OpRemove src)).
    + rewrite lookup_insert_ne, lookup_insert_eq by done.
      intros -> Hd. rewrite Ef. by apply insert_id.
    + rewrite lookup_delete_eq. by intros ->.
  - rewrite lookup_insert_ne, lookup_delete_eq by done. by intros ->.
Qed.

Lemma promote_spec_renamed `{Platform} flt src dst (fm : gmap string file) f :
  src <> dst -> flt (OpStat src) = None -> fm !! src = Some f ->
  flt (OpReplace src dst) = None ->
  promote_spec flt src dst fm !! src = None /\
  promote_spec flt src dst fm !! dst = Some f.
Proof.
  intros Hne Hs Hf Hr. unfold promote_spec. rewrite Hs, Hf, Hr.
  by rewrite lookup_insert_ne, lookup_delete_eq, lookup_insert_eq.
Qed.

Lemma promote_spec_fallback `{Platform} flt src dst (fm : gmap string file) f m :
  src <> dst -> flt (OpStat src) = None -> fm !! src = Some f ->
  flt (OpReplace src dst) = Some m ->
  flt (OpCopy src dst) = None -> flt (OpRemove src) = None ->
  promote_spec flt src dst fm = <[dst := f]> (delete src fm).
Proof.
  intros Hne Hs Hf Hr Hc Hd. unfold promote_spec. rewrite Hs, Hf, Hr, Hc, Hd.
  by rewrite delete_insert_ne.
Qed.

(** ** Post-processing *)

Section postprocessing.
Context `{Platform}.

(** C8. For every directory, base name, language and every state of the
    file system (whatever files exist, whatever the operating system
    refuses), [postprocess_subtitles] returns the pair of
    [os.path.join(video_dir, video_name + "_en.srt")] and
    [os.path.join(video_dir, video_name + ".srt")]; for a directory that is
    not empty and does not end in a slash these are
    [video_dir/video_name_en.srt] and [video_dir/video_name.srt]. *)
Theorem postprocess_subtitles_returns_paths video_dir video_name target_lang w :
  fst (postprocess_subtitles video_dir video_name target_lang w) =
    Ok (path_join video_dir (video_name +:+ "_en.srt"),
        path_join video_dir (video_name +:+ ".srt")) /\
  (video_dir <> "" -> endswith video_dir "/" = false ->
   startswith video_name "/" = false ->
   fst (postprocess_subtitles video_dir video_name target_lang w) =
     Ok (video_dir +:+ "/" +:+ video_name +:+ "_en.srt",
         video_dir +:+ "/" +:+ video_name +:+ ".srt")).
Proof.
  destruct (postprocess_run video_dir video_name target_lang w) as (w' & E & _).
  rewrite E. cbn [fst]. split; [done|].
  intros Hd Hs Hn.
  assert (forall ext c ext', ext = String c ext' -> c <> "/"%char ->
            path_join video_dir (video_name +:+ ext) =
            video_dir +:+ "/" +:+ video_name +:+ ext) as Hjoin.
  { intros ext c ext' -> Hc. unfold path_join.
    assert (startswith (video_name +:+ String c ext') "/" = false) as ->.
    { destruct video_name as [|e n]; [|by rewrite app_cons_string].
      change (startswith (String c ext') "/" = false). cbn.
      by rewrite bool_decide_eq_false_2 by congruence. }
    by rewrite bool_decide_eq_false_2, Hs by done. }
  by rewrite (Hjoin "_en.srt" "_"%char "en.srt"), (Hjoin ".srt" "."%char "srt").
Qed.

(** C1, as the code has it.  With no staged translation present (and a
    target language other than [en]), two invocations in a row return the
    same pair of paths, and the second leaves every file as the first left
    it.  The first, however, does not leave the canonical file in place:
    when [{base}.srt] is a file and its rename is not refused, it is moved
    to [{base}_en.srt] and the canonical name is vacant afterwards. *)
Theorem postprocess_twice video_dir video_name target_lang w :
  target_lang <> "en" ->
  let srt := path_join video_dir (video_name +:+ ".srt") in
  let srt_en := path_join video_dir (video_name +:+ "_en.srt") in
  let srt_lang := path_join video_dir (video_name +:+ "_" +:+ target_lang +:+ ".srt") in
  files (fs w) !! srt_lang = None ->
  let run1 := postprocess_subtitles video_dir video_name target_lang w in
  let run2 := postprocess_subtitles video_dir video_name target_lang (snd run1) in
  fst run1 = Ok (srt_en, srt) /\ fst run2 = Ok (srt_en, srt) /\
  files (fs (snd run2)) = files (fs (snd run1)) /\
  (is_file (fs w) srt = true -> fault (fs w) (OpReplace srt srt_en) = None ->
   files (fs (snd run1)) !! srt = None /\
   files (fs (snd run1)) !! srt_en = files (fs w) !! srt).
Proof.
  intros Hlang srt srt_en srt_lang Hstaged run1 run2.
  destruct (postprocess_run video_dir video_name target_lang w)
    as (w1 & E1 & Hq1 & Hf1 & _).
  destruct (postprocess_run video_dir video_name target_lang w1)
    as (w2 & E2 & Hq2 & Hf2 & _).
  subst run2 run1. rewrite E1. cbn [fst snd]. rewrite E2. cbn [fst snd].
  fold srt srt_en srt_lang in Hf1, Hf2.
  assert (fault (fs w1) = fault (fs w)) as Hflt by apply Hq1.
  rewrite Hflt in Hf2.
  set (flt := fault (fs w)) in *.
  set (suffix := ".progress_" +:+ target_lang +:+ ".csv") in *.
  set (fm1 := promote_spec flt srt srt_en (files (fs w))) in *.
  assert (srt <> srt_en) as N1 by apply srt_ne_srt_en.
  assert (srt_lang <> srt) as N2 by apply srt_lang_ne_srt.
  assert (srt_lang <> srt_en) as N3 by by apply srt_lang_ne_srt_en.
  assert (fm1 !! srt_lang = None) as Hs1.
  { subst fm1. by rewrite promote_spec_other. }
  rewrite (promote_spec_absent flt srt_lang srt fm1 Hs1) in Hf1.
  assert (forall p, last_char p = Some "t"%char -> files (fs w1) !! p = fm1 !! p) as Hkeep.
  { intros p Hp. rewrite Hf1. apply purge_spec_keeps. by rewrite Hp. }
  assert (promote_spec flt srt srt_en (files (fs w1)) = files (fs w1)) as Hsettled.
  { apply (promote_spec_settled flt srt srt_en (files (fs w))); [done|..].
    - apply Hkeep. by apply srt_last.
    - apply Hkeep. by apply srt_last. }
  rewrite Hsettled in Hf2.
  rewrite promote_spec_absent in Hf2.
  2:{ rewrite Hkeep; [done|]. apply srt_lang_last. }
  split; [done|]. split; [done|]. split.
  - rewrite Hf2. rewrite Hf1 at 1. rewrite purge_spec_idem. by rewrite Hf1.
  - unfold is_file. intros Hfile Hr.
    destruct (fault (fs w) (OpStat srt)) eqn:Es; [done|].
    destruct (files (fs w) !! srt) as [f|] eqn:Ef; [|done].
    destruct (promote_spec_renamed flt srt srt_en (files (fs w)) f) as [R1 R2]; try done.
    rewrite !Hkeep by (by apply srt_last). done.
Qed.

(** C10. The post-processing written out at the end of [main] -- the two
    promotions, the purge and the two lines it prints -- is, on every state,
    the call [postprocess_subtitles(video_dir, video_name, TARGET_LANG)]
    followed by printing the two paths it returns (as the
    [--postprocess-only] branch does): same result, same files, same
    output. *)
Theorem main_postprocess_block_is_postprocess_subtitles
    video_dir video_name TARGET_LANG w :
  main_postprocess_block video_dir video_name
    (path_join video_dir (video_name +:+ ".srt"))
    (path_join video_dir (video_name +:+ "_" +:+ TARGET_LANG +:+ ".srt"))
    TARGET_LANG w =
  (paths <- postprocess_subtitles video_dir video_name TARGET_LANG ;;
   print ("English subtitles: " +:+ fst paths) ;;;
   print ("Translated subtitles: " +:+ snd paths)) w.
Proof.
  rewrite postprocess_unfold.
  change (main_postprocess_block video_dir video_name
            (path_join video_dir (video_name +:+ ".srt"))
            (path_join video_dir (video_name +:+ "_" +:+ TARGET_LANG +:+ ".srt"))
            TARGET_LANG)
    with (rename_block "Failed to rename original English srt: "
            (path_join video_dir (video_name +:+ ".srt"))
            (path_join video_dir (video_name +:+ "_en.srt")) ;;;
          rename_block "Failed to move translated srt to canonical name: "
            (path_join video_dir (video_name +:+ "_" +:+ TARGET_LANG +:+ ".srt"))
            (path_join video_dir (video_name +:+ ".srt")) ;;;
          purge_block video_dir (".progress_" +:+ TARGET_LANG +:+ ".csv") ;;;
          print ("English subtitles: " +:+
                 path_join video_dir (video_name +:+ "_en.srt")) ;;;
          print ("Translated subtitles: " +:+
                 path_join video_dir (video_name +:+ ".srt"))).
  unfold bind.
  destruct (rename_block _ _ _ w) as [[[]|e1] w1]; [|done].
  destruct (rename_block _ _ _ w1) as [[[]|e2] w2]; [|done].
  by destruct (purge_block _ _ w2) as [[[]|e3] w3].
Qed.

End postprocessing.

(** ** The download *)

Lemma elem_of_insert_desc x y l : y ∈ insert_desc x l <-> y = x \/ y ∈ l.
Proof.
  induction l as [|h t IH]; cbn [insert_desc].
  - rewrite list_elem_of_singleton, elem_of_nil. tauto.
  - destruct (fst x <? fst h); rewrite !elem_of_cons; [rewrite IH|]; tauto.
Qed.

Lemma elem_of_sort_desc y l : y ∈ sort_desc l <-> y ∈ l.
Proof.
  unfold sort_desc. induction l as [|h t IH]; cbn [foldr]; [done|].
  rewrite elem_of_insert_desc, elem_of_cons, IH. tauto.
Qed.

Lemma insert_desc_head_max x l : head_max l -> head_max (insert_desc x l).
Proof.
  destruct l as [|h t]; cbn [insert_desc head_max].
  - intros _ y ->%list_elem_of_singleton. lia.
  - intros Hh. destruct (fst x <? fst h) eqn:E.
    + apply Z.ltb_lt in E. intros y. rewrite elem_of_cons, elem_of_insert_desc.
      intros [->|[->|Hy]]; [lia|lia|]. apply Hh. by right.
    + apply Z.ltb_ge in E. intros y. rewrite elem_of_cons.
      intros [->|Hy]; [lia|]. specialize (Hh y Hy). lia.
Qed.

Lemma sort_desc_head_max l : head_max (sort_desc l).
Proof.
  unfold sort_desc. induction l as [|h t IH]; cbn [foldr]; [done|].
  by apply insert_desc_head_max.
Qed.

Lemma sort_desc_head l :
  l <> [] ->
  exists x rest, sort_desc l = x :: rest /\ x ∈ l /\ forall y, y ∈ l -> fst y <= fst x.
Proof.
  intros Hl. pose proof (sort_desc_head_max l) as Hmax.
  destruct (sort_desc l) as [|x rest] eqn:E.
  - destruct l as [|h t]; [done|].
    assert (h ∈ sort_desc (h :: t)) as Hh by (apply elem_of_sort_desc; by left).
    rewrite E in Hh. by apply elem_of_nil in Hh.
  - exists x, rest. split; [done|]. split.
    + apply elem_of_sort_desc. rewrite E. by left.
    + intros y Hy. apply Hmax. by apply elem_of_sort_desc in Hy; rewrite E in Hy.
Qed.

Section download.

Context `{Platform}.

Lemma getmtime_run p w f :
  fault (fs w) (OpStat p) = None -> files (fs w) !! p = Some f ->
  os_path_getmtime p w = (Ok (mtime f), w).
Proof.
  intros Hs Hf. unfold os_path_getmtime, bind, os_stat, syscall. by rewrite Hs, Hf.
Qed.

Lemma map_m_getmtime l w :
  (forall p, p ∈ l -> fault (fs w) (OpStat p) = None /\ is_Some (files (fs w) !! p)) ->
  map_m os_path_getmtime l w = (Ok (mtime_at w <$> l), w).
Proof.
  induction l as [|p l IH]; intros Hl; [done|].
  cbn [map_m]. unfold bind.
  destruct (Hl p) as [Hs [f Hf]]; [by left|].
  rewrite (getmtime_run p w f Hs Hf).
  rewrite IH by (intros q Hq; apply Hl; by right).
  unfold ret, mtime_at. cbn [fmap list_fmap]. by rewrite Hf.
Qed.

Lemma zip_fmap_self {A B} (f : A -> B) (l : list A) :
  zip (f <$> l) l = (fun x => (f x, x)) <$> l.
Proof. induction l as [|x l IH]; [done|]. cbn. by rewrite IH. Qed.

Lemma pick_downloaded_newest output_dir output_name w names :
  fst (os_listdir output_dir w) = Ok names ->
  let candidates :=
    path_join output_dir <$>
      filter (fun f => startswith f (output_name +:+ ".") = true) names in
  candidates <> [] ->
  (forall p, p ∈ candidates -> fault (fs w) (OpStat p) = None) ->
  exists p f w',
    pick_downloaded output_dir output_name w = (Ok p, w') /\ quiet w w' /\
    files (fs w') = files (fs w) /\
    p ∈ candidates /\ files (fs w) !! p = Some f /\
    forall q g, q ∈ candidates -> files (fs w) !! q = Some g -> mtime g <= mtime f.
Proof.
  intros Hlist candidates Hne Hstat.
  assert (forall p, p ∈ candidates -> is_Some (files (fs w) !! p)) as Hfile.
  { intros p Hp. rewrite listdir_run in Hlist. cbn [fst] in Hlist.
    case_bool_decide as Hd; [done|].
    destruct (fault (fs w) (OpListdir output_dir)); [done|]. injection Hlist as <-.
    apply list_elem_of_fmap in Hp as (n & -> & Hn).
    apply list_elem_of_filter in Hn as [_ Hn].
    apply elem_of_dir_entries in Hn as (k & Hk & En).
    by rewrite <- (entry_name_join _ _ _ Hd En). }
  unfold pick_downloaded, bind, try_except.
  destruct (os_listdir output_dir w) as [r w0] eqn:El.
  pose proof (listdir_run output_dir w) as El'. rewrite El in El'.
  injection El' as -> ->. cbn [fst] in Hlist. rewrite Hlist.
  fold candidates. destruct candidates as [|c cs] eqn:Ec; [done|]. rewrite <- Ec in *.
  rewrite map_m_getmtime by (intros p Hp; split; [by apply Hstat|by apply Hfile]).
  rewrite zip_fmap_self.
  destruct (sort_desc_head ((fun x => (mtime_at w x, x)) <$> candidates))
    as ([k p] & rest & -> & Hin & Hmax).
  { rewrite Ec. done. }
  cbn [fmap list_fmap snd]. rewrite debug_run.
  apply list_elem_of_fmap in Hin as (p' & [= -> <-] & Hp).
  destruct (Hfile p Hp) as [f Hf].
  exists p, f. eexists. split; [done|]. split; [apply quiet_with_stderr|].
  split; [done|]. split; [done|]. split; [done|].
  intros q g Hq Hg.
  assert ((mtime_at w q, q) ∈ (fun x => (mtime_at w x, x)) <$> candidates) as Hin.
  { apply list_elem_of_fmap. by exists q. }
  apply Hmax in Hin. cbn [fst] in Hin. unfold mtime_at in Hin.
  by rewrite Hf, Hg in Hin.
Qed.

Lemma pick_downloaded_none output_dir output_name w :
  match fst (os_listdir output_dir w) with
  | Ok names => forall f, f ∈ names -> startswith f (output_name +:+ ".") = false
  | Raise _ => True
  end ->
  fst (pick_downloaded output_dir output_name w) =
    Raise (FileNotFoundError "Could not find downloaded video file").
Proof.
  intros Hnone. unfold pick_downloaded, bind, try_except.
  destruct (os_listdir output_dir w) as [r w0] eqn:El.
  pose proof (listdir_run output_dir w) as El'. rewrite El in El'.
  injection El' as Er ->. cbn [fst] in Hnone.
  assert (forall l, (forall f, f ∈ l -> startswith f (output_name +:+ ".") = false) ->
            filter (fun f => startswith f (output_name +:+ ".") = true) l = []) as Hfilter.
  { intros l Hl. induction l as [|x l IH]; [done|].
    rewrite filter_cons. rewrite decide_False.
    - apply IH. intros f Hf. apply Hl. by right.
    - rewrite (Hl x) by (by left). done. }
  destruct r as [names|e].
  - rewrite (Hfilter names Hnone). cbn [fmap list_fmap]. by rewrite !debug_run.
  - cbn [ret]. rewrite filter_nil. cbn [fmap list_fmap]. by rewrite !debug_run.
Qed.

(** C4. Network-mode acquisition returns the most recently modified
    candidate: when the downloader has run (leaving state [w2]), the
    directory can be listed and holds at least one file whose name starts
    with [{base_name}.], [download_video] returns the path of such a file
    whose modification time no other candidate exceeds.  In particular, of
    two candidates the strictly newer one is returned ([{base}.webm] rather
    than an older [{base}.mp4]). *)
Theorem download_video_picks_newest
    url output_dir yt_dlp_path output_name w w2 names :
  run_downloader url output_dir yt_dlp_path output_name w = (Ok tt, w2) ->
  fst (os_listdir output_dir w2) = Ok names ->
  let candidates :=
    path_join output_dir <$>
      filter (fun f => startswith f (output_name +:+ ".") = true) names in
  candidates <> [] ->
  (forall p, p ∈ candidates -> fault (fs w2) (OpStat p) = None) ->
  exists p f w3,
    download_video url output_dir yt_dlp_path output_name w = (Ok p, w3) /\
    p ∈ candidates /\ files (fs w2) !! p = Some f /\
    (forall q g, q ∈ candidates -> files (fs w2) !! q = Some g -> mtime g <= mtime f) /\
    (forall older newer fo fn,
       (forall q, q ∈ candidates -> q = older \/ q = newer) ->
       newer ∈ candidates ->
       files (fs w2) !! older = Some fo -> files (fs w2) !! newer = Some fn ->
       mtime fo < mtime fn -> p = newer).
Proof.
  intros Hrun Hlist candidates Hne Hstat.
  destruct (pick_downloaded_newest output_dir output_name w2 names Hlist Hne Hstat)
    as (p & f & w3 & E & _ & _ & Hp & Hf & Hmax).
  exists p, f, w3. unfold download_video, bind. rewrite Hrun.
  split; [done|]. split; [done|]. split; [done|]. split; [done|].
  intros older newer fo fn Hall Hnc Ho Hn Hlt.
  destruct (Hall p Hp) as [-> | ->]; [|done].
  assert (f = fo) as -> by congruence.
  specialize (Hmax newer fn Hnc Hn). lia.
Qed.

(** C5. Network-mode acquisition fails with [FileNotFoundError] whenever,
    after the downloader has run, no file of the directory has a name
    starting with [{base_name}.]; a listing that fails counts as an empty
    one and ends in the same error. *)
Theorem download_video_not_found url output_dir yt_dlp_path output_name w w2 :
  run_downloader url output_dir yt_dlp_path output_name w = (Ok tt, w2) ->
  match fst (os_listdir output_dir w2) with
  | Ok names => forall f, f ∈ names -> startswith f (output_name +:+ ".") = false
  | Raise _ => True
  end ->
  fst (download_video url output_dir yt_dlp_path output_name w) =
    Raise (FileNotFoundError "Could not find downloaded video file").
Proof.
  intros Hrun Hnone. unfold download_video, bind. rewrite Hrun.
  by apply pick_downloaded_none.
Qed.

End download.

(** ** The configuration *)

(** C2, as the code has it.  Every key other than [TRANSLATOR_PATH] yields
    its hardcoded default when the variable of the same name is absent and
    the value of that variable, unchanged, when it is present, whatever the
    other variables hold; [TRANSLATOR_PATH] is read the same way (default
    [$HOME/tools/translateMovie/chatgpt-subtitle-translator]) and then goes
    through [os.path.expandvars] and [os.path.expanduser], so that its value
    depends on the variables it mentions and on the home directory. *)
Theorem get_config_plain_key w k d :
  (k, d) ∈ plain_defaults ->
  get_config w !! k = Some (default d (environ w !! k)) /\
  (forall w', environ w' !! k = environ w !! k -> get_config w' !! k = get_config w !! k) /\
  get_config w !! "TRANSLATOR_PATH" =
    Some (expanduser w (expandvars w
            (default TRANSLATOR_PATH_default (environ w !! "TRANSLATOR_PATH")))).
Proof.
  intros Hk.
  assert (forall w0, get_config w0 !! k = Some (default d (environ w0 !! k))) as Hget.
  { intros w0. unfold plain_defaults in Hk.
    repeat (apply elem_of_cons in Hk as [[= -> ->]|Hk]; [reflexivity|]).
    by apply elem_of_nil in Hk. }
  split; [apply Hget|]. split.
  - intros w' E. by rewrite !Hget, E.
  - reflexivity.
Qed.


(** The expansion at work: a [TRANSLATOR_PATH] that is present is not
    returned as it is, and its value moves with another key. *)
Lemma get_config_translator_path_expanded :
  environ (world_of ∅ no_fault env_tilde) !! "TRANSLATOR_PATH" = Some "~/tr" /\
  get_config (world_of ∅ no_fault env_tilde) !! "TRANSLATOR_PATH" = Some "/home/u/tr" /\
  environ (world_of ∅ no_fault (env_ref "pl")) !! "TRANSLATOR_PATH" =
    environ (world_of ∅ no_fault (env_ref "de")) !! "TRANSLATOR_PATH" /\
  get_config (world_of ∅ no_fault (env_ref "pl")) !! "TRANSLATOR_PATH" = Some "/opt/pl/tr" /\
  get_config (world_of ∅ no_fault (env_ref "de")) !! "TRANSLATOR_PATH" = Some "/opt/de/tr".
Proof. repeat split; vm_compute; reflexivity. Qed.

Lemma get_config_plain_key_witness :
  get_config (world_of ∅ no_fault (env_ref "de")) !! "TARGET_LANG" = Some "de" /\
  get_config (world_of ∅ no_fault env_tilde) !! "TARGET_LANG" = Some "pl".
Proof.
  split.
  - refine (proj1 (get_config_plain_key (world_of ∅ no_fault (env_ref "de"))
                     "TARGET_LANG" "pl" _)).
    unfold plain_defaults. repeat constructor.
  - refine (proj1 (get_config_plain_key (world_of ∅ no_fault env_tilde)
                     "TARGET_LANG" "pl" _)).
    unfold plain_defaults. repeat constructor.
Defined.

(** ** The controller and the translation stage *)

Section controller.
Context `{Platform}.

(** C3, at the input where the code departs from it: started with
    [--update-ytdlp] and neither [--file] nor [--net], [main] prints that one
    of them is required and returns 2; no process is started, so the
    downloader is not refreshed. *)
Theorem main_update_ytdlp_alone skip w :
  main false {| ns_file := None; ns_net := None; ns_postprocess_only := None;
                ns_skip_whisper := skip; ns_update_ytdlp := true |} w =
  (Ok 2, with_stderr (stderr w ++ ["Error: one of --file or --net is required"]) w).
Proof. reflexivity. Qed.


(** With [--file] (or [--net]) next to it, [--update-ytdlp] does run the
    updater: 0 when it succeeds, 2 when it raises. *)
Lemma main_update_ytdlp_with_file c f skip w :
  main false {| ns_file := Some (String c f); ns_net := None;
                ns_postprocess_only := None;
                ns_skip_whisper := skip; ns_update_ytdlp := true |} w =
  try_except (update_ytdlp (get_config w !!! "YT_DLP_PATH") ;;; ret 0)
    (fun e => eprint ("Error updating yt-dlp: " +:+ str_exn e) ;;; ret 2) w.
Proof. reflexivity. Qed.

(** C9. Whatever its arguments and the state, the translation stage starts
    one process; the credential and the endpoint are in the environment
    handed to it, as [OPENAI_API_KEY] and [OPENAI_BASE_URL]; its argument
    vector is [node_cmd] of the other seven arguments and is the same
    whatever the credential and the endpoint are. *)
Theorem translate_subtitles_secrets
    translator_path openai_model srt_en srt_out source_lang target_lang
    batch_sizes openai_api_key openai_endpoint w :
  let env := <["OPENAI_BASE_URL" := openai_endpoint]>
               (<["OPENAI_API_KEY" := openai_api_key]> (environ w)) in
  let argv := node_cmd translator_path openai_model srt_en srt_out
                source_lang target_lang batch_sizes in
  let run := translate_subtitles translator_path openai_model srt_en srt_out
               source_lang target_lang batch_sizes openai_api_key openai_endpoint w in
  spawned (snd run) = spawned w ++ [(argv, env)] /\
  env !! "OPENAI_API_KEY" = Some openai_api_key /\
  env !! "OPENAI_BASE_URL" = Some openai_endpoint /\
  forall key' endpoint',
    (spawned (snd (translate_subtitles translator_path openai_model srt_en srt_out
                     source_lang target_lang batch_sizes key' endpoint' w))).*1 =
    (spawned w).*1 ++ [argv].
Proof.
  intros env argv run.
  assert (forall key endpoint,
    spawned (snd (translate_subtitles translator_path openai_model srt_en srt_out
                    source_lang target_lang batch_sizes key endpoint w)) =
    spawned w ++ [(argv, <["OPENAI_BASE_URL" := endpoint]>
                           (<["OPENAI_API_KEY" := key]> (environ w)))]) as Hrun.
  { intros key endpoint. unfold translate_subtitles, bind, print, gets.
    rewrite !debug_run. unfold subprocess_run. cbn [default environ with_stderr with_stdout fs].
    destruct (spawn _ _ _) as [[code|msg] dk]; [|done].
    rewrite debug_run. by destruct (negb _). }
  split; [apply Hrun|]. split; [|split].
  - subst env. by rewrite lookup_insert_ne, lookup_insert_eq.
  - subst env. by rewrite lookup_insert_eq.
  - intros key' endpoint'. rewrite Hrun. by rewrite fmap_app.
Qed.

End controller.

(** ** Runs on sample states *)

(** The updater on its own, with tools that succeed: three processes, no
    error.  [main] never gets here when only [--update-ytdlp] is given. *)
Example update_ytdlp_runs :
  fst (@update_ytdlp idle_tools "/usr/local/bin/yt-dlp" (world_of ∅ no_fault ∅)) = Ok tt /\
  (spawned (snd (@update_ytdlp idle_tools "/usr/local/bin/yt-dlp"
                   (world_of ∅ no_fault ∅)))).*1 =
    [ [ "sudo"; "wget";
        "https://github.com/yt-dlp/yt-dlp/releases/latest/download/yt-dlp";
        "-O"; "/usr/local/bin/yt-dlp" ];
      [ "sudo"; "chmod"; "a+rx"; "/usr/local/bin/yt-dlp" ];
      [ "/usr/local/bin/yt-dlp"; "--version" ] ] /\
  spawned (snd (@main idle_tools false
                  {| ns_file := None; ns_net := None; ns_postprocess_only := None;
                     ns_skip_whisper := false; ns_update_ytdlp := true |}
                  (world_of ∅ no_fault ∅))) = [].
Proof. repeat split; vm_compute; reflexivity. Qed.

(** C1 fails on the code: in a finished directory (canonical file in place,
    no staged translation), post-processing moves the canonical file onto
    [movie_en.srt]; after two invocations [movie.srt] is gone and the
    archived transcript has been overwritten. *)
Lemma postprocess_twice_moves_canonical :
  is_file (fs (world_of finished_dir no_fault ∅)) "/v/movie.srt" = true /\
  files (fs (world_of finished_dir no_fault ∅)) !! "/v/movie.srt" = Some (subtitle "czesc") /\
  files (fs (world_of finished_dir no_fault ∅)) !! "/v/movie_pl.srt" = None /\
  files (fs (snd (@postprocess_subtitles idle_tools "/v" "movie" "pl"
           (snd (@postprocess_subtitles idle_tools "/v" "movie" "pl"
                   (world_of finished_dir no_fault ∅)))))) !! "/v/movie.srt" = None /\
  files (fs (snd (@postprocess_subtitles idle_tools "/v" "movie" "pl"
           (snd (@postprocess_subtitles idle_tools "/v" "movie" "pl"
                   (world_of finished_dir no_fault ∅)))))) !! "/v/movie_en.srt" =
    Some (subtitle "czesc").
Proof. repeat split; vm_compute; reflexivity. Qed.

Lemma postprocess_twice_witness :
  files (fs (snd (@postprocess_subtitles idle_tools "/v" "movie" "pl"
           (snd (@postprocess_subtitles idle_tools "/v" "movie" "pl"
                   (world_of finished_dir no_fault ∅)))))) =
  files (fs (snd (@postprocess_subtitles idle_tools "/v" "movie" "pl"
                   (world_of finished_dir no_fault ∅)))).
Proof.
  destruct (@postprocess_twice idle_tools "/v" "movie" "pl"
              (world_of finished_dir no_fault ∅)) as (_ & _ & E & _).
  - discriminate.
  - vm_compute. reflexivity.
  - exact E.
Defined.

Lemma postprocess_subtitles_returns_paths_witness :
  fst (@postprocess_subtitles idle_tools "/v" "movie" "pl"
         (world_of staged_dir stubborn ∅)) =
    Ok ("/v/movie_en.srt", "/v/movie.srt").
Proof.
  refine (proj2 (@postprocess_subtitles_returns_paths idle_tools "/v" "movie" "pl"
                   (world_of staged_dir stubborn ∅)) _ _ _).
  - discriminate.
  - reflexivity.
  - reflexivity.
Defined.

Lemma download_video_picks_newest_witness :
  exists w3,
    @download_video downloading_tools "https://example.org/clip" "/dl" "/bin/yt-dlp"
      "clip" (world_of download_dir no_fault ∅) = (Ok "/dl/clip.webm", w3).
Proof.
  destruct (@download_video_picks_newest downloading_tools
              "https://example.org/clip" "/dl" "/bin/yt-dlp" "clip"
              (world_of download_dir no_fault ∅)
              (snd (@run_downloader downloading_tools "https://example.org/clip"
                      "/dl" "/bin/yt-dlp" "clip" (world_of download_dir no_fault ∅)))
              ["clip.webm"; "clip.mp4"; "holiday.mp4"])
    as (p & f & w3 & E & _ & _ & _ & Hnew).
  - vm_compute. reflexivity.
  - vm_compute. reflexivity.
  - vm_compute. discriminate.
  - intros p _. reflexivity.
  - exists w3. rewrite E.
    rewrite (Hnew "/dl/clip.mp4" "/dl/clip.webm" (File "mp4" 10 false)
               (File "webm" 20 false)); [reflexivity|..].
    + intros q Hq. apply list_elem_of_In in Hq. vm_compute in Hq.
      destruct Hq as [<-|[<-|[]]]; [right|left]; reflexivity.
    + apply list_elem_of_In. vm_compute. left. reflexivity.
    + vm_compute. reflexivity.
    + vm_compute. reflexivity.
    + reflexivity.
Defined.

Lemma download_video_not_found_witness :
  fst (@download_video idle_tools "https://example.org/clip" "/dl" "/bin/yt-dlp"
         "clip" (world_of download_dir no_fault ∅)) =
    Raise (FileNotFoundError "Could not find downloaded video file").
Proof.
  apply (@download_video_not_found idle_tools "https://example.org/clip" "/dl"
           "/bin/yt-dlp" "clip" (world_of download_dir no_fault ∅)
           (snd (@run_downloader idle_tools "https://example.org/clip"
                   "/dl" "/bin/yt-dlp" "clip" (world_of download_dir no_fault ∅)))).
  - vm_compute. reflexivity.
  - vm_compute. intros f Hf. apply list_elem_of_In in Hf. cbn in Hf.
    destruct Hf as [<-|[]]. reflexivity.
Defined.

(** * Further properties of the stages *)

(** ** The updater and the download *)

Section stages.
Context `{Platform}.

Lemma exists_run p w : os_path_exists p w = (Ok (is_file (fs w) p), w).
Proof. apply isfile_run. Qed.

Lemma access_run p w : os_access_x p w = (Ok (runnable (fs w) p), w).
Proof.
  unfold os_access_x, try_except, bind, os_stat, syscall, runnable, ret.
  destruct (fault (fs w) (OpStat p)); [done|].
  by destruct (files (fs w) !! p).
Qed.

Lemma runnable_is_file d p : runnable d p = true -> is_file d p = true.
Proof.
  unfold runnable, is_file. destruct (fault d (OpStat p)); [done|].
  by destruct (files d !! p).
Qed.

(** [run_cmd] in one step. *)
Lemma run_cmd_run cmd check env w :
  let e := default (environ w) env in
  let w0 := with_stderr
    (stderr w ++ debug_line ("Running command: " +:+
                             String.concat " " (shlex_quote <$> cmd))) w in
  run_cmd cmd check env w =
    (match fst (spawn cmd e (fs w)) with
     | Exited rc =>
         if check && negb (bool_decide (rc = 0)) then Raise (CalledProcessError rc cmd)
         else Ok rc
     | SpawnFailed m => Raise (OSError m)
     end, after_spawn cmd e w0).
Proof.
  intros e w0. unfold run_cmd, bind. rewrite debug_run. fold w0.
  unfold subprocess_run, after_spawn.
  change (default (environ w0) env) with e. change (fs w0) with (fs w).
  destruct (spawn cmd e (fs w)) as [[rc|m] d]; cbn [fst snd]; [|done].
  by destruct (check && _).
Qed.

(** [run_cmd] with [check] and the environment of the controller. *)
Lemma run_cmd_checked cmd w :
  let r := fst (spawn cmd (environ w) (fs w)) in
  let w' := after_spawn cmd (environ w)
              (with_stderr
                 (stderr w ++ debug_line ("Running command: " +:+
                                          String.concat " " (shlex_quote <$> cmd))) w) in
  (r = Exited 0 -> run_cmd cmd true None w = (Ok 0, w')) /\
  (r <> Exited 0 -> run_cmd cmd true None w = (Raise (run_error cmd r), w')).
Proof.
  intros r w'. rewrite run_cmd_run. cbn [default]. fold r. fold w'.
  destruct r as [rc|m]; cbn [andb run_error].
  - case_bool_decide as Hrc; cbn [negb].
    + subst rc. split; [done|]. by intros [].
    + split; [|done]. intros [= ->]. done.
  - split; [done|done].
Qed.

Lemma debug_line_not_updated msg l :
  "yt-dlp updated successfully" ∈ debug_line msg ++ l ->
  "yt-dlp updated successfully" ∈ l.
Proof.
  unfold debug_line. destruct DEBUG; [|done].
  intros Hin. apply elem_of_cons in Hin as [Hin|Hin]; [done|done].
Qed.

(** X1. The updater runs [sudo wget], [sudo chmod] and [yt-dlp --version]
    in this order, each with the environment of the controller and on the
    file system the one before left, and stops at the first that does not
    exit with 0.  When the [k]-th is the first to fail, the exception of
    that command is raised ([CalledProcessError] with its exit status, or
    the [OSError] of a command that cannot be started), exactly the
    commands up to it have been started, and the success message has been
    printed if and only if it is [--version] that failed.  When all three
    exit with 0 the updater returns, all three have run and the message has
    been printed. *)
Theorem update_ytdlp_stops_at_first_failure yt_dlp_path w :
  let cmds := update_cmds yt_dlp_path in
  let e := environ w in
  let run := update_ytdlp yt_dlp_path w in
  let said := drop (length (stderr w)) (stderr (snd run)) in
  (forall k c r,
     cmds !! k = Some c ->
     (forall j, (j < k)%nat -> outcome e cmds (fs w) j = Some (Exited 0)) ->
     outcome e cmds (fs w) k = Some r -> r <> Exited 0 ->
     fst run = Raise (run_error c r) /\
     spawned (snd run) = spawned w ++ ((fun c => (c, e)) <$> take (S k) cmds) /\
     fs (snd run) = after_cmds e (take (S k) cmds) (fs w) /\
     ("yt-dlp updated successfully" ∈ said <-> k = 2%nat)) /\
  ((forall j, (j < 3)%nat -> outcome e cmds (fs w) j = Some (Exited 0)) ->
     fst run = Ok tt /\
     spawned (snd run) = spawned w ++ ((fun c => (c, e)) <$> cmds) /\
     fs (snd run) = after_cmds e cmds (fs w) /\
     "yt-dlp updated successfully" ∈ said).
Proof.
  intros cmds e run said.
  set (c1 := [ "sudo"; "wget";
               "https://github.com/yt-dlp/yt-dlp/releases/latest/download/yt-dlp";
               "-O"; yt_dlp_path ]).
  set (c2 := [ "sudo"; "chmod"; "a+rx"; yt_dlp_path ]).
  set (c3 := [ yt_dlp_path; "--version" ]).
  set (d0 := fs w).
  set (r1 := fst (spawn c1 e d0)). set (d1 := snd (spawn c1 e d0)).
  set (r2 := fst (spawn c2 e d1)). set (d2 := snd (spawn c2 e d1)).
  set (r3 := fst (spawn c3 e d2)). set (d3 := snd (spawn c3 e d2)).
  assert (outcome e cmds d0 0 = Some r1) as O1 by reflexivity.
  assert (outcome e cmds d0 1 = Some r2) as O2 by reflexivity.
  assert (outcome e cmds d0 2 = Some r3) as O3 by reflexivity.
  (* the run, stage by stage *)
  set (w0 := with_stderr (stderr w ++ ["=== Updating yt-dlp ==="]) w).
  destruct (run_cmd_checked c1 w0) as [K1 F1].
  cbn zeta in K1, F1. change (environ w0) with e in K1, F1.
  change (fs w0) with d0 in K1, F1. fold r1 in K1, F1.
  set (w1 := after_spawn c1 e _) in K1, F1.
  destruct (run_cmd_checked c2 w1) as [K2 F2].
  cbn zeta in K2, F2. change (environ w1) with e in K2, F2.
  change (fs w1) with d1 in K2, F2. fold r2 in K2, F2.
  set (w2 := after_spawn c2 e _) in K2, F2.
  set (w2' := with_stderr (stderr w2 ++ ["yt-dlp updated successfully"]) w2).
  destruct (run_cmd_checked c3 w2') as [K3 F3].
  cbn zeta in K3, F3. change (environ w2') with e in K3, F3.
  change (fs w2') with d2 in K3, F3. fold r3 in K3, F3.
  set (w3 := after_spawn c3 e _) in K3, F3.
  assert (run = (run_cmd c1 true None ;;;
                 run_cmd c2 true None ;;;
                 eprint "yt-dlp updated successfully" ;;;
                 run_cmd c3 true None ;;; ret tt) w0) as Hrun by reflexivity.
  assert (forall l, drop (length (stderr w)) (stderr w ++ l) = l) as Hdrop
    by (intros l; apply drop_app_length).
  assert (stderr w1 = stderr w ++ "=== Updating yt-dlp ===" ::
            debug_line ("Running command: " +:+ String.concat " " (shlex_quote <$> c1)))
    as S1 by (cbn; by rewrite <- app_assoc).
  assert ("yt-dlp updated successfully" ∉ drop (length (stderr w)) (stderr w1)) as N1.
  { rewrite S1, Hdrop. intros Hin. apply elem_of_cons in Hin as [Hin|Hin]; [done|].
    rewrite <- (app_nil_r (debug_line _)) in Hin.
    apply debug_line_not_updated in Hin. by apply elem_of_nil in Hin. }
  assert (stderr w2 = stderr w1 ++
            debug_line ("Running command: " +:+ String.concat " " (shlex_quote <$> c2)))
    as S2 by reflexivity.
  assert ("yt-dlp updated successfully" ∉ drop (length (stderr w)) (stderr w2)) as N2.
  { rewrite S2, S1, <- app_assoc, Hdrop. intros Hin.
    apply elem_of_cons in Hin as [Hin|Hin]; [done|].
    apply debug_line_not_updated in Hin.
    rewrite <- (app_nil_r (debug_line _)) in Hin.
    apply debug_line_not_updated in Hin. by apply elem_of_nil in Hin. }
  assert ("yt-dlp updated successfully" ∈ drop (length (stderr w)) (stderr w3)) as Y3.
  { assert (stderr w3 = stderr w ++
              ("=== Updating yt-dlp ===" ::
               debug_line ("Running command: " +:+ String.concat " " (shlex_quote <$> c1))) ++
              debug_line ("Running command: " +:+ String.concat " " (shlex_quote <$> c2)) ++
              ["yt-dlp updated successfully"] ++
              debug_line ("Running command: " +:+ String.concat " " (shlex_quote <$> c3)))
      as -> by (cbn; by rewrite <- !app_assoc).
    rewrite Hdrop. apply elem_of_app. right. apply elem_of_app. right.
    apply elem_of_app. left. by apply list_elem_of_singleton. }
  assert (spawned w1 = spawned w ++ [(c1, e)]) as P1 by reflexivity.
  assert (spawned w2 = spawned w ++ [(c1, e); (c2, e)]) as P2
    by (unfold w2, after_spawn; cbn [spawned with_stderr]; rewrite P1, <- app_assoc; reflexivity).
  assert (spawned w3 = spawned w ++ [(c1, e); (c2, e); (c3, e)]) as P3
    by (unfold w3, w2', after_spawn; cbn [spawned with_stderr]; rewrite P2, <- app_assoc; reflexivity).
  split.
  - intros k c r Hc Hprev Hk Hr.
    destruct k as [|[|[|k]]]; [| | |done].
    + injection Hc as <-. rewrite O1 in Hk. injection Hk as <-.
      specialize (F1 Hr).
      assert (run = (Raise (run_error c1 r1), w1)) as Hr1
        by (rewrite Hrun; unfold bind at 1; by rewrite F1).
      subst said. rewrite Hr1.
      cbn [fst snd]. split; [done|]. split; [done|]. split; [done|].
      split; [done|discriminate].
    + injection Hc as <-. rewrite O2 in Hk. injection Hk as <-.
      assert (r1 = Exited 0) as E1.
      { specialize (Hprev 0%nat). rewrite O1 in Hprev.
        assert (0 < 1)%nat as L by lia. specialize (Hprev L). by injection Hprev. }
      specialize (K1 E1). specialize (F2 Hr).
      assert (run = (Raise (run_error c2 r2), w2)) as Hr2
        by (rewrite Hrun; unfold bind at 1; rewrite K1; unfold bind at 1; by rewrite F2).
      subst said. rewrite Hr2.
      cbn [fst snd]. split; [done|]. split; [done|]. split; [done|].
      split; [done|discriminate].
    + injection Hc as <-. rewrite O3 in Hk. injection Hk as <-.
      assert (r1 = Exited 0) as E1.
      { specialize (Hprev 0%nat). rewrite O1 in Hprev.
        assert (0 < 2)%nat as L by lia. specialize (Hprev L). by injection Hprev. }
      assert (r2 = Exited 0) as E2.
      { specialize (Hprev 1%nat). rewrite O2 in Hprev.
        assert (1 < 2)%nat as L by lia. specialize (Hprev L). by injection Hprev. }
      specialize (K1 E1). specialize (K2 E2). specialize (F3 Hr).
      assert (run = (Raise (run_error c3 r3), w3)) as Hr3.
      { rewrite Hrun. unfold bind at 1. rewrite K1. unfold bind at 1. rewrite K2.
        unfold bind at 1, eprint at 1. fold w2'. unfold bind at 1. by rewrite F3. }
      subst said. rewrite Hr3.
      cbn [fst snd]. split; [done|]. split; [done|]. split; [done|].
      split; [done|done].
  - intros Hall.
    assert (r1 = Exited 0) as E1.
    { specialize (Hall 0%nat). rewrite O1 in Hall.
      assert (0 < 3)%nat as L by lia. specialize (Hall L). by injection Hall. }
    assert (r2 = Exited 0) as E2.
    { specialize (Hall 1%nat). rewrite O2 in Hall.
      assert (1 < 3)%nat as L by lia. specialize (Hall L). by injection Hall. }
    assert (r3 = Exited 0) as E3.
    { specialize (Hall 2%nat). rewrite O3 in Hall.
      assert (2 < 3)%nat as L by lia. specialize (Hall L). by injection Hall. }
    specialize (K1 E1). specialize (K2 E2). specialize (K3 E3).
    assert (run = (Ok tt, w3)) as Hr3.
    { rewrite Hrun. unfold bind at 1. rewrite K1. unfold bind at 1. rewrite K2.
      unfold bind at 1, eprint at 1. fold w2'. unfold bind at 1. by rewrite K3. }
    subst said. rewrite Hr3.
    cbn [fst snd]. split; [done|]. split; [done|]. split; [done|done].
Qed.

End stages.

Section download_more.
Context `{Platform}.

Lemma bind_ok {A B} (m : M A) (k : A -> M B) w a w' :
  m w = (Ok a, w') -> bind m k w = k a w'.
Proof. intros E. unfold bind. by rewrite E. Qed.

Lemma bind_raise {A B} (m : M A) (k : A -> M B) w e w' :
  m w = (Raise e, w') -> bind m k w = (Raise e, w').
Proof. intros E. unfold bind. by rewrite E. Qed.

Lemma tool_check_run p w :
  (present <- os_path_exists p ;;
   if negb present then ret true
   else runnable <- os_access_x p ;; ret (negb runnable)) w =
  (Ok (negb (runnable (fs w) p)), w).
Proof.
  unfold bind. rewrite exists_run.
  destruct (is_file (fs w) p) eqn:E; cbn [negb].
  - by rewrite access_run.
  - destruct (runnable (fs w) p) eqn:R; [|done].
    apply runnable_is_file in R. congruence.
Qed.

(** A loop that removes the selected names and swallows refusals. *)
Lemma remove_loop_run (sel : string -> bool) dir names w :
  exists fm,
    for_each names (fun fname =>
      when (sel fname)
        (try_except (os_remove (path_join dir fname)) (fun _ => ret tt))) w =
      (Ok tt, with_files fm w) /\
    forall k, fm !! k =
      if existsb (fun n => sel n && bool_decide (path_join dir n = k)) names
         && bool_decide (fault (fs w) (OpRemove k) = None)
      then None else files (fs w) !! k.
Proof.
  revert w. induction names as [|x names IH]; intros w.
  { exists (files (fs w)). split; [by rewrite with_files_id|done]. }
  cbn [for_each]. unfold bind at 1.
  set (w1 := with_files
    (if sel x && bool_decide (fault (fs w) (OpRemove (path_join dir x)) = None)
     then delete (path_join dir x) (files (fs w)) else files (fs w)) w).
  assert (when (sel x) (try_except (os_remove (path_join dir x)) (fun _ => ret tt)) w
          = (Ok tt, w1)) as ->.
  { subst w1. unfold when. destruct (sel x); cbn [andb]; [|by rewrite with_files_id].
    unfold try_except, os_remove, syscall.
    destruct (fault (fs w) (OpRemove (path_join dir x))) as [m|] eqn:E.
    { rewrite bool_decide_eq_false_2 by done. by rewrite with_files_id. }
    rewrite bool_decide_eq_true_2 by done.
    destruct (files (fs w) !! path_join dir x) eqn:Ef; [done|].
    by rewrite delete_id, with_files_id. }
  destruct (IH w1) as (fm & -> & Hfm).
  exists fm. split; [done|].
  intros k. rewrite Hfm. subst w1. cbn [fs fault files with_files existsb].
  destruct (decide (path_join dir x = k)) as [<-|Hne].
  - rewrite (bool_decide_eq_true_2 (path_join dir x = path_join dir x)) by done.
    rewrite andb_true_r.
    destruct (sel x), (existsb _ names),
      (bool_decide (fault (fs w) (OpRemove (path_join dir x)) = None));
      cbn [andb orb]; try done; apply lookup_delete_eq.
  - rewrite (bool_decide_eq_false_2 _ Hne), andb_false_r, orb_false_l.
    assert ((if sel x &&
                bool_decide (fault (fs w) (OpRemove (path_join dir x)) = None)
             then delete (path_join dir x) (files (fs w)) else files (fs w)) !! k
            = files (fs w) !! k) as ->; [|done].
    destruct (_ && _); [by rewrite lookup_delete_ne|done].
Qed.

Lemma existsb_entries_sel (sel : string -> bool) dir (fm : gmap string file) k :
  dir <> "" ->
  existsb (fun n => sel n && bool_decide (path_join dir n = k))
    (dir_entries dir fm) = true <->
  is_Some (fm !! k) /\ exists n, entry_name dir k = Some n /\ sel n = true.
Proof.
  intros Hd. rewrite existsb_exists. split.
  - intros (n & Hn & E). apply list_elem_of_In, elem_of_dir_entries in Hn.
    destruct Hn as (k' & Hk' & Hn). apply andb_true_iff in E as [Hs E].
    apply bool_decide_eq_true in E. pose proof (entry_name_join _ _ _ Hd Hn).
    assert (k' = k) as -> by congruence. eauto.
  - intros (Hk & n & Hn & Hs). exists n. split.
    + apply list_elem_of_In, elem_of_dir_entries. eauto.
    + rewrite Hs. cbn [andb]. apply bool_decide_eq_true.
      symmetry. by apply entry_name_join.
Qed.

(** Lines 53-59: the stale files are cleared, nothing else moves. *)
Lemma clear_stale_run dir name names w :
  fst (os_listdir dir w) = Ok names ->
  (old <- os_listdir dir ;;
   for_each old (fun fname =>
     when (startswith fname (name +:+ "."))
       (try_except (os_remove (path_join dir fname)) (fun _ => ret tt)))) w =
  (Ok tt, with_files
            (filter (fun kv => stale (fault (fs w)) dir name (fst kv) = false)
               (files (fs w))) w).
Proof.
  intros Hl. unfold bind. rewrite listdir_run in *. cbn [fst] in Hl.
  case_bool_decide as Hd; [done|].
  destruct (fault (fs w) (OpListdir dir)); [done|]. injection Hl as <-.
  destruct (remove_loop_run (fun n => startswith n (name +:+ ".")) dir
              (dir_entries dir (files (fs w))) w) as (fm & -> & Hfm).
  do 2 f_equal. apply map_eq. intros k. rewrite Hfm.
  destruct (files (fs w) !! k) as [f|] eqn:Ek.
  2:{ rewrite (map_lookup_filter_None_2 _ (files (fs w)) k) by auto.
      by destruct (_ && _). }
  destruct (stale (fault (fs w)) dir name k) eqn:Es.
  - rewrite (map_lookup_filter_None_2 _ (files (fs w)) k).
    2:{ right. intros ? _. cbn. by rewrite Es. }
    unfold stale in Es. destruct (entry_name dir k) as [n|] eqn:En; [|done].
    apply andb_true_iff in Es as [Hs ->]. rewrite andb_true_r.
    rewrite (proj2 (existsb_entries_sel _ dir (files (fs w)) k Hd)); [done|].
    split; [by rewrite Ek|eauto].
  - rewrite (map_lookup_filter_Some_2 _ (files (fs w)) k f Ek Es).
    destruct (existsb _ _ && _) eqn:Ex; [|done].
    apply andb_true_iff in Ex as [Ex Eb].
    apply existsb_entries_sel in Ex as (_ & n & En & Hs); [|done].
    unfold stale in Es. rewrite En, Hs, Eb in Es. done.
Qed.

(** The first part of [download_video], up to the start of the downloader. *)
Lemma run_downloader_start url dir ytp name w :
  let w0 := with_stderr
    (stderr w ++ ["=== Downloading video from URL ==="] ++
     debug_line ("URL: " +:+ url) ++ debug_line ("Output directory: " +:+ dir)) w in
  run_downloader url dir ytp name w =
    (if negb (runnable (fs w) ytp) then
       raise (FileNotFoundError
                ("yt-dlp not found at " +:+ ytp +:+ ". Run --update-ytdlp to install."))
     else
       (old <- os_listdir dir ;;
        for_each old (fun fname =>
          when (startswith fname (name +:+ "."))
            (try_except (os_remove (path_join dir fname)) (fun _ => ret tt)))) ;;;
       run_cmd (ytdlp_cmd url dir ytp name) true None ;;;
       ret tt) w0.
Proof.
  intros w0. unfold run_downloader. unfold bind at 1, eprint.
  unfold bind at 1. rewrite debug_run. unfold bind at 1. rewrite debug_run.
  cbn [stderr with_stderr].
  assert (with_stderr _ (with_stderr _ (with_stderr _ w)) = w0) as ->.
  { subst w0. unfold with_stderr. cbn. by rewrite <- !app_assoc. }
  unfold bind at 1. rewrite tool_check_run.
  change (fs w0) with (fs w). destruct (runnable (fs w) ytp); cbn [negb]; [|done].
  unfold bind. by destruct (os_listdir dir w0) as [[old|e] w1].
Qed.

(** X2. When the downloader is missing or may not be executed,
    [download_video] raises [FileNotFoundError] with a message that names
    the expected path and points to [--update-ytdlp]; no file is touched
    and no process is started. *)
Theorem download_video_tool_missing url output_dir yt_dlp_path output_name w :
  runnable (fs w) yt_dlp_path = false ->
  exists w',
    download_video url output_dir yt_dlp_path output_name w =
      (Raise (FileNotFoundError
                ("yt-dlp not found at " +:+ yt_dlp_path +:+
                 ". Run --update-ytdlp to install.")), w') /\
    fs w' = fs w /\ spawned w' = spawned w /\ stdout w' = stdout w.
Proof.
  intros Hr. unfold download_video, bind. rewrite run_downloader_start, Hr.
  cbn [negb]. unfold raise. eauto.
Qed.

(** X3. The listing that precedes the download is not guarded: when
    [os.listdir(output_dir)] raises (an empty directory name included),
    [download_video] raises the same exception, with no file touched and the
    downloader not started. *)
Theorem download_video_listing_refused url output_dir yt_dlp_path output_name w e :
  runnable (fs w) yt_dlp_path = true ->
  fst (os_listdir output_dir w) = Raise e ->
  exists w',
    download_video url output_dir yt_dlp_path output_name w = (Raise e, w') /\
    fs w' = fs w /\ spawned w' = spawned w.
Proof.
  intros Hr Hl. unfold download_video, bind. rewrite run_downloader_start, Hr.
  cbn [negb]. unfold bind. rewrite listdir_run in *. cbn [fst] in Hl.
  change (fault (fs (with_stderr ?l w))) with (fault (fs w)).
  destruct (if bool_decide (output_dir = "") then _ else _) as [names|e'] eqn:E;
    [done|]. injection Hl as ->. eauto.
Qed.

(** X4. Before the downloader starts, every listed file whose name starts
    with [{output_name}.] is removed, unless its removal is refused (which
    is swallowed); every other file is left alone, and the rest of
    [download_video] is the downloader run on that cleared state followed by
    the selection. *)
Theorem download_video_clears_stale url output_dir yt_dlp_path output_name w names :
  runnable (fs w) yt_dlp_path = true ->
  fst (os_listdir output_dir w) = Ok names ->
  exists w1,
    quiet w w1 /\
    files (fs w1) =
      filter (fun kv => stale (fault (fs w)) output_dir output_name (fst kv) = false)
        (files (fs w)) /\
    (forall n, n ∈ names -> startswith n (output_name +:+ ".") = true ->
       fault (fs w) (OpRemove (path_join output_dir n)) = None ->
       files (fs w1) !! path_join output_dir n = None) /\
    (forall k, stale (fault (fs w)) output_dir output_name k = false ->
       files (fs w1) !! k = files (fs w) !! k) /\
    download_video url output_dir yt_dlp_path output_name w =
      (run_cmd (ytdlp_cmd url output_dir yt_dlp_path output_name) true None ;;;
       pick_downloaded output_dir output_name) w1.
Proof.
  intros Hr Hl. unfold download_video. unfold bind at 1.
  rewrite run_downloader_start, Hr. cbn [negb].
  set (w0 := with_stderr _ w).
  assert (fst (os_listdir output_dir w0) = Ok names) as Hl0.
  { rewrite listdir_run in *. exact Hl. }
  rewrite (bind_ok _ _ _ _ _ (clear_stale_run output_dir output_name names w0 Hl0)).
  change (fault (fs w0)) with (fault (fs w)). change (files (fs w0)) with (files (fs w)).
  set (fm := filter _ (files (fs w))).
  exists (with_files fm w0). split; [|split; [done|split; [|split]]].
  - apply (quiet_trans _ w0); [apply quiet_with_stderr|apply quiet_with_files].
  - intros n Hn Hs Hf. cbn [fs files with_files]. subst fm.
    apply map_lookup_filter_None_2.
    rewrite listdir_run in Hl. cbn [fst] in Hl. case_bool_decide as Hd; [done|].
    destruct (fault (fs w) (OpListdir output_dir)); [done|]. injection Hl as <-.
    apply elem_of_dir_entries in Hn as (k & Hk & En).
    pose proof (entry_name_join _ _ _ Hd En) as ->.
    right. intros f _. cbn [fst]. unfold stale. rewrite En, Hs, Hf. done.
  - intros k Hk. cbn [fs files with_files]. subst fm.
    destruct (files (fs w) !! k) as [f|] eqn:Ek.
    + by apply map_lookup_filter_Some_2.
    + apply map_lookup_filter_None_2. by left.
  - unfold bind.
    by destruct (run_cmd _ true None (with_files fm w0)) as [[rc|e] w2].
Qed.

(** X5. When the downloader, started on the cleared directory with the
    environment of the controller, exits with a status other than 0,
    [download_video] raises [CalledProcessError] with that status and the
    command [yt-dlp -o {output_dir}/{output_name}.%(ext)s url]. *)
Theorem download_video_downloader_failed url output_dir yt_dlp_path output_name w names rc :
  runnable (fs w) yt_dlp_path = true ->
  fst (os_listdir output_dir w) = Ok names ->
  fst (spawn (ytdlp_cmd url output_dir yt_dlp_path output_name) (environ w)
         (Disk (filter (fun kv => stale (fault (fs w)) output_dir output_name (fst kv) = false)
                  (files (fs w)))
               (fault (fs w)))) = Exited rc ->
  rc <> 0 ->
  fst (download_video url output_dir yt_dlp_path output_name w) =
    Raise (CalledProcessError rc (ytdlp_cmd url output_dir yt_dlp_path output_name)).
Proof.
  intros Hr Hl Hs Hrc. unfold download_video. unfold bind at 1.
  rewrite run_downloader_start, Hr. cbn [negb].
  set (w0 := with_stderr _ w).
  assert (fst (os_listdir output_dir w0) = Ok names) as Hl0.
  { rewrite listdir_run in *. exact Hl. }
  rewrite (bind_ok _ _ _ _ _ (clear_stale_run output_dir output_name names w0 Hl0)).
  unfold bind at 1. rewrite run_cmd_run. cbn [default].
  change (environ (with_files ?fm w0)) with (environ w).
  change (fs (with_files ?fm w0)) with (Disk fm (fault (fs w))).
  change (fault (fs w0)) with (fault (fs w)). change (files (fs w0)) with (files (fs w)).
  rewrite Hs. cbn [andb]. rewrite bool_decide_eq_false_2 by done. done.
Qed.

End download_more.

Lemma sort_desc_head_first l x rest :
  sort_desc l = x :: rest ->
  exists i, l !! i = Some x /\
    forall j y, (j < i)%nat -> l !! j = Some y -> fst y < fst x.
Proof.
  revert x rest. induction l as [|h t IH]; intros x rest; [done|].
  unfold sort_desc. cbn [foldr]. fold (sort_desc t).
  destruct (sort_desc t) as [|y0 r] eqn:Et; cbn [insert_desc].
  - intros [= <- <-]. exists 0%nat. split; [done|]. intros; lia.
  - destruct (fst h <? fst y0) eqn:E.
    + intros [= <- <-]. destruct (IH y0 r eq_refl) as (i & Hi & Hlt).
      exists (S i). split; [done|]. intros [|j] y Hj Hy.
      * cbn in Hy. injection Hy as <-. by apply Z.ltb_lt.
      * cbn in Hy. apply (Hlt j); [lia|done].
    + intros [= <- <-]. exists 0%nat. split; [done|]. intros; lia.
Qed.

Section tie.
Context `{Platform}.

(** X6. The selection breaks ties by the order of the listing: the file
    [download_video] returns is at least as new as every candidate and
    strictly newer than every candidate listed before it. *)
Theorem download_video_first_of_newest
    url output_dir yt_dlp_path output_name w w2 names :
  run_downloader url output_dir yt_dlp_path output_name w = (Ok tt, w2) ->
  fst (os_listdir output_dir w2) = Ok names ->
  let candidates :=
    path_join output_dir <$>
      filter (fun f => startswith f (output_name +:+ ".") = true) names in
  candidates <> [] ->
  (forall p, p ∈ candidates -> fault (fs w2) (OpStat p) = None) ->
  exists i p w3,
    download_video url output_dir yt_dlp_path output_name w = (Ok p, w3) /\
    candidates !! i = Some p /\
    (forall j q, (j < i)%nat -> candidates !! j = Some q ->
       mtime_at w2 q < mtime_at w2 p) /\
    (forall q, q ∈ candidates -> mtime_at w2 q <= mtime_at w2 p).
Proof.
  intros Hrun Hlist candidates Hne Hstat.
  assert (forall p, p ∈ candidates -> is_Some (files (fs w2) !! p)) as Hfile.
  { intros p Hp. rewrite listdir_run in Hlist. cbn [fst] in Hlist.
    case_bool_decide as Hd; [done|].
    destruct (fault (fs w2) (OpListdir output_dir)); [done|]. injection Hlist as <-.
    apply list_elem_of_fmap in Hp as (n & -> & Hn).
    apply list_elem_of_filter in Hn as [_ Hn].
    apply elem_of_dir_entries in Hn as (k & Hk & En).
    by rewrite <- (entry_name_join _ _ _ Hd En). }
  unfold download_video. rewrite (bind_ok _ _ _ _ _ Hrun).
  unfold pick_downloaded, bind, try_except.
  destruct (os_listdir output_dir w2) as [r w0] eqn:El.
  pose proof (listdir_run output_dir w2) as El'. rewrite El in El'.
  injection El' as -> ->. cbn [fst] in Hlist. rewrite Hlist.
  fold candidates. destruct candidates as [|c cs] eqn:Ec; [done|]. rewrite <- Ec in *.
  rewrite map_m_getmtime by (intros p Hp; split; [by apply Hstat|by apply Hfile]).
  rewrite zip_fmap_self.
  destruct (sort_desc_head ((fun x => (mtime_at w2 x, x)) <$> candidates))
    as ([k p] & rest & Es & Hin & Hmax).
  { rewrite Ec. done. }
  rewrite Es. cbn [fmap list_fmap snd]. rewrite debug_run.
  destruct (sort_desc_head_first _ _ _ Es) as (i & Hi & Hlt).
  rewrite list_lookup_fmap in Hi.
  destruct (candidates !! i) as [p'|] eqn:Ei; [|done].
  cbn in Hi. injection Hi as <- <-.
  exists i, p'. eexists. split; [done|]. split; [done|]. split.
  - intros j q Hj Hq.
    apply (Hlt j (mtime_at w2 q, q)); [done|].
    by rewrite list_lookup_fmap, Hq.
  - intros q Hq. apply (Hmax (mtime_at w2 q, q)).
    apply list_elem_of_fmap. by exists q.
Qed.

(** X7. The translation stage makes a single attempt and touches nothing
    itself: the environment of the controller is unchanged (the credential
    goes on a copy, which inherits every other variable), the files are as
    the translator left them, and the result is [None] for exit status 0,
    [RuntimeError("Translation failed with exit code N")] for a status [N]
    other than 0, and the [OSError] of a translator that cannot be
    started. *)
Theorem translate_subtitles_single_attempt
    translator_path openai_model srt_en srt_out source_lang target_lang
    batch_sizes openai_api_key openai_endpoint w :
  let env := <["OPENAI_BASE_URL" := openai_endpoint]>
               (<["OPENAI_API_KEY" := openai_api_key]> (environ w)) in
  let argv := node_cmd translator_path openai_model srt_en srt_out
                source_lang target_lang batch_sizes in
  let run := translate_subtitles translator_path openai_model srt_en srt_out
               source_lang target_lang batch_sizes openai_api_key openai_endpoint w in
  environ (snd run) = environ w /\
  fs (snd run) = snd (spawn argv env (fs w)) /\
  (forall k, k <> "OPENAI_API_KEY" -> k <> "OPENAI_BASE_URL" ->
     env !! k = environ w !! k) /\
  match fst (spawn argv env (fs w)) with
  | Exited rc =>
      fst run = if bool_decide (rc = 0) then Ok tt
                else Raise (RuntimeError
                              ("Translation failed with exit code " +:+ pretty rc))
  | SpawnFailed m => fst run = Raise (OSError m)
  end.
Proof.
  intros env argv run. subst run.
  unfold translate_subtitles, bind, print, gets.
  rewrite !debug_run. unfold subprocess_run.
  cbn [default environ with_stderr with_stdout fs]. fold env argv.
  assert (forall k, k <> "OPENAI_API_KEY" -> k <> "OPENAI_BASE_URL" ->
            env !! k = environ w !! k) as Henv.
  { intros k H1 H2. subst env. by rewrite !lookup_insert_ne. }
  change (id env) with env.
  destruct (spawn argv env (fs w)) as [[rc|m] d]; cbn [fst snd].
  - rewrite debug_run. case_bool_decide; cbn [negb fst snd]; by repeat split.
  - by repeat split.
Qed.

End tie.

(** ** Post-processing, further *)

Lemma promote_spec_moved `{Platform} flt src dst (fm : gmap string file) f :
  src <> dst -> flt (OpStat src) = None -> fm !! src = Some f ->
  can_move flt src dst ->
  promote_spec flt src dst fm = <[dst := f]> (delete src fm).
Proof.
  intros Hne Hs Hf Hm. unfold promote_spec. rewrite Hs, Hf.
  destruct (flt (OpReplace src dst)) as [m|] eqn:Er; [|done].
  destruct Hm as [Hm|[Hc Hd]]; [congruence|].
  rewrite Hc, Hd. by rewrite delete_insert_ne.
Qed.

Lemma purgeable_join flt dir suffix k :
  dir <> "" -> purgeable flt dir suffix k = true ->
  exists n, endswith n suffix = true /\ k = path_join dir n.
Proof.
  intros Hd. unfold purgeable. destruct (entry_name dir k) as [n|] eqn:En; [|done].
  intros [Hs _]%andb_true_iff. exists n. split; [done|]. by apply entry_name_join.
Qed.

Section post_more.
Context `{Platform}.

Lemma debug_off msg w : DEBUG = false -> debug msg w = (Ok tt, w).
Proof. intros E. unfold debug. by rewrite E. Qed.

Lemma debug_line_off msg : DEBUG = false -> debug_line msg = [].
Proof. intros E. unfold debug_line. by rewrite E. Qed.

Lemma purge_loop_silent dir suffix names w :
  DEBUG = false ->
  exists w', for_each names (purge_body dir suffix) w = (Ok tt, w') /\
             stderr w' = stderr w.
Proof.
  intros HD. revert w. induction names as [|x names IH]; intros w; [by exists w|].
  cbn [for_each].
  assert (exists w1, purge_body dir suffix x w = (Ok tt, w1) /\ stderr w1 = stderr w)
    as (w1 & E1 & S1).
  { unfold purge_body, when. destruct (endswith x suffix); [|by exists w].
    unfold try_except, bind, os_remove, syscall.
    destruct (fault (fs w) (OpRemove (path_join dir x))).
    { rewrite debug_off by done. by exists w. }
    destruct (files (fs w) !! path_join dir x).
    - unfold set_files. rewrite debug_off by done. by eexists.
    - rewrite debug_off by done. by exists w. }
  rewrite (bind_ok _ _ _ _ _ E1).
  destruct (IH w1) as (w2 & E2 & S2). exists w2. split; [done|congruence].
Qed.

Lemma purge_block_silent dir suffix w :
  DEBUG = false ->
  exists w', purge_block dir suffix w = (Ok tt, w') /\ stderr w' = stderr w.
Proof.
  intros HD. unfold purge_block, try_except. unfold bind at 1.
  destruct (os_listdir dir w) as [[names|e] w0] eqn:El.
  - pose proof (listdir_run dir w) as El'. rewrite El in El'. injection El' as _ ->.
    destruct (purge_loop_silent dir suffix names w HD) as (w' & -> & S). eauto.
  - pose proof (listdir_run dir w) as El'. rewrite El in El'. injection El' as _ ->.
    rewrite debug_off by done. eauto.
Qed.

Lemma postprocess_stderr_off video_dir video_name target_lang w :
  DEBUG = false ->
  stderr (snd (postprocess_subtitles video_dir video_name target_lang w)) = stderr w.
Proof.
  intros HD. rewrite postprocess_unfold. unfold bind.
  rewrite rename_block_run. set (w1 := with_stderr _ _).
  assert (stderr w1 = stderr w) as S1.
  { subst w1. cbn [stderr with_stderr]. destruct (promote_error _ _ _ _);
      [rewrite debug_line_off by done|]; by rewrite app_nil_r. }
  clearbody w1. rewrite rename_block_run. set (w2 := with_stderr _ _).
  assert (stderr w2 = stderr w) as S2.
  { subst w2. cbn [stderr with_stderr]. rewrite S1.
    destruct (promote_error _ _ _ _);
      [rewrite debug_line_off by done|]; by rewrite app_nil_r. }
  destruct (purge_block_silent video_dir (".progress_" +:+ target_lang +:+ ".csv") w2 HD)
    as (w3 & -> & S3).
  unfold ret. cbn [snd]. congruence.
Qed.


(** C6, as the code has it.  In post-processing, whatever the state:
    [{base}.srt], if it is a file, is promoted to [{base}_en.srt] (renamed
    over any existing destination; copied and then deleted when the rename
    is refused), and afterwards [{base}_{lang}.srt], if it is a file, is
    promoted to [{base}.srt] in the same way ([promote_spec], twice in a
    row; a fallback copy that fails leaves its source in place and its
    destination untouched or overwritten); the purge that follows does not
    touch these paths.  A promotion that fails never keeps the function
    from returning; it is reported on the error stream when [DEBUG] is on,
    and not at all when it is off. *)
Theorem postprocess_promotes video_dir video_name target_lang w :
  let srt := path_join video_dir (video_name +:+ ".srt") in
  let srt_en := path_join video_dir (video_name +:+ "_en.srt") in
  let srt_lang := path_join video_dir (video_name +:+ "_" +:+ target_lang +:+ ".srt") in
  let flt := fault (fs w) in
  let fm1 := promote_spec flt srt srt_en (files (fs w)) in
  let fm2 := promote_spec flt srt_lang srt fm1 in
  let run := postprocess_subtitles video_dir video_name target_lang w in
  (exists paths, fst run = Ok paths) /\
  (forall p, p ∈ [srt; srt_en; srt_lang] -> files (fs (snd run)) !! p = fm2 !! p) /\
  (forall m, promote_error flt srt srt_en (files (fs w)) = Some m ->
     DEBUG = true ->
     "[DEBUG] Failed to rename original English srt: " +:+ m ∈ stderr (snd run)) /\
  (forall m, promote_error flt srt_lang srt fm1 = Some m ->
     DEBUG = true ->
     "[DEBUG] Failed to move translated srt to canonical name: " +:+ m
       ∈ stderr (snd run)) /\
  (DEBUG = false -> stderr (snd run) = stderr w).
Proof.
  intros srt srt_en srt_lang flt fm1 fm2 run.
  destruct (postprocess_run video_dir video_name target_lang w)
    as (w' & E & Hq & Hf & Hl1 & Hl2 & _).
  split; [|split; [|split; [|split]]].
  5:{ intros HD. by apply postprocess_stderr_off. }
  all: subst run; rewrite E; cbn [fst snd].
  - eauto.
  - intros p Hp. rewrite Hf. apply purge_spec_keeps.
    assert (last_char p = Some "t"%char) as ->; [|done].
    rewrite !elem_of_cons in Hp. destruct Hp as [->|[->|[->|Hp]]].
    + by apply srt_last.
    + by apply srt_last.
    + apply srt_lang_last.
    + by apply elem_of_nil in Hp.
  - intros m Hm HD. apply (Hl1 m); [done|].
    unfold debug_line. rewrite HD. apply list_elem_of_singleton. done.
  - intros m Hm HD. apply (Hl2 m); [done|].
    unfold debug_line. rewrite HD. apply list_elem_of_singleton. done.
Qed.


(** X8. With [DEBUG] off, post-processing writes nothing: whatever was
    refused, both output streams are as they were. *)
Theorem postprocess_subtitles_silent video_dir video_name target_lang w :
  DEBUG = false ->
  stderr (snd (postprocess_subtitles video_dir video_name target_lang w)) = stderr w /\
  stdout (snd (postprocess_subtitles video_dir video_name target_lang w)) = stdout w.
Proof.
  intros HD. split.
  2:{ destruct (postprocess_run video_dir video_name target_lang w) as (w' & -> & Hq & _).
      apply Hq. }
  rewrite postprocess_unfold. unfold bind.
  rewrite rename_block_run. set (w1 := with_stderr _ _).
  assert (stderr w1 = stderr w) as S1.
  { subst w1. cbn [stderr with_stderr]. destruct (promote_error _ _ _ _);
      [rewrite debug_line_off by done|]; by rewrite app_nil_r. }
  clearbody w1. rewrite rename_block_run. set (w2 := with_stderr _ _).
  assert (stderr w2 = stderr w) as S2.
  { subst w2. cbn [stderr with_stderr]. rewrite S1.
    destruct (promote_error _ _ _ _);
      [rewrite debug_line_off by done|]; by rewrite app_nil_r. }
  destruct (purge_block_silent video_dir (".progress_" +:+ target_lang +:+ ".csv") w2 HD)
    as (w3 & -> & S3).
  unfold ret. cbn [snd]. congruence.
Qed.

(** X9. Post-processing leaves every other file alone: a path that is none
    of the three subtitle paths and not a progress file of the directory
    holds after post-processing what it held before; no process is started,
    nothing is printed on the standard output and the environment is
    unchanged. *)
Theorem postprocess_subtitles_frame video_dir video_name target_lang w p :
  p ∉ [ path_join video_dir (video_name +:+ ".srt");
        path_join video_dir (video_name +:+ "_en.srt");
        path_join video_dir (video_name +:+ "_" +:+ target_lang +:+ ".srt") ] ->
  (forall n, endswith n (".progress_" +:+ target_lang +:+ ".csv") = true ->
     p <> path_join video_dir n) ->
  files (fs (snd (postprocess_subtitles video_dir video_name target_lang w))) !! p =
    files (fs w) !! p /\
  quiet w (snd (postprocess_subtitles video_dir video_name target_lang w)).
Proof.
  intros Hp Hn.
  destruct (postprocess_run video_dir video_name target_lang w)
    as (w' & -> & Hq & Hf & _).
  cbn [snd]. split; [|done]. rewrite Hf, purge_spec_lookup.
  rewrite !not_elem_of_cons in Hp. destruct Hp as (N1 & N2 & N3 & _).
  assert (negb (bool_decide (video_dir = "")) &&
          bool_decide (fault (fs w) (OpListdir video_dir) = None) &&
          purgeable (fault (fs w)) video_dir
            (".progress_" +:+ target_lang +:+ ".csv") p = false) as ->.
  { case_bool_decide as Hd; [done|]. cbn [negb andb].
    destruct (bool_decide _); [|done]. cbn [andb].
    destruct (purgeable _ _ _ p) eqn:Ep; [|done].
    apply purgeable_join in Ep as (n & Hs & ->); [|done]. by destruct (Hn n Hs). }
  by rewrite !promote_spec_other.
Qed.

(** X10. The staged state is reconciled: with a target language other
    than [en], the transcript at [{base}.srt] and the translation at
    [{base}_{lang}.srt], each of which can be moved (by rename, or by copy
    and removal), end up at [{base}_en.srt] and [{base}.srt], and
    [{base}_{lang}.srt] is gone. *)
Theorem postprocess_subtitles_reconciles video_dir video_name target_lang w a b :
  let srt := path_join video_dir (video_name +:+ ".srt") in
  let srt_en := path_join video_dir (video_name +:+ "_en.srt") in
  let srt_lang := path_join video_dir (video_name +:+ "_" +:+ target_lang +:+ ".srt") in
  target_lang <> "en" ->
  fault (fs w) (OpStat srt) = None -> files (fs w) !! srt = Some a ->
  fault (fs w) (OpStat srt_lang) = None -> files (fs w) !! srt_lang = Some b ->
  can_move (fault (fs w)) srt srt_en -> can_move (fault (fs w)) srt_lang srt ->
  let w' := snd (postprocess_subtitles video_dir video_name target_lang w) in
  files (fs w') !! srt_en = Some a /\ files (fs w') !! srt = Some b /\
  files (fs w') !! srt_lang = None.
Proof.
  intros srt srt_en srt_lang Hl Hs1 Ha Hs2 Hb Hm1 Hm2 w'. subst w'.
  destruct (postprocess_run video_dir video_name target_lang w)
    as (w' & -> & _ & Hf & _).
  cbn [snd]. fold srt srt_en srt_lang in Hf.
  assert (srt <> srt_en) as N1 by apply srt_ne_srt_en.
  assert (srt_lang <> srt) as N2 by apply srt_lang_ne_srt.
  assert (srt_lang <> srt_en) as N3 by by apply srt_lang_ne_srt_en.
  rewrite (promote_spec_moved _ srt srt_en _ a) in Hf by done.
  rewrite (promote_spec_moved _ srt_lang srt _ b) in Hf; try done.
  2:{ by rewrite lookup_insert_ne, lookup_delete_ne. }
  rewrite Hf, !purge_spec_keeps.
  - rewrite lookup_insert_ne, lookup_delete_ne, lookup_insert_eq by done.
    rewrite lookup_insert_eq. rewrite lookup_insert_ne, lookup_delete_eq by done. done.
  - subst srt_lang. by rewrite srt_lang_last.
  - subst srt. by rewrite srt_last.
  - subst srt_en. by rewrite srt_last.
Qed.

(** X11. With the target language [en] the staged translation and the
    archive of the transcript are one path, [{base}_en.srt]: the transcript
    is moved onto it and back, so that afterwards [{base}.srt] holds the
    transcript again and [{base}_en.srt] is gone, whatever it held. *)
Theorem postprocess_subtitles_target_en video_dir video_name w a :
  let srt := path_join video_dir (video_name +:+ ".srt") in
  let srt_en := path_join video_dir (video_name +:+ "_en.srt") in
  fault (fs w) (OpStat srt) = None -> files (fs w) !! srt = Some a ->
  fault (fs w) (OpStat srt_en) = None ->
  can_move (fault (fs w)) srt srt_en -> can_move (fault (fs w)) srt_en srt ->
  let w' := snd (postprocess_subtitles video_dir video_name "en" w) in
  files (fs w') !! srt = Some a /\ files (fs w') !! srt_en = None.
Proof.
  intros srt srt_en Hs1 Ha Hs2 Hm1 Hm2 w'. subst w'.
  destruct (postprocess_run video_dir video_name "en" w)
    as (w' & -> & _ & Hf & _).
  cbn [snd].
  change (path_join video_dir (video_name +:+ "_" +:+ "en" +:+ ".srt"))
    with srt_en in Hf.
  fold srt srt_en in Hf.
  assert (srt <> srt_en) as N1 by apply srt_ne_srt_en.
  rewrite (promote_spec_moved _ srt srt_en _ a) in Hf by done.
  rewrite (promote_spec_moved _ srt_en srt _ a) in Hf; try done.
  2:{ by rewrite lookup_insert_eq. }
  rewrite Hf, !purge_spec_keeps.
  - by rewrite lookup_insert_eq, lookup_insert_ne, lookup_delete_eq.
  - subst srt_en. by rewrite srt_last.
  - subst srt. by rewrite srt_last.
Qed.

(** X12. With an empty directory name (a video named without directory)
    the purge does nothing, because [os.listdir('')] raises: the files
    after post-processing are those the two promotions leave (each a
    rename, or a copy and a removal, or what is left of these when they
    fail: [promote_spec]), every other file is as before, and with [DEBUG]
    on the listing error is reported. *)
Theorem postprocess_subtitles_empty_dir video_name target_lang w :
  let srt := path_join "" (video_name +:+ ".srt") in
  let srt_en := path_join "" (video_name +:+ "_en.srt") in
  let srt_lang := path_join "" (video_name +:+ "_" +:+ target_lang +:+ ".srt") in
  let w' := snd (postprocess_subtitles "" video_name target_lang w) in
  files (fs w') =
    promote_spec (fault (fs w)) srt_lang srt
      (promote_spec (fault (fs w)) srt srt_en (files (fs w))) /\
  (forall p, p ∉ [srt; srt_en; srt_lang] -> files (fs w') !! p = files (fs w) !! p) /\
  (DEBUG = true ->
   "[DEBUG] Error while cleaning progress files: [Errno 2] No such file or directory: ''"
     ∈ stderr w').
Proof.
  intros srt srt_en srt_lang w'. subst w'.
  rewrite postprocess_unfold. unfold bind.
  rewrite !rename_block_run. fold srt srt_en srt_lang.
  set (w2 := with_stderr _ (with_files _ (with_stderr _ (with_files _ w)))).
  assert (purge_block "" (".progress_" +:+ target_lang +:+ ".csv") w2 =
          (Ok tt, with_stderr
                    (stderr w2 ++ debug_line
                       "Error while cleaning progress files: [Errno 2] No such file or directory: ''")
                    w2)) as ->.
  { unfold purge_block, try_except, bind. rewrite listdir_run. cbn [bool_decide].
    rewrite bool_decide_eq_true_2 by done. by rewrite debug_run. }
  subst w2. unfold ret. cbn [snd fs files with_stderr with_files stderr fault].
  split; [done|]. split.
  - intros p Hp. rewrite !not_elem_of_cons in Hp. destruct Hp as (N1 & N2 & N3 & _).
    by rewrite !promote_spec_other.
  - intros HD. unfold debug_line. rewrite HD. apply elem_of_app. right. by left.
Qed.

End post_more.

(** ** The controller, further *)

Section main_more.
Context `{Platform}.

Lemma main_unfold bare args w :
  main bare args w =
    (if bare then ret 0
     else if truthy (ns_postprocess_only args) then
       let video_file := default "" (ns_postprocess_only args) in
       present <- os_path_isfile video_file ;;
       if negb present then
         eprint ("Error: File not found: " +:+ video_file) ;;; ret 4
       else
         paths <- postprocess_subtitles (dirname video_file)
                    (splitext_root (basename video_file))
                    (get_config w !!! "TARGET_LANG") ;;
         print ("English subtitles: " +:+ fst paths) ;;;
         print ("Translated subtitles: " +:+ snd paths) ;;;
         ret 0
     else if negb (truthy (ns_file args)) && negb (truthy (ns_net args)) then
       eprint "Error: one of --file or --net is required" ;;; ret 2
     else if ns_update_ytdlp args then
       try_except (update_ytdlp (get_config w !!! "YT_DLP_PATH") ;;; ret 0)
         (fun e => eprint ("Error updating yt-dlp: " +:+ str_exn e) ;;; ret 2)
     else
       acquired <- acquire_step args (get_config w !!! "YT_DLP_PATH")
                     (get_config w !!! "YT_DLP_OUTPUT_NAME") ;;
       match acquired with
       | inr code => ret code
       | inl video_file => pipeline (ns_skip_whisper args) (get_config w) video_file
       end) w.
Proof. reflexivity. Qed.

Lemma logs_only_refl w : logs_only w w.
Proof. by repeat split. Qed.

Lemma logs_only_trans w1 w2 w3 : logs_only w1 w2 -> logs_only w2 w3 -> logs_only w1 w3.
Proof. intros (?&?&?&?) (?&?&?&?). repeat split; congruence. Qed.

Lemma print_logs s w : exists w', print s w = (Ok tt, w') /\ logs_only w w'.
Proof. eexists. split; [done|]. by repeat split. Qed.

Lemma eprint_logs s w : exists w', eprint s w = (Ok tt, w') /\ logs_only w w'.
Proof. eexists. split; [done|]. by repeat split. Qed.

Lemma debug_logs s w : exists w', debug s w = (Ok tt, w') /\ logs_only w w'.
Proof. rewrite debug_run. eexists. split; [done|]. by repeat split. Qed.

Lemma is_file_logs w w' p : logs_only w w' -> is_file (fs w') p = is_file (fs w) p.
Proof. by intros (-> & _). Qed.

(** The transcription step. *)
Lemma transcribe_step_skip video_file video_dir srt_en model lang w :
  exists w',
    transcribe_step true video_file video_dir srt_en model lang w =
      (Ok (if is_file (fs w) srt_en then None else Some 8), w') /\
    logs_only w w'.
Proof.
  unfold transcribe_step. cbn [negb]. unfold bind, print. cbv beta iota.
  rewrite isfile_run. cbn [fs with_stdout].
  destruct (is_file (fs w) srt_en); cbn [negb].
  - eexists. split; [done|]. by repeat split.
  - eexists. split; [done|]. by repeat split.
Qed.

Lemma transcribe_step_run video_file video_dir srt_en model lang w :
  let cmd := whisper_cmd video_file video_dir model lang in
  let sp := spawn cmd (environ w) (fs w) in
  exists w',
    transcribe_step false video_file video_dir srt_en model lang w =
      (Ok (match fst sp with
           | Exited rc =>
               if bool_decide (rc = 0)
               then (if is_file (snd sp) srt_en then None else Some 7)
               else Some 5
           | SpawnFailed _ => Some 6
           end), w') /\
    fs w' = snd sp /\ environ w' = environ w /\ pwd w' = pwd w /\
    spawned w' = spawned w ++ [(cmd, environ w)].
Proof.
  intros cmd sp. subst sp cmd. unfold transcribe_step, whisper_cmd. cbn [negb].
  unfold try_except, ensure_whisper, bind, print. cbv beta iota.
  rewrite debug_run. rewrite run_cmd_run.
  cbn [default environ with_stderr with_stdout fs]. unfold after_spawn.
  cbn [default environ with_stderr with_stdout fs pwd spawned stdout stderr].
  destruct (spawn _ (environ w) (fs w)) as [[rc|m] d]; cbn [fst snd].
  - cbn [andb]. case_bool_decide as Hrc; cbn [negb].
    + unfold ret. cbv beta iota. rewrite isfile_run. cbn [fs].
      destruct (is_file d srt_en); cbn [negb].
      * eexists. split; [done|]. by repeat split.
      * eexists. split; [done|]. by repeat split.
    + unfold eprint. cbv beta iota. rewrite debug_run.
      eexists. split; [done|]. by repeat split.
  - unfold eprint, ret. cbv beta iota. eexists. split; [done|]. by repeat split.
Qed.

Lemma listdir_of_run dir w : os_listdir dir w = (listdir_of (fs w) dir, w).
Proof. apply listdir_run. Qed.

Lemma translate_subtitles_run tp model srt_en srt_out sl tl bs key ep w :
  let env := <["OPENAI_BASE_URL" := ep]> (<["OPENAI_API_KEY" := key]> (environ w)) in
  let argv := node_cmd tp model srt_en srt_out sl tl bs in
  let sp := spawn argv env (fs w) in
  exists w',
    translate_subtitles tp model srt_en srt_out sl tl bs key ep w =
      (match fst sp with
       | Exited rc =>
           if bool_decide (rc = 0) then Ok tt
           else Raise (RuntimeError
                         ("Translation failed with exit code " +:+ pretty rc))
       | SpawnFailed m => Raise (OSError m)
       end, w') /\
    fs w' = snd sp /\ environ w' = environ w /\ pwd w' = pwd w /\
    spawned w' = spawned w ++ [(argv, env)].
Proof.
  intros env argv sp. subst sp.
  unfold translate_subtitles, bind, print, gets. cbv beta iota.
  rewrite !debug_run. unfold subprocess_run.
  cbn [default environ with_stderr with_stdout fs pwd spawned]. fold env argv.
  change (id env) with env.
  destruct (spawn argv env (fs w)) as [[rc|m] d]; cbn [fst snd].
  - rewrite debug_run. case_bool_decide; cbn [negb].
    + eexists. split; [done|]. by repeat split.
    + eexists. split; [done|]. by repeat split.
  - eexists. split; [done|]. by repeat split.
Qed.

Lemma translate_step_run tp model srt_en srt_out sl tl bs key ep video_dir w :
  let env := <["OPENAI_BASE_URL" := ep]> (<["OPENAI_API_KEY" := key]> (environ w)) in
  let argv := node_cmd tp model srt_en srt_out sl tl bs in
  let sp := spawn argv env (fs w) in
  let failed :=
    match listdir_of (snd sp) video_dir with
    | Ok _ => Ok (Some 9)
    | Raise e => Raise e
    end in
  exists w',
    translate_step tp model srt_en srt_out sl tl bs key ep video_dir w =
      (match fst sp with
       | Exited rc => if bool_decide (rc = 0) then Ok None else failed
       | SpawnFailed _ => failed
       end, w') /\
    fs w' = snd sp /\ environ w' = environ w /\ pwd w' = pwd w /\
    spawned w' = spawned w ++ [(argv, env)].
Proof.
  intros env argv sp failed.
  destruct (translate_subtitles_run tp model srt_en srt_out sl tl bs key ep w)
    as (w1 & E & Hfs & Henv & Hpw & Hsp).
  fold env argv sp in E, Hfs, Hsp.
  unfold translate_step, try_except. unfold bind at 1. rewrite E.
  assert (forall e, exists w',
    (eprint ("Error: Translation failed - " +:+ str_exn e) ;;;
     listing <- os_listdir video_dir ;;
     debug ("Listing files in output directory: " +:+ py_repr listing) ;;;
     ret (Some 9)) w1 = (failed, w') /\
    fs w' = snd sp /\ environ w' = environ w /\ pwd w' = pwd w /\
    spawned w' = spawned w ++ [(argv, env)]) as Hfail.
  { intros e. unfold bind, eprint. cbv beta iota. rewrite listdir_of_run.
    cbn [fs with_stderr]. subst failed. rewrite Hfs.
    destruct (listdir_of (snd sp) video_dir) as [l|e'].
    - rewrite debug_run. eexists. split; [done|]. by repeat split.
    - eexists. split; [done|]. by repeat split. }
  destruct (fst sp) as [rc|m].
  - case_bool_decide.
    + eexists. split; [done|]. by repeat split.
    + apply Hfail.
  - apply Hfail.
Qed.

Lemma main_block_as_call video_dir video_name TARGET_LANG w :
  main_postprocess_block video_dir video_name
    (path_join video_dir (video_name +:+ ".srt"))
    (path_join video_dir (video_name +:+ "_" +:+ TARGET_LANG +:+ ".srt"))
    TARGET_LANG w =
  (paths <- postprocess_subtitles video_dir video_name TARGET_LANG ;;
   print ("English subtitles: " +:+ fst paths) ;;;
   print ("Translated subtitles: " +:+ snd paths)) w.
Proof.
  rewrite postprocess_unfold.
  change (main_postprocess_block video_dir video_name
            (path_join video_dir (video_name +:+ ".srt"))
            (path_join video_dir (video_name +:+ "_" +:+ TARGET_LANG +:+ ".srt"))
            TARGET_LANG)
    with (rename_block "Failed to rename original English srt: "
            (path_join video_dir (video_name +:+ ".srt"))
            (path_join video_dir (video_name +:+ "_en.srt")) ;;;
          rename_block "Failed to move translated srt to canonical name: "
            (path_join video_dir (video_name +:+ "_" +:+ TARGET_LANG +:+ ".srt"))
            (path_join video_dir (video_name +:+ ".srt")) ;;;
          purge_block video_dir (".progress_" +:+ TARGET_LANG +:+ ".csv") ;;;
          print ("English subtitles: " +:+
                 path_join video_dir (video_name +:+ "_en.srt")) ;;;
          print ("Translated subtitles: " +:+
                 path_join video_dir (video_name +:+ ".srt"))).
  unfold bind.
  destruct (rename_block _ _ _ w) as [[[]|e1] w1]; [|done].
  destruct (rename_block _ _ _ w1) as [[[]|e2] w2]; [|done].
  by destruct (purge_block _ _ w2) as [[[]|e3] w3].
Qed.

(** The post-processing with its two printed lines, as a whole. *)
Lemma postprocess_and_print video_dir video_name target_lang w :
  let srt := path_join video_dir (video_name +:+ ".srt") in
  let srt_en := path_join video_dir (video_name +:+ "_en.srt") in
  let srt_lang := path_join video_dir (video_name +:+ "_" +:+ target_lang +:+ ".srt") in
  let run := postprocess_subtitles video_dir video_name target_lang w in
  exists w',
    (paths <- postprocess_subtitles video_dir video_name target_lang ;;
     print ("English subtitles: " +:+ fst paths) ;;;
     print ("Translated subtitles: " +:+ snd paths)) w = (Ok tt, w') /\
    fs w' = fs (snd run) /\ environ w' = environ w /\ pwd w' = pwd w /\
    spawned w' = spawned w /\ stderr w' = stderr (snd run) /\
    stdout w' = stdout w ++ ["English subtitles: " +:+ srt_en;
                             "Translated subtitles: " +:+ srt].
Proof.
  intros srt srt_en srt_lang run. subst run.
  destruct (postprocess_run video_dir video_name target_lang w)
    as (w1 & E & (Hflt & Henv & Hpw & Hout & Hsp & _) & _).
  fold srt srt_en in E. rewrite (bind_ok _ _ _ _ _ E). rewrite E. cbn [fst snd].
  unfold bind, print. cbv beta iota. eexists. split; [done|].
  cbn [fs environ pwd spawned stderr stdout with_stdout].
  repeat split; try done. rewrite Hout. by rewrite <- app_assoc.
Qed.

Lemma finish_step_run video_file video_dir video_name target_lang w :
  let srt := path_join video_dir (video_name +:+ ".srt") in
  let srt_lang := path_join video_dir (video_name +:+ "_" +:+ target_lang +:+ ".srt") in
  exists w',
    finish_step video_file video_dir video_name srt srt_lang target_lang w =
      (Ok (if is_file (fs w) srt_lang then 0 else 10), w') /\
    fs w' = (if is_file (fs w) srt_lang
             then fs (snd (postprocess_subtitles video_dir video_name target_lang w))
             else fs w) /\
    environ w' = environ w /\ pwd w' = pwd w /\ spawned w' = spawned w.
Proof.
  intros srt srt_lang. subst srt srt_lang.
  unfold finish_step. unfold bind at 1. rewrite isfile_run.
  destruct (is_file (fs w) _); cbn [negb].
  2:{ unfold bind, eprint. cbv beta iota. eexists. split; [done|]. by repeat split. }
  unfold bind at 1. unfold print at 1. cbv beta iota.
  unfold bind at 1. unfold print at 1. cbv beta iota.
  set (w0 := with_stdout _ (with_stdout _ w)).
  unfold bind at 1. rewrite main_block_as_call.
  destruct (postprocess_and_print video_dir video_name target_lang w0)
    as (w1 & -> & Hfs & Henv & Hpw & Hsp & _).
  unfold bind. rewrite debug_run. eexists. split; [done|].
  cbn [fs environ pwd spawned with_stderr].
  split; [|by repeat split].
  rewrite Hfs.
  destruct (postprocess_run video_dir video_name target_lang w0)
    as (wa & -> & (Ha & _) & Hfa & _).
  destruct (postprocess_run video_dir video_name target_lang w)
    as (wb & -> & (Hb & _) & Hfb & _).
  cbn [snd]. destruct (fs wa) as [fa fla], (fs wb) as [fb flb].
  cbn in *. subst. done.
Qed.

End main_more.

Section main_thms.
Context `{Platform}.

Lemma main_file_mode args w c s :
  truthy (ns_postprocess_only args) = false ->
  truthy (ns_net args) = false ->
  ns_file args = Some (String c s) ->
  ns_update_ytdlp args = false ->
  main false args w =
    if is_file (fs w) (String c s)
    then pipeline (ns_skip_whisper args) (get_config w) (String c s) w
    else (Ok 4, with_stderr (stderr w ++ ["Error: File not found: " +:+ String c s]) w).
Proof.
  intros Hpp Hnet Hfile Hup. rewrite main_unfold, Hpp, Hnet, Hfile, Hup.
  cbn [truthy negb andb]. unfold acquire_step. rewrite Hnet, Hfile. cbn [default id].
  unfold bind at 1. unfold bind at 1. rewrite isfile_run.
  destruct (is_file (fs w) (String c s)); reflexivity.
Qed.

Lemma pipeline_start skip cfg video_file w :
  let video_dir := dirname video_file in
  let video_name := splitext_root (basename video_file) in
  let srt_en := path_join video_dir (video_name +:+ ".srt") in
  let srt_translated :=
    path_join video_dir (video_name +:+ "_" +:+ (cfg !!! "TARGET_LANG") +:+ ".srt") in
  exists w0, logs_only w w0 /\
    pipeline skip cfg video_file w =
      (transcribed <- transcribe_step skip video_file video_dir srt_en
                        (cfg !!! "WHISPER_MODEL") (cfg !!! "WHISPER_LANGUAGE") ;;
       match transcribed with
       | Some code => ret code
       | None =>
           translated <- translate_step (cfg !!! "TRANSLATOR_PATH")
                           (cfg !!! "OPENAI_MODEL") srt_en srt_translated
                           (cfg !!! "SOURCE_LANG") (cfg !!! "TARGET_LANG")
                           (cfg !!! "TRANSLATION_BATCH_SIZES")
                           (cfg !!! "OPENAI_API_KEY") (cfg !!! "OPENAI_ENDPOINT")
                           video_dir ;;
           match translated with
           | Some code => ret code
           | None =>
               finish_step video_file video_dir video_name srt_en srt_translated
                 (cfg !!! "TARGET_LANG")
           end
       end) w0.
Proof.
  intros video_dir video_name srt_en srt_translated. unfold pipeline.
  fold video_dir video_name srt_en srt_translated.
  destruct (debug_logs ("Video directory: " +:+ video_dir) w) as (w1 & E1 & L1).
  destruct (debug_logs ("Video name (no ext): " +:+ video_name) w1) as (w2 & E2 & L2).
  destruct (debug_logs ("English SRT path: " +:+ srt_en) w2) as (w3 & E3 & L3).
  destruct (debug_logs ("Translated SRT path: " +:+ srt_translated) w3) as (w4 & E4 & L4).
  exists w4. split.
  { eapply logs_only_trans; [|done]. eapply logs_only_trans; [|done].
    by eapply logs_only_trans. }
  rewrite (bind_ok _ _ _ _ _ E1), (bind_ok _ _ _ _ _ E2), (bind_ok _ _ _ _ _ E3).
  by rewrite (bind_ok _ _ _ _ _ E4).
Qed.

(** X13. [--postprocess-only f], whatever the other arguments: when [f]
    is not a file, [main] returns 4 and only reports it on the error
    stream; otherwise it returns 0, starts no process, leaves the files as
    [postprocess_subtitles] on the directory and stem of [f] leaves them
    and prints the two paths. *)
Theorem main_postprocess_only args w c s :
  ns_postprocess_only args = Some (String c s) ->
  let video_file := String c s in
  let video_dir := dirname video_file in
  let video_name := splitext_root (basename video_file) in
  let run := postprocess_subtitles video_dir video_name
               (get_config w !!! "TARGET_LANG") w in
  if is_file (fs w) video_file then
    exists w',
      main false args w = (Ok 0, w') /\
      fs w' = fs (snd run) /\ spawned w' = spawned w /\
      stdout w' = stdout w ++
        ["English subtitles: " +:+ path_join video_dir (video_name +:+ "_en.srt");
         "Translated subtitles: " +:+ path_join video_dir (video_name +:+ ".srt")]
  else
    main false args w =
      (Ok 4, with_stderr (stderr w ++ ["Error: File not found: " +:+ video_file]) w).
Proof.
  intros Hpp video_file video_dir video_name run.
  destruct (is_file (fs w) video_file) eqn:Ev.
  2:{ rewrite main_unfold, Hpp. cbn [truthy default id]. fold video_file.
      unfold bind at 1. rewrite isfile_run, Ev. reflexivity. }
  rewrite main_unfold, Hpp. cbn [truthy default id]. fold video_file.
  unfold bind at 1. rewrite isfile_run, Ev. cbn [negb].
  fold video_dir video_name.
  destruct (postprocess_run video_dir video_name (get_config w !!! "TARGET_LANG") w)
    as (w1 & E & (Hflt & Henv & Hpw & Hout & Hsp & _) & _).
  subst run. rewrite E. cbn [snd].
  rewrite (bind_ok _ _ _ _ _ E). cbn [fst snd].
  unfold bind, print, ret. cbv beta iota. eexists. split; [done|].
  cbn [fs spawned stdout with_stdout]. rewrite Hout.
  split; [done|]. split; [done|]. by rewrite <- app_assoc.
Qed.

(** X14. [--file f --skip-whisper] with [f] present and no subtitle file
    beside it: [main] returns 8, with no file touched and no process
    started. *)
Theorem main_skip_whisper_missing_subtitle args w c s :
  truthy (ns_postprocess_only args) = false ->
  truthy (ns_net args) = false ->
  ns_file args = Some (String c s) ->
  ns_update_ytdlp args = false ->
  ns_skip_whisper args = true ->
  is_file (fs w) (String c s) = true ->
  is_file (fs w)
    (path_join (dirname (String c s))
       (splitext_root (basename (String c s)) +:+ ".srt")) = false ->
  exists w',
    main false args w = (Ok 8, w') /\ fs w' = fs w /\ spawned w' = spawned w.
Proof.
  intros Hpp Hnet Hfile Hup Hskip Hv Hsrt.
  rewrite (main_file_mode args w c s) by done. rewrite Hv, Hskip.
  destruct (pipeline_start true (get_config w) (String c s) w) as (w0 & L0 & ->).
  destruct (transcribe_step_skip (String c s) (dirname (String c s))
              (path_join (dirname (String c s))
                 (splitext_root (basename (String c s)) +:+ ".srt"))
              (get_config w !!! "WHISPER_MODEL") (get_config w !!! "WHISPER_LANGUAGE") w0)
    as (w1 & E1 & L1).
  rewrite (bind_ok _ _ _ _ _ E1). rewrite (is_file_logs w w0) by done. rewrite Hsrt.
  exists w1. split; [done|].
  destruct (logs_only_trans _ _ _ L0 L1) as (? & _ & _ & ?). done.
Qed.

(** X15. [--file f] when the transcription fails: [main] returns 5 when
    the transcriber exits with a status other than 0, 6 when it cannot be
    started, 7 when it exits with 0 and the subtitle file is not there; in
    each case the transcriber is the only process started. *)
Theorem main_transcription_failed args w c s :
  truthy (ns_postprocess_only args) = false ->
  truthy (ns_net args) = false ->
  ns_file args = Some (String c s) ->
  ns_update_ytdlp args = false ->
  ns_skip_whisper args = false ->
  is_file (fs w) (String c s) = true ->
  let video_file := String c s in
  let video_dir := dirname video_file in
  let srt_en := path_join video_dir (splitext_root (basename video_file) +:+ ".srt") in
  let cmd := whisper_cmd video_file video_dir
               (get_config w !!! "WHISPER_MODEL") (get_config w !!! "WHISPER_LANGUAGE") in
  let sp := spawn cmd (environ w) (fs w) in
  forall code,
    match fst sp with
    | Exited rc =>
        if bool_decide (rc = 0)
        then is_file (snd sp) srt_en = false /\ code = 7
        else code = 5
    | SpawnFailed _ => code = 6
    end ->
    exists w',
      main false args w = (Ok code, w') /\
      fs w' = snd sp /\ spawned w' = spawned w ++ [(cmd, environ w)].
Proof.
  intros Hpp Hnet Hfile Hup Hskip Hv video_file video_dir srt_en cmd sp code Hcode.
  rewrite (main_file_mode args w c s) by done. rewrite Hv, Hskip.
  fold video_file.
  destruct (pipeline_start false (get_config w) video_file w) as (w0 & L0 & ->).
  destruct L0 as (Hfs & Henv & Hpw & Hsp).
  destruct (transcribe_step_run video_file video_dir srt_en
              (get_config w !!! "WHISPER_MODEL") (get_config w !!! "WHISPER_LANGUAGE") w0)
    as (w1 & E1 & Hfs1 & Henv1 & Hpw1 & Hsp1).
  rewrite Henv, Hfs in E1, Hfs1. rewrite Henv in Hsp1.
  fold cmd sp in E1, Hfs1, Hsp1.
  fold video_dir srt_en.
  rewrite (bind_ok _ _ _ _ _ E1).
  assert (match fst sp with
          | Exited rc => if bool_decide (rc = 0)
                         then if is_file (snd sp) srt_en then None else Some 7
                         else Some 5
          | SpawnFailed _ => Some 6
          end = Some code) as ->.
  { destruct (fst sp) as [rc|m]; [|by subst].
    case_bool_decide; [|by subst]. destruct Hcode as [-> ->]. done. }
  exists w1. split; [done|]. split; [done|]. by rewrite Hsp1, Hsp.
Qed.

End main_thms.

Section main_pipeline.
Context `{Platform}.

(** [main] in file mode, once the transcription has succeeded (or has been
    skipped with the subtitle in place): the run continues with the
    translation. *)
Lemma main_transcribed args w c s :
  truthy (ns_postprocess_only args) = false ->
  truthy (ns_net args) = false ->
  ns_file args = Some (String c s) ->
  ns_update_ytdlp args = false ->
  is_file (fs w) (String c s) = true ->
  let cfg := get_config w in
  let video_file := String c s in
  let video_dir := dirname video_file in
  let video_name := splitext_root (basename video_file) in
  let srt_en := path_join video_dir (video_name +:+ ".srt") in
  let srt_translated :=
    path_join video_dir (video_name +:+ "_" +:+ (cfg !!! "TARGET_LANG") +:+ ".srt") in
  let cmd := whisper_cmd video_file video_dir
               (cfg !!! "WHISPER_MODEL") (cfg !!! "WHISPER_LANGUAGE") in
  let d1 := transcribed_disk (ns_skip_whisper args) cmd w in
  (ns_skip_whisper args = false -> fst (spawn cmd (environ w) (fs w)) = Exited 0) ->
  is_file d1 srt_en = true ->
  exists w1,
    fs w1 = d1 /\ environ w1 = environ w /\ pwd w1 = pwd w /\
    spawned w1 = spawned w ++
      (if ns_skip_whisper args then [] else [(cmd, environ w)]) /\
    main false args w =
      (translated <- translate_step (cfg !!! "TRANSLATOR_PATH")
                       (cfg !!! "OPENAI_MODEL") srt_en srt_translated
                       (cfg !!! "SOURCE_LANG") (cfg !!! "TARGET_LANG")
                       (cfg !!! "TRANSLATION_BATCH_SIZES")
                       (cfg !!! "OPENAI_API_KEY") (cfg !!! "OPENAI_ENDPOINT")
                       video_dir ;;
       match translated with
       | Some code => ret code
       | None =>
           finish_step video_file video_dir video_name srt_en srt_translated
             (cfg !!! "TARGET_LANG")
       end) w1.
Proof.
  intros Hpp Hnet Hfile Hup Hv cfg video_file video_dir video_name srt_en
    srt_translated cmd d1 Hw Hsrt.
  rewrite (main_file_mode args w c s) by done. rewrite Hv. fold video_file cfg.
  destruct (pipeline_start (ns_skip_whisper args) cfg video_file w)
    as (w0 & (Hfs & Henv & Hpw & Hsp) & ->).
  fold video_dir video_name srt_en srt_translated.
  subst d1. unfold transcribed_disk in *.
  destruct (ns_skip_whisper args) eqn:Hskip.
  - destruct (transcribe_step_skip video_file video_dir srt_en
                (cfg !!! "WHISPER_MODEL") (cfg !!! "WHISPER_LANGUAGE") w0)
      as (w1 & E1 & (Hfs1 & Henv1 & Hpw1 & Hsp1)).
    rewrite Hfs, Hsrt in E1. rewrite (bind_ok _ _ _ _ _ E1).
    exists w1. rewrite app_nil_r. repeat split; congruence.
  - destruct (transcribe_step_run video_file video_dir srt_en
                (cfg !!! "WHISPER_MODEL") (cfg !!! "WHISPER_LANGUAGE") w0)
      as (w1 & E1 & Hfs1 & Henv1 & Hpw1 & Hsp1).
    rewrite Henv, Hfs in E1, Hfs1. rewrite Henv in Hsp1. fold cmd in E1, Hfs1, Hsp1.
    rewrite (Hw eq_refl) in E1. rewrite bool_decide_eq_true_2 in E1 by done.
    rewrite Hsrt in E1. rewrite (bind_ok _ _ _ _ _ E1).
    exists w1. repeat split; congruence.
Qed.

(** X16. [--file f] when the translator does not exit with 0: [main]
    lists the directory of the video for its debug line, returns 9 when
    that listing succeeds and lets the exception of the listing escape when
    it does not; for a video named without directory it always escapes
    ([os.listdir('')]). *)
Theorem main_translation_failed args w c s :
  truthy (ns_postprocess_only args) = false ->
  truthy (ns_net args) = false ->
  ns_file args = Some (String c s) ->
  ns_update_ytdlp args = false ->
  is_file (fs w) (String c s) = true ->
  let cfg := get_config w in
  let video_file := String c s in
  let video_dir := dirname video_file in
  let video_name := splitext_root (basename video_file) in
  let srt_en := path_join video_dir (video_name +:+ ".srt") in
  let srt_translated :=
    path_join video_dir (video_name +:+ "_" +:+ (cfg !!! "TARGET_LANG") +:+ ".srt") in
  let cmd := whisper_cmd video_file video_dir
               (cfg !!! "WHISPER_MODEL") (cfg !!! "WHISPER_LANGUAGE") in
  let d1 := transcribed_disk (ns_skip_whisper args) cmd w in
  (ns_skip_whisper args = false -> fst (spawn cmd (environ w) (fs w)) = Exited 0) ->
  is_file d1 srt_en = true ->
  let env := <["OPENAI_BASE_URL" := cfg !!! "OPENAI_ENDPOINT"]>
               (<["OPENAI_API_KEY" := cfg !!! "OPENAI_API_KEY"]> (environ w)) in
  let argv := node_cmd (cfg !!! "TRANSLATOR_PATH") (cfg !!! "OPENAI_MODEL")
                srt_en srt_translated (cfg !!! "SOURCE_LANG") (cfg !!! "TARGET_LANG")
                (cfg !!! "TRANSLATION_BATCH_SIZES") in
  let sp := spawn argv env d1 in
  fst sp <> Exited 0 ->
  fst (main false args w) =
    match listdir_of (snd sp) video_dir with
    | Ok _ => Ok 9
    | Raise e => Raise e
    end /\
  (video_dir = "" -> fst (main false args w) = Raise (enoent "")).
Proof.
  intros Hpp Hnet Hfile Hup Hv cfg video_file video_dir video_name srt_en
    srt_translated cmd d1 Hw Hsrt env argv sp Hfail.
  destruct (main_transcribed args w c s Hpp Hnet Hfile Hup Hv Hw Hsrt)
    as (w1 & Hfs1 & Henv1 & Hpw1 & Hsp1 & ->).
  fold cfg video_file video_dir video_name srt_en srt_translated cmd d1 in Hfs1 |- *.
  destruct (translate_step_run (cfg !!! "TRANSLATOR_PATH") (cfg !!! "OPENAI_MODEL")
              srt_en srt_translated (cfg !!! "SOURCE_LANG") (cfg !!! "TARGET_LANG")
              (cfg !!! "TRANSLATION_BATCH_SIZES") (cfg !!! "OPENAI_API_KEY")
              (cfg !!! "OPENAI_ENDPOINT") video_dir w1)
    as (w2 & E2 & _).
  rewrite Henv1, Hfs1 in E2. fold env argv sp in E2.
  assert (translate_step (cfg !!! "TRANSLATOR_PATH") (cfg !!! "OPENAI_MODEL")
            srt_en srt_translated (cfg !!! "SOURCE_LANG") (cfg !!! "TARGET_LANG")
            (cfg !!! "TRANSLATION_BATCH_SIZES") (cfg !!! "OPENAI_API_KEY")
            (cfg !!! "OPENAI_ENDPOINT") video_dir w1 =
          (match listdir_of (snd sp) video_dir with
           | Ok _ => Ok (Some 9)
           | Raise e => Raise e
           end, w2)) as E2'.
  { rewrite E2. destruct (fst sp) as [rc|m]; [|done].
    case_bool_decide; [by subst|done]. }
  clear E2. unfold bind. rewrite E2'.
  split.
  - by destruct (listdir_of (snd sp) video_dir).
  - intros Hd. unfold listdir_of. by rewrite Hd.
Qed.

(** X17. [--file f] when the translator exits with 0 and its output file
    is not there: [main] returns 10 and the files are as the translator
    left them (no post-processing). *)
Theorem main_translation_output_missing args w c s :
  truthy (ns_postprocess_only args) = false ->
  truthy (ns_net args) = false ->
  ns_file args = Some (String c s) ->
  ns_update_ytdlp args = false ->
  is_file (fs w) (String c s) = true ->
  let cfg := get_config w in
  let video_file := String c s in
  let video_dir := dirname video_file in
  let video_name := splitext_root (basename video_file) in
  let srt_en := path_join video_dir (video_name +:+ ".srt") in
  let srt_translated :=
    path_join video_dir (video_name +:+ "_" +:+ (cfg !!! "TARGET_LANG") +:+ ".srt") in
  let cmd := whisper_cmd video_file video_dir
               (cfg !!! "WHISPER_MODEL") (cfg !!! "WHISPER_LANGUAGE") in
  let d1 := transcribed_disk (ns_skip_whisper args) cmd w in
  (ns_skip_whisper args = false -> fst (spawn cmd (environ w) (fs w)) = Exited 0) ->
  is_file d1 srt_en = true ->
  let env := <["OPENAI_BASE_URL" := cfg !!! "OPENAI_ENDPOINT"]>
               (<["OPENAI_API_KEY" := cfg !!! "OPENAI_API_KEY"]> (environ w)) in
  let argv := node_cmd (cfg !!! "TRANSLATOR_PATH") (cfg !!! "OPENAI_MODEL")
                srt_en srt_translated (cfg !!! "SOURCE_LANG") (cfg !!! "TARGET_LANG")
                (cfg !!! "TRANSLATION_BATCH_SIZES") in
  let sp := spawn argv env d1 in
  fst sp = Exited 0 ->
  is_file (snd sp) srt_translated = false ->
  exists w', main false args w = (Ok 10, w') /\ fs w' = snd sp.
Proof.
  intros Hpp Hnet Hfile Hup Hv cfg video_file video_dir video_name srt_en
    srt_translated cmd d1 Hw Hsrt env argv sp Hok Hout.
  destruct (main_transcribed args w c s Hpp Hnet Hfile Hup Hv Hw Hsrt)
    as (w1 & Hfs1 & Henv1 & Hpw1 & Hsp1 & ->).
  fold cfg video_file video_dir video_name srt_en srt_translated cmd d1 in Hfs1 |- *.
  destruct (translate_step_run (cfg !!! "TRANSLATOR_PATH") (cfg !!! "OPENAI_MODEL")
              srt_en srt_translated (cfg !!! "SOURCE_LANG") (cfg !!! "TARGET_LANG")
              (cfg !!! "TRANSLATION_BATCH_SIZES") (cfg !!! "OPENAI_API_KEY")
              (cfg !!! "OPENAI_ENDPOINT") video_dir w1)
    as (w2 & E2 & Hfs2 & _).
  rewrite Henv1, Hfs1 in E2, Hfs2. fold env argv sp in E2, Hfs2.
  rewrite Hok in E2. rewrite bool_decide_eq_true_2 in E2 by done.
  rewrite (bind_ok _ _ _ _ _ E2).
  destruct (finish_step_run video_file video_dir video_name (cfg !!! "TARGET_LANG") w2)
    as (w3 & E3 & Hfs3 & _).
  fold srt_en srt_translated in E3, Hfs3.
  rewrite Hfs2, Hout in E3, Hfs3. exists w3. split; [done|congruence].
Qed.

(** X18. The whole run on [--file f]: when the transcription succeeds
    (or is skipped with the subtitle in place) and the translator exits
    with 0 leaving its output, [main] returns 0; the files are those the
    translator left, after the two promotions ([promote_spec], which also
    says what a promotion that fails leaves behind) and the purge; the
    processes started are the transcriber (unless skipped) and the
    translator, in this order. *)
Theorem main_end_to_end args w c s :
  truthy (ns_postprocess_only args) = false ->
  truthy (ns_net args) = false ->
  ns_file args = Some (String c s) ->
  ns_update_ytdlp args = false ->
  is_file (fs w) (String c s) = true ->
  let cfg := get_config w in
  let video_file := String c s in
  let video_dir := dirname video_file in
  let video_name := splitext_root (basename video_file) in
  let srt_en := path_join video_dir (video_name +:+ ".srt") in
  let srt_translated :=
    path_join video_dir (video_name +:+ "_" +:+ (cfg !!! "TARGET_LANG") +:+ ".srt") in
  let cmd := whisper_cmd video_file video_dir
               (cfg !!! "WHISPER_MODEL") (cfg !!! "WHISPER_LANGUAGE") in
  let d1 := transcribed_disk (ns_skip_whisper args) cmd w in
  (ns_skip_whisper args = false -> fst (spawn cmd (environ w) (fs w)) = Exited 0) ->
  is_file d1 srt_en = true ->
  let env := <["OPENAI_BASE_URL" := cfg !!! "OPENAI_ENDPOINT"]>
               (<["OPENAI_API_KEY" := cfg !!! "OPENAI_API_KEY"]> (environ w)) in
  let argv := node_cmd (cfg !!! "TRANSLATOR_PATH") (cfg !!! "OPENAI_MODEL")
                srt_en srt_translated (cfg !!! "SOURCE_LANG") (cfg !!! "TARGET_LANG")
                (cfg !!! "TRANSLATION_BATCH_SIZES") in
  let sp := spawn argv env d1 in
  fst sp = Exited 0 ->
  is_file (snd sp) srt_translated = true ->
  exists w',
    main false args w = (Ok 0, w') /\
    files (fs w') =
      purge_spec (fault (snd sp)) video_dir
        (".progress_" +:+ (cfg !!! "TARGET_LANG") +:+ ".csv")
        (promote_spec (fault (snd sp)) srt_translated srt_en
           (promote_spec (fault (snd sp)) srt_en
              (path_join video_dir (video_name +:+ "_en.srt")) (files (snd sp)))) /\
    fault (fs w') = fault (snd sp) /\
    spawned w' = spawned w ++
      (if ns_skip_whisper args then [] else [(cmd, environ w)]) ++ [(argv, env)].
Proof.
  intros Hpp Hnet Hfile Hup Hv cfg video_file video_dir video_name srt_en
    srt_translated cmd d1 Hw Hsrt env argv sp Hok Hout.
  destruct (main_transcribed args w c s Hpp Hnet Hfile Hup Hv Hw Hsrt)
    as (w1 & Hfs1 & Henv1 & Hpw1 & Hsp1 & ->).
  fold cfg video_file video_dir video_name srt_en srt_translated cmd d1
    in Hfs1, Hsp1 |- *.
  destruct (translate_step_run (cfg !!! "TRANSLATOR_PATH") (cfg !!! "OPENAI_MODEL")
              srt_en srt_translated (cfg !!! "SOURCE_LANG") (cfg !!! "TARGET_LANG")
              (cfg !!! "TRANSLATION_BATCH_SIZES") (cfg !!! "OPENAI_API_KEY")
              (cfg !!! "OPENAI_ENDPOINT") video_dir w1)
    as (w2 & E2 & Hfs2 & Henv2 & Hpw2 & Hsp2).
  rewrite Henv1, Hfs1 in E2, Hfs2. rewrite Henv1 in Hsp2.
  fold env argv sp in E2, Hfs2, Hsp2.
  rewrite Hok in E2. rewrite bool_decide_eq_true_2 in E2 by done.
  rewrite (bind_ok _ _ _ _ _ E2).
  destruct (finish_step_run video_file video_dir video_name (cfg !!! "TARGET_LANG") w2)
    as (w3 & E3 & Hfs3 & Henv3 & Hpw3 & Hsp3).
  fold srt_en srt_translated in E3, Hfs3.
  rewrite Hfs2, Hout in E3, Hfs3. exists w3. split; [done|].
  destruct (postprocess_run video_dir video_name (cfg !!! "TARGET_LANG") w2)
    as (wp & Ep & (Hflt & _) & Hfp & _).
  rewrite Ep in Hfs3. cbn [snd] in Hfs3.
  fold srt_en srt_translated in Hfp. rewrite Hfs2 in Hfp, Hflt.
  rewrite Hfs3. split; [done|]. split; [done|].
  rewrite Hsp3, Hsp2, Hsp1. by rewrite <- app_assoc.
Qed.

(** [main] returns no other status than those of [exit_codes]. *)
Lemma pipeline_exit_codes skip cfg video_file w r w' :
  pipeline skip cfg video_file w = (Ok r, w') -> r ∈ [0; 5; 6; 7; 8; 9; 10].
Proof.
  destruct (pipeline_start skip cfg video_file w) as (w0 & _ & ->).
  set (video_dir := dirname video_file).
  set (video_name := splitext_root (basename video_file)).
  set (srt_en := path_join video_dir (video_name +:+ ".srt")).
  set (srt_translated := path_join video_dir _).
  assert (exists o w1,
    transcribe_step skip video_file video_dir srt_en
      (cfg !!! "WHISPER_MODEL") (cfg !!! "WHISPER_LANGUAGE") w0 = (Ok o, w1) /\
    (o = None \/ o = Some 5 \/ o = Some 6 \/ o = Some 7 \/ o = Some 8))
    as (o & w1 & E1 & Ho).
  { destruct skip.
    - destruct (transcribe_step_skip video_file video_dir srt_en
                  (cfg !!! "WHISPER_MODEL") (cfg !!! "WHISPER_LANGUAGE") w0)
        as (w1 & E1 & _).
      eexists _, w1. split; [exact E1|]. destruct (is_file _ _); tauto.
    - destruct (transcribe_step_run video_file video_dir srt_en
                  (cfg !!! "WHISPER_MODEL") (cfg !!! "WHISPER_LANGUAGE") w0)
        as (w1 & E1 & _).
      eexists _, w1. split; [exact E1|].
      destruct (fst _); [|tauto]. case_bool_decide; [|tauto].
      destruct (is_file _ _); tauto. }
  rewrite (bind_ok _ _ _ _ _ E1).
  destruct Ho as [-> | Ho].
  2:{ destruct Ho as [-> | [-> | [-> | ->]]]; intros [= <- _];
        repeat (first [apply list_elem_of_here | apply list_elem_of_further]). }
  destruct (translate_step_run (cfg !!! "TRANSLATOR_PATH") (cfg !!! "OPENAI_MODEL")
              srt_en srt_translated (cfg !!! "SOURCE_LANG") (cfg !!! "TARGET_LANG")
              (cfg !!! "TRANSLATION_BATCH_SIZES") (cfg !!! "OPENAI_API_KEY")
              (cfg !!! "OPENAI_ENDPOINT") video_dir w1)
    as (w2 & E2 & _).
  unfold bind at 1. rewrite E2.
  assert (forall (x : result (option Z)),
            (x = Ok None \/ x = Ok (Some 9) \/ exists e, x = Raise e) ->
            (let (r0, w'0) := (x, w2) in
             match r0 with
             | Ok a =>
                 match a with
                 | Some code => ret code
                 | None =>
                     finish_step video_file video_dir video_name srt_en
                       srt_translated (cfg !!! "TARGET_LANG")
                 end w'0
             | Raise e => (Raise e, w'0)
             end) = (Ok r, w') -> r ∈ [0; 5; 6; 7; 8; 9; 10]) as Hcont.
  { intros x [-> | [-> | [e ->]]]; cbv beta iota.
    - destruct (finish_step_run video_file video_dir video_name
                  (cfg !!! "TARGET_LANG") w2) as (w3 & E3 & _).
      fold srt_en srt_translated in E3. rewrite E3.
      destruct (is_file _ _); intros [= <- _];
        repeat (first [apply list_elem_of_here | apply list_elem_of_further]).
    - intros [= <- _].
      repeat (first [apply list_elem_of_here | apply list_elem_of_further]).
    - done. }
  apply Hcont.
  assert (forall d : disk,
            match listdir_of d video_dir with
            | Ok _ => Ok (Some 9)
            | Raise e => Raise e
            end = Ok (Some 9) \/
            exists e, match listdir_of d video_dir with
                      | Ok _ => Ok (Some 9)
                      | Raise e => Raise e
                      end = Raise e) as Hl.
  { intros d. destruct (listdir_of d video_dir); eauto. }
  destruct (fst _) as [rc|m].
  - case_bool_decide; [by left|]. right. apply Hl.
  - right. apply Hl.
Qed.

(** X19. Whenever [main] returns, its exit status is one of 0, 2, 3, 4,
    5, 6, 7, 8, 9 and 10. *)
Theorem main_exit_codes bare args w r w' :
  main bare args w = (Ok r, w') -> r ∈ exit_codes.
Proof.
  rewrite main_unfold. unfold exit_codes.
  destruct bare.
  { intros [= <- _]. apply list_elem_of_here. }
  destruct (truthy (ns_postprocess_only args)).
  { cbv zeta. unfold bind at 1. rewrite isfile_run.
    destruct (is_file _ _); cbn [negb].
    - destruct (postprocess_run (dirname (default "" (ns_postprocess_only args)))
                  (splitext_root (basename (default "" (ns_postprocess_only args))))
                  (get_config w !!! "TARGET_LANG") w) as (w1 & E & _).
      rewrite (bind_ok _ _ _ _ _ E). intros [= <- _]. apply list_elem_of_here.
    - intros [= <- _].
      repeat (first [apply list_elem_of_here | apply list_elem_of_further]). }
  destruct (negb (truthy (ns_file args)) && negb (truthy (ns_net args))).
  { intros [= <- _].
    repeat (first [apply list_elem_of_here | apply list_elem_of_further]). }
  destruct (ns_update_ytdlp args).
  { unfold try_except, bind.
    destruct (update_ytdlp _ w) as [[[]|e] w1]; intros [= <- _];
      repeat (first [apply list_elem_of_here | apply list_elem_of_further]). }
  unfold bind at 1.
  destruct (acquire_step args _ _ w) as [[[vf|code]|e] w1] eqn:Ea; [| |done].
  - intros Hp. apply pipeline_exit_codes in Hp.
    rewrite !elem_of_cons in Hp. rewrite !elem_of_cons. tauto.
  - intros [= <- _]. revert Ea. unfold acquire_step.
    destruct (truthy (ns_net args)).
    + unfold bind, gets, os_makedirs, syscall, try_except, ret.
      destruct (fault (fs w) _); [done|].
      destruct (download_video _ _ _ _ w) as [[vf|e] w2].
      * done.
      * cbn. intros [= <- _].
        repeat (first [apply list_elem_of_here | apply list_elem_of_further]).
    + cbv zeta. unfold bind. rewrite isfile_run.
      destruct (is_file _ _); cbn [negb]; [done|].
      intros [= <- _].
      repeat (first [apply list_elem_of_here | apply list_elem_of_further]).
Qed.

End main_pipeline.

Lemma contains_app c (a b : string) :
  contains c (a +:+ b) = contains c a || contains c b.
Proof.
  induction a as [|x a IH]; [done|].
  rewrite app_cons_string. cbn [contains]. by rewrite IH, orb_assoc.
Qed.

Lemma rsplit_after_absent c (s : string) :
  contains c s = false -> rsplit_after c s = ("", s).
Proof.
  induction s as [|x s IH]; [done|]. cbn [contains rsplit_after].
  intros [Hx Hs]%orb_false_iff. rewrite (IH Hs).
  apply bool_decide_eq_false in Hx.
  by rewrite bool_decide_eq_false_2 by congruence.
Qed.

Lemma rsplit_after_last c (a b : string) :
  contains c b = false ->
  rsplit_after c (a +:+ String c b) = (a +:+ String c "", b).
Proof.
  intros Hb. induction a as [|x a IH].
  - change (rsplit_after c (String c b) = (String c "", b)).
    cbn [rsplit_after]. rewrite (rsplit_after_absent c b Hb).
    by rewrite bool_decide_eq_true_2.
  - rewrite !app_cons_string. cbn [rsplit_after]. rewrite IH.
    destruct a; by rewrite ?app_cons_string.
Qed.

Lemma rstrip_sep_keeps (d : string) (ch : ascii) :
  last_char d = Some ch -> ch <> "/"%char -> rstrip_sep d = d.
Proof.
  induction d as [|x d IH]; [done|]. intros Hl Hc. cbn [rstrip_sep].
  destruct d as [|y d].
  - cbn in *. injection Hl as ->. by rewrite bool_decide_eq_false_2.
  - rewrite IH by done. done.
Qed.

Lemma rstrip_sep_app_sep (d : string) : rstrip_sep (d +:+ "/") = rstrip_sep d.
Proof.
  induction d as [|x d IH]; [done|].
  rewrite app_cons_string. cbn [rstrip_sep]. by rewrite IH.
Qed.

Lemma drop_last_app (a : string) (c : ascii) : drop_last (a +:+ String c "") = a.
Proof.
  induction a as [|x a IH]; [done|].
  rewrite app_cons_string. cbn [drop_last]. rewrite IH.
  destruct a; by rewrite ?app_cons_string.
Qed.

(** X20. The subtitles are looked for beside the video, under its stem:
    for a video [d/stem.ext], [main] computes the directory [d], the stem
    [stem] and the subtitle path [d/stem.srt]. *)
Theorem main_subtitle_beside_video (d stem ext : string) (ch : ascii) :
  last_char d = Some ch -> ch <> "/"%char ->
  contains "/" stem = false -> all_dots stem = false ->
  contains "/" ext = false -> contains "." ext = false ->
  let video_file := d +:+ "/" +:+ stem +:+ "." +:+ ext in
  dirname video_file = d /\
  splitext_root (basename video_file) = stem /\
  path_join (dirname video_file) (splitext_root (basename video_file) +:+ ".srt") =
    d +:+ "/" +:+ stem +:+ ".srt".
Proof.
  intros Hl Hc Hs Hd He1 He2 video_file.
  assert (contains "/" (stem +:+ "." +:+ ext) = false) as Hbase.
  { rewrite contains_app, Hs. change ("." +:+ ext) with (String "." ext).
    cbn [contains orb]. by rewrite He1. }
  assert (rsplit_after "/" video_file = (d +:+ "/", stem +:+ "." +:+ ext)) as Hsplit.
  { subst video_file. change ("/" +:+ stem +:+ "." +:+ ext)
      with (String "/" (stem +:+ "." +:+ ext)).
    by apply rsplit_after_last. }
  assert (dirname video_file = d) as Hdir.
  { unfold dirname. rewrite Hsplit. cbn [fst].
    rewrite rstrip_sep_app_sep, (rstrip_sep_keeps d ch) by done.
    destruct d; [done|done]. }
  assert (splitext_root (basename video_file) = stem) as Hroot.
  { unfold basename. rewrite Hsplit. cbn [snd]. unfold splitext_root.
    rewrite (rsplit_after_absent "/" _ Hbase).
    change ("." +:+ ext) with (String "." ext).
    rewrite (rsplit_after_last "." stem ext He2), drop_last_app, Hd.
    destruct stem; [done|]. by rewrite app_cons_string. }
  split; [done|]. split; [done|]. rewrite Hdir, Hroot.
  unfold path_join.
  assert (startswith (stem +:+ ".srt") "/" = false) as ->.
  { apply contains_startswith. rewrite contains_app, Hs. done. }
  assert (d <> "") by (by intros ->).
  rewrite bool_decide_eq_false_2 by done.
  assert (endswith d "/" = false) as ->; [|done].
  destruct (endswith d "/") eqn:E; [|done].
  apply endswith_last_char in E; [|done]. rewrite Hl in E. cbn in E. congruence.
Qed.

(** X21. For a video named without directory, [stem.ext], [main] computes
    an empty directory name and the subtitle path [stem.srt]. *)
Theorem main_bare_file_name (stem ext : string) :
  contains "/" stem = false -> all_dots stem = false ->
  contains "/" ext = false -> contains "." ext = false ->
  let video_file := stem +:+ "." +:+ ext in
  dirname video_file = "" /\
  path_join (dirname video_file) (splitext_root (basename video_file) +:+ ".srt") =
    stem +:+ ".srt".
Proof.
  intros Hs Hd He1 He2 video_file.
  assert (contains "/" video_file = false) as Hbase.
  { subst video_file. rewrite contains_app, Hs. change ("." +:+ ext) with (String "." ext).
    cbn [contains orb]. by rewrite He1. }
  assert (dirname video_file = "") as Hdir.
  { unfold dirname. by rewrite (rsplit_after_absent "/" _ Hbase). }
  split; [done|]. rewrite Hdir. unfold basename.
  rewrite (rsplit_after_absent "/" _ Hbase). cbn [snd]. unfold splitext_root.
  rewrite (rsplit_after_absent "/" _ Hbase). subst video_file.
  change ("." +:+ ext) with (String "." ext).
  rewrite (rsplit_after_last "." stem ext He2), drop_last_app, Hd.
  assert (stem +:+ String "." "" <> "") as Hne by (by destruct stem).
  destruct (stem +:+ String "." "") eqn:E; [done|].
  unfold path_join.
  assert (startswith (("" +:+ stem) +:+ ".srt") "/" = false) as ->.
  { apply contains_startswith. change ("" +:+ stem) with stem.
    rewrite contains_app, Hs. done. }
  done.
Qed.

(** ** Further runs on sample states *)

(** C6 fails on the code: with [DEBUG] off (the default), a promotion that
    fails is not reported anywhere. *)
Lemma postprocess_failure_unreported :
  promote_error stubborn "/v/movie.srt" "/v/movie_en.srt" staged_dir =
    Some "[Errno 13] Permission denied" /\
  files (fs (snd (@postprocess_subtitles idle_tools "/v" "movie" "pl"
                    (world_of staged_dir stubborn ∅)))) !! "/v/movie_en.srt" = None /\
  stderr (snd (@postprocess_subtitles idle_tools "/v" "movie" "pl"
                 (world_of staged_dir stubborn ∅))) = [] /\
  stdout (snd (@postprocess_subtitles idle_tools "/v" "movie" "pl"
                 (world_of staged_dir stubborn ∅))) = [].
Proof. repeat split; vm_compute; reflexivity. Qed.


(** A fallback copy that breaks off: nothing can be renamed, the copy of the
    transcript is refused outright and the copy of the translation fails
    after its bytes have arrived.  The canonical file then holds the
    translation, the staged translation is still there, and the transcript
    is lost. *)
Example postprocess_torn_copy :
  files (fs (snd (@postprocess_subtitles tearing_tools "/v" "movie" "pl"
                    (world_of staged_dir cross_device ∅)))) !! "/v/movie.srt" =
    Some (File "czesc" 1 false) /\
  files (fs (snd (@postprocess_subtitles tearing_tools "/v" "movie" "pl"
                    (world_of staged_dir cross_device ∅)))) !! "/v/movie_pl.srt" =
    Some (subtitle "czesc") /\
  files (fs (snd (@postprocess_subtitles tearing_tools "/v" "movie" "pl"
                    (world_of staged_dir cross_device ∅)))) !! "/v/movie_en.srt" = None /\
  take 2 (stderr (snd (@postprocess_subtitles tearing_tools "/v" "movie" "pl"
                         (world_of staged_dir cross_device ∅)))) =
    [ "[DEBUG] Failed to rename original English srt: [Errno 13] Permission denied";
      "[DEBUG] Failed to move translated srt to canonical name: [Errno 1] Operation not permitted" ].
Proof. repeat split; vm_compute; reflexivity. Qed.

Lemma postprocess_promotes_witness :
  "[DEBUG] Failed to rename original English srt: [Errno 13] Permission denied"
    ∈ stderr (snd (@postprocess_subtitles chatty_tools "/v" "movie" "pl"
                     (world_of staged_dir stubborn ∅))) /\
  files (fs (snd (@postprocess_subtitles chatty_tools "/v" "movie" "pl"
                    (world_of staged_dir stubborn ∅)))) !! "/v/movie.srt" =
    Some (subtitle "czesc").
Proof.
  destruct (@postprocess_promotes chatty_tools "/v" "movie" "pl"
              (world_of staged_dir stubborn ∅)) as (_ & F & L & _).
  split.
  - apply (L "[Errno 13] Permission denied"); reflexivity.
  - rewrite (F "/v/movie.srt") by (by left). vm_compute. reflexivity.
Defined.


(** The updater when [chmod] fails: [wget] and [chmod] have been started,
    [--version] has not, and the success message has not been printed. *)
Lemma update_ytdlp_stops_at_first_failure_witness :
  fst (@update_ytdlp chmod_fails_tools "/usr/local/bin/yt-dlp"
         (world_of ∅ no_fault ∅)) =
    Raise (CalledProcessError 7 [ "sudo"; "chmod"; "a+rx"; "/usr/local/bin/yt-dlp" ]) /\
  spawned (snd (@update_ytdlp chmod_fails_tools "/usr/local/bin/yt-dlp"
                  (world_of ∅ no_fault ∅))) =
    [ ([ "sudo"; "wget";
         "https://github.com/yt-dlp/yt-dlp/releases/latest/download/yt-dlp";
         "-O"; "/usr/local/bin/yt-dlp" ], ∅);
      ([ "sudo"; "chmod"; "a+rx"; "/usr/local/bin/yt-dlp" ], ∅) ] /\
  "yt-dlp updated successfully" ∉
    stderr (snd (@update_ytdlp chmod_fails_tools "/usr/local/bin/yt-dlp"
                   (world_of ∅ no_fault ∅))).
Proof.
  destruct (@update_ytdlp_stops_at_first_failure chmod_fails_tools
              "/usr/local/bin/yt-dlp" (world_of ∅ no_fault ∅)) as [F _].
  destruct (F 1%nat [ "sudo"; "chmod"; "a+rx"; "/usr/local/bin/yt-dlp" ] (Exited 7))
    as (E & S & _ & M).
  - reflexivity.
  - intros j Hj. assert (j = 0%nat) as -> by lia. reflexivity.
  - reflexivity.
  - discriminate.
  - split; [exact E|]. split; [exact S|].
    intros Hin. apply M in Hin. discriminate Hin.
Defined.

Lemma download_video_tool_missing_witness :
  exists w',
    @download_video idle_tools "https://example.org/clip" "/dl" "/bin/yt-dlp" "clip"
      (world_of ∅ no_fault ∅) =
      (Raise (FileNotFoundError
                ("yt-dlp not found at " +:+ "/bin/yt-dlp" +:+
                 ". Run --update-ytdlp to install.")), w') /\
    fs w' = fs (world_of ∅ no_fault ∅) /\
    spawned w' = spawned (world_of ∅ no_fault ∅) /\
    stdout w' = stdout (world_of ∅ no_fault ∅).
Proof.
  apply (@download_video_tool_missing idle_tools "https://example.org/clip" "/dl"
           "/bin/yt-dlp" "clip" (world_of ∅ no_fault ∅)).
  vm_compute. reflexivity.
Defined.

Lemma download_video_listing_refused_witness :
  exists w',
    @download_video idle_tools "https://example.org/clip" "" "/bin/yt-dlp" "clip"
      (world_of download_dir no_fault ∅) = (Raise (enoent ""), w') /\
    fs w' = fs (world_of download_dir no_fault ∅) /\
    spawned w' = spawned (world_of download_dir no_fault ∅).
Proof.
  apply (@download_video_listing_refused idle_tools "https://example.org/clip" ""
           "/bin/yt-dlp" "clip" (world_of download_dir no_fault ∅) (enoent "")).
  - vm_compute. reflexivity.
  - vm_compute. reflexivity.
Defined.

Lemma download_video_clears_stale_witness :
  exists w1,
    files (fs w1) !! "/dl/clip.mkv" = None /\
    files (fs w1) !! "/dl/holiday.mp4" = Some (File "other" 30 false) /\
    @download_video idle_tools "https://example.org/clip" "/dl" "/bin/yt-dlp" "clip"
      (world_of download_dir no_fault ∅) =
      (@run_cmd idle_tools
         (ytdlp_cmd "https://example.org/clip" "/dl" "/bin/yt-dlp" "clip") true None ;;;
       @pick_downloaded idle_tools "/dl" "clip") w1.
Proof.
  destruct (@download_video_clears_stale idle_tools "https://example.org/clip" "/dl"
              "/bin/yt-dlp" "clip" (world_of download_dir no_fault ∅)
              (dir_entries "/dl" download_dir))
    as (w1 & _ & _ & R & K & E).
  - vm_compute. reflexivity.
  - vm_compute. reflexivity.
  - exists w1. split; [|split].
    + apply (R "clip.mkv").
      * apply list_elem_of_In. vm_compute.
        repeat (first [left; reflexivity | right]).
      * vm_compute. reflexivity.
      * reflexivity.
    + rewrite (K "/dl/holiday.mp4") by (vm_compute; reflexivity).
      vm_compute. reflexivity.
    + exact E.
Defined.

Lemma download_video_downloader_failed_witness :
  fst (@download_video failing_tools "https://example.org/clip" "/dl" "/bin/yt-dlp"
         "clip" (world_of download_dir no_fault ∅)) =
    Raise (CalledProcessError 1
             (ytdlp_cmd "https://example.org/clip" "/dl" "/bin/yt-dlp" "clip")).
Proof.
  apply (@download_video_downloader_failed failing_tools "https://example.org/clip"
           "/dl" "/bin/yt-dlp" "clip" (world_of download_dir no_fault ∅)
           (dir_entries "/dl" download_dir) 1).
  - vm_compute. reflexivity.
  - vm_compute. reflexivity.
  - reflexivity.
  - discriminate.
Defined.

Lemma download_video_first_of_newest_witness :
  exists i p w3,
    @download_video twin_tools "https://example.org/clip" "/dl" "/bin/yt-dlp" "clip"
      (world_of download_dir no_fault ∅) = (Ok p, w3) /\
    (path_join "/dl" <$>
       filter (fun f => startswith f ("clip" +:+ ".") = true)
         (dir_entries "/dl"
            (files (fs (snd (@run_downloader twin_tools "https://example.org/clip"
                               "/dl" "/bin/yt-dlp" "clip"
                               (world_of download_dir no_fault ∅))))))) !! i = Some p /\
    mtime_at (snd (@run_downloader twin_tools "https://example.org/clip"
                     "/dl" "/bin/yt-dlp" "clip" (world_of download_dir no_fault ∅)))
      "/dl/clip.mp4" <=
    mtime_at (snd (@run_downloader twin_tools "https://example.org/clip"
                     "/dl" "/bin/yt-dlp" "clip" (world_of download_dir no_fault ∅)))
      p /\
    mtime_at (snd (@run_downloader twin_tools "https://example.org/clip"
                     "/dl" "/bin/yt-dlp" "clip" (world_of download_dir no_fault ∅)))
      "/dl/clip.webm" <=
    mtime_at (snd (@run_downloader twin_tools "https://example.org/clip"
                     "/dl" "/bin/yt-dlp" "clip" (world_of download_dir no_fault ∅)))
      p.
Proof.
  destruct (@download_video_first_of_newest twin_tools
              "https://example.org/clip" "/dl" "/bin/yt-dlp" "clip"
              (world_of download_dir no_fault ∅)
              (snd (@run_downloader twin_tools "https://example.org/clip"
                      "/dl" "/bin/yt-dlp" "clip" (world_of download_dir no_fault ∅)))
              (dir_entries "/dl"
                 (files (fs (snd (@run_downloader twin_tools "https://example.org/clip"
                                    "/dl" "/bin/yt-dlp" "clip"
                                    (world_of download_dir no_fault ∅)))))))
    as (i & p & w3 & E & L & _ & M).
  - vm_compute. reflexivity.
  - vm_compute. reflexivity.
  - vm_compute. discriminate.
  - intros p _. reflexivity.
  - exists i, p, w3. split; [exact E|]. split; [exact L|].
    split; apply M; apply list_elem_of_In; vm_compute;
      repeat (first [left; reflexivity | right]).
Defined.

Lemma postprocess_subtitles_silent_witness :
  stderr (snd (@postprocess_subtitles idle_tools "/v" "movie" "pl"
                 (world_of staged_dir stubborn ∅))) =
    stderr (world_of staged_dir stubborn ∅) /\
  stdout (snd (@postprocess_subtitles idle_tools "/v" "movie" "pl"
                 (world_of staged_dir stubborn ∅))) =
    stdout (world_of staged_dir stubborn ∅).
Proof.
  apply (@postprocess_subtitles_silent idle_tools "/v" "movie" "pl"
           (world_of staged_dir stubborn ∅)).
  reflexivity.
Defined.

Lemma postprocess_subtitles_frame_witness :
  files (fs (snd (@postprocess_subtitles idle_tools "/v" "movie" "pl"
                    (world_of staged_dir no_fault ∅)))) !! "/v/movie.mp4" =
    Some (File "video" 0 false).
Proof.
  destruct (@postprocess_subtitles_frame idle_tools "/v" "movie" "pl"
              (world_of staged_dir no_fault ∅) "/v/movie.mp4") as [E _].
  - intros Hp. apply list_elem_of_In in Hp. vm_compute in Hp.
    destruct Hp as [Hp|[Hp|[Hp|[]]]]; discriminate Hp.
  - intros n Hn E.
    assert (n <> "") as Hne by (intros ->; vm_compute in Hn; discriminate Hn).
    apply endswith_last_char in Hn; [|done].
    rewrite suffix_last in Hn.
    pose proof (path_join_last "/v" n Hne) as L.
    rewrite <- E, Hn in L. vm_compute in L. discriminate L.
  - rewrite E. vm_compute. reflexivity.
Defined.

Lemma postprocess_subtitles_reconciles_witness :
  files (fs (snd (@postprocess_subtitles idle_tools "/v" "movie" "pl"
                    (world_of staged_dir no_fault ∅)))) !! "/v/movie_en.srt" =
    Some (subtitle "hello") /\
  files (fs (snd (@postprocess_subtitles idle_tools "/v" "movie" "pl"
                    (world_of staged_dir no_fault ∅)))) !! "/v/movie.srt" =
    Some (subtitle "czesc") /\
  files (fs (snd (@postprocess_subtitles idle_tools "/v" "movie" "pl"
                    (world_of staged_dir no_fault ∅)))) !! "/v/movie_pl.srt" = None.
Proof.
  apply (@postprocess_subtitles_reconciles idle_tools "/v" "movie" "pl"
           (world_of staged_dir no_fault ∅) (subtitle "hello") (subtitle "czesc")).
  - discriminate.
  - reflexivity.
  - vm_compute. reflexivity.
  - reflexivity.
  - vm_compute. reflexivity.
  - left. reflexivity.
  - left. reflexivity.
Defined.

Lemma postprocess_subtitles_target_en_witness :
  files (fs (snd (@postprocess_subtitles idle_tools "/v" "movie" "en"
                    (world_of english_dir no_fault ∅)))) !! "/v/movie.srt" =
    Some (subtitle "hello") /\
  files (fs (snd (@postprocess_subtitles idle_tools "/v" "movie" "en"
                    (world_of english_dir no_fault ∅)))) !! "/v/movie_en.srt" = None.
Proof.
  apply (@postprocess_subtitles_target_en idle_tools "/v" "movie"
           (world_of english_dir no_fault ∅) (subtitle "hello")).
  - reflexivity.
  - vm_compute. reflexivity.
  - reflexivity.
  - left. reflexivity.
  - left. reflexivity.
Defined.

Lemma postprocess_subtitles_empty_dir_witness :
  files (fs (snd (@postprocess_subtitles chatty_tools "" "movie" "pl"
                    (world_of bare_dir no_fault ∅)))) !! "movie.progress_pl.csv" =
    Some (File "1" 0 false) /\
  "[DEBUG] Error while cleaning progress files: [Errno 2] No such file or directory: ''"
    ∈ stderr (snd (@postprocess_subtitles chatty_tools "" "movie" "pl"
                     (world_of bare_dir no_fault ∅))).
Proof.
  destruct (@postprocess_subtitles_empty_dir chatty_tools "movie" "pl"
              (world_of bare_dir no_fault ∅)) as (_ & F & L).
  split.
  - rewrite (F "movie.progress_pl.csv").
    + vm_compute. reflexivity.
    + intros Hp. apply list_elem_of_In in Hp. vm_compute in Hp.
      destruct Hp as [Hp|[Hp|[Hp|[]]]]; discriminate Hp.
  - apply L. reflexivity.
Defined.

Lemma main_postprocess_only_witness :
  (exists w',
     @main idle_tools false (postprocess_args "/v/movie.mp4")
       (world_of staged_dir no_fault ∅) = (Ok 0, w') /\
     spawned w' = [] /\
     stdout w' = ["English subtitles: /v/movie_en.srt";
                  "Translated subtitles: /v/movie.srt"]) /\
  @main idle_tools false (postprocess_args "/v/movie.mp4") (world_of ∅ no_fault ∅) =
    (Ok 4, with_stderr ["Error: File not found: /v/movie.mp4"] (world_of ∅ no_fault ∅)).
Proof.
  split.
  - pose proof (@main_postprocess_only idle_tools (postprocess_args "/v/movie.mp4")
                  (world_of staged_dir no_fault ∅) "/" "v/movie.mp4" eq_refl) as P.
    change (is_file _ _) with true in P. cbv beta iota zeta in P.
    destruct P as (w' & E & _ & S & O). exists w'.
    split; [exact E|]. split; [exact S|]. rewrite O. vm_compute. reflexivity.
  - pose proof (@main_postprocess_only idle_tools (postprocess_args "/v/movie.mp4")
                  (world_of ∅ no_fault ∅) "/" "v/movie.mp4" eq_refl) as P.
    change (is_file _ _) with false in P. cbv beta iota zeta in P. exact P.
Defined.

Lemma main_skip_whisper_missing_subtitle_witness :
  exists w',
    @main idle_tools false (file_args "/v/movie.mp4" true)
      (world_of video_dir_only no_fault ∅) = (Ok 8, w') /\
    fs w' = fs (world_of video_dir_only no_fault ∅) /\
    spawned w' = spawned (world_of video_dir_only no_fault ∅).
Proof.
  apply (@main_skip_whisper_missing_subtitle idle_tools (file_args "/v/movie.mp4" true)
           (world_of video_dir_only no_fault ∅) "/" "v/movie.mp4").
  all: vm_compute; reflexivity.
Defined.

Lemma main_transcription_failed_witness :
  exists w',
    @main failing_tools false (file_args "/v/movie.mp4" false)
      (world_of video_dir_only no_fault ∅) = (Ok 5, w') /\
    fs w' = fs (world_of video_dir_only no_fault ∅) /\
    spawned w' =
      [ (whisper_cmd "/v/movie.mp4" "/v" "large" "en", ∅) ].
Proof.
  pose proof (@main_transcription_failed failing_tools (file_args "/v/movie.mp4" false)
                (world_of video_dir_only no_fault ∅) "/" "v/movie.mp4"
                eq_refl eq_refl eq_refl eq_refl eq_refl) as P.
  assert (is_file (fs (world_of video_dir_only no_fault ∅)) "/v/movie.mp4" = true)
    as F by (vm_compute; reflexivity).
  specialize (P F). cbv zeta in P. specialize (P 5).
  destruct P as (w' & E & D & S).
  - vm_compute. reflexivity.
  - exists w'. split; [exact E|]. split.
    + rewrite D. reflexivity.
    + rewrite S. vm_compute. reflexivity.
Defined.

Lemma main_translation_failed_witness :
  fst (@main failing_tools false (file_args "/v/movie.mp4" true)
         (world_of staged_dir no_fault ∅)) = Ok 9 /\
  fst (@main failing_tools false (file_args "movie.mp4" true)
         (world_of bare_dir no_fault ∅)) = Raise (enoent "").
Proof.
  split.
  - pose proof (@main_translation_failed failing_tools (file_args "/v/movie.mp4" true)
                  (world_of staged_dir no_fault ∅) "/" "v/movie.mp4"
                  eq_refl eq_refl eq_refl eq_refl) as P.
    assert (is_file (fs (world_of staged_dir no_fault ∅)) "/v/movie.mp4" = true)
      as F by (vm_compute; reflexivity).
    specialize (P F). cbv zeta in P.
    destruct P as [E _].
    + discriminate.
    + vm_compute. reflexivity.
    + vm_compute. discriminate.
    + rewrite E. vm_compute. reflexivity.
  - pose proof (@main_translation_failed failing_tools (file_args "movie.mp4" true)
                  (world_of bare_dir no_fault ∅) "m" "ovie.mp4"
                  eq_refl eq_refl eq_refl eq_refl) as P.
    assert (is_file (fs (world_of bare_dir no_fault ∅)) "movie.mp4" = true)
      as F by (vm_compute; reflexivity).
    specialize (P F). cbv zeta in P.
    destruct P as [_ E].
    + discriminate.
    + vm_compute. reflexivity.
    + vm_compute. discriminate.
    + apply E. vm_compute. reflexivity.
Defined.

Lemma main_translation_output_missing_witness :
  exists w',
    @main idle_tools false (file_args "/v/movie.mp4" true)
      (world_of finished_dir no_fault ∅) = (Ok 10, w') /\
    files (fs w') = finished_dir.
Proof.
  pose proof (@main_translation_output_missing idle_tools (file_args "/v/movie.mp4" true)
                (world_of finished_dir no_fault ∅) "/" "v/movie.mp4"
                eq_refl eq_refl eq_refl eq_refl) as P.
  assert (is_file (fs (world_of finished_dir no_fault ∅)) "/v/movie.mp4" = true)
    as F by (vm_compute; reflexivity).
  specialize (P F). cbv zeta in P.
  destruct P as (w' & E & D).
  - discriminate.
  - vm_compute. reflexivity.
  - reflexivity.
  - vm_compute. reflexivity.
  - exists w'. split; [exact E|]. rewrite D. reflexivity.
Defined.

Lemma main_end_to_end_witness :
  exists w',
    @main pipeline_tools false (file_args "/v/movie.mp4" false)
      (world_of video_dir_only no_fault ∅) = (Ok 0, w') /\
    files (fs w') !! "/v/movie_en.srt" = Some (subtitle "hello") /\
    files (fs w') !! "/v/movie.srt" = Some (subtitle "czesc") /\
    files (fs w') !! "/v/movie_pl.srt" = None /\
    files (fs w') !! "/v/movie.progress_pl.csv" = None /\
    length (spawned w') = 2%nat.
Proof.
  pose proof (@main_end_to_end pipeline_tools (file_args "/v/movie.mp4" false)
                (world_of video_dir_only no_fault ∅) "/" "v/movie.mp4"
                eq_refl eq_refl eq_refl eq_refl) as P.
  assert (is_file (fs (world_of video_dir_only no_fault ∅)) "/v/movie.mp4" = true)
    as F by (vm_compute; reflexivity).
  specialize (P F). cbv zeta in P.
  destruct P as (w' & E & D & _ & S).
  - intros _. vm_compute. reflexivity.
  - vm_compute. reflexivity.
  - vm_compute. reflexivity.
  - vm_compute. reflexivity.
  - exists w'. split; [exact E|]. rewrite D, S.
    repeat split; vm_compute; reflexivity.
Defined.

Lemma main_exit_codes_witness :
  8 ∈ exit_codes.
Proof.
  apply (@main_exit_codes idle_tools false (file_args "/v/movie.mp4" true)
           (world_of video_dir_only no_fault ∅) 8
           (snd (@main idle_tools false (file_args "/v/movie.mp4" true)
                   (world_of video_dir_only no_fault ∅)))).
  vm_compute. reflexivity.
Defined.

Lemma main_subtitle_beside_video_witness :
  dirname "/home/u/film/movie.mp4" = "/home/u/film" /\
  splitext_root (basename "/home/u/film/movie.mp4") = "movie" /\
  path_join (dirname "/home/u/film/movie.mp4")
    (splitext_root (basename "/home/u/film/movie.mp4") +:+ ".srt") =
    "/home/u/film/movie.srt".
Proof.
  apply (main_subtitle_beside_video "/home/u/film" "movie" "mp4" "m").
  all: try reflexivity. discriminate.
Defined.

Lemma main_bare_file_name_witness :
  dirname "movie.mp4" = "" /\
  path_join (dirname "movie.mp4") (splitext_root (basename "movie.mp4") +:+ ".srt") =
    "movie.srt".
Proof.
  apply (main_bare_file_name "movie" "mp4"); reflexivity.
Defined.
